(** * Flight deal discovery core: budgeted search, strategies, analyser, curator

    A shallow embedding of the TypeScript sources

      - [types.ts]          (shared records [Leg] and [Deal]),
      - [serpapi.ts]        ([searchGoogleFlights], [searchHiddenCityFlights],
                            [searchFlexibleDates]),
      - [airportData.ts]    (the airport table, [findOptimalHubs],
                            [getRouteType]),
      - [pricingEngine.ts]  ([calculateAwardMiles]),
      - [smartSearch.ts]    (the per-search call budget and the selectors
                            of alternatives, beyond cities and hubs),
      - [dealFinder.ts]     (the nearby-airport, split-ticket, positioning
                            and connecting strategies),
      - [dataAnalyzer.ts]   ([analyzeFlightData], [createDeal]),
      - [resultGrouper.ts]  ([groupAndCurateResults], [getFlightKey]),

    followed by the properties proved about them.

    Conventions of the embedding.

    - Prices, durations and risk scores are JavaScript numbers that the
      provider reports as whole numbers (US dollars, minutes); they are
      modelled as [Z].  A comparison [p < b * 0.85] on such values is
      written [100 * p < 85 * b]; [Math.floor (p / 10) * 10] is
      [p / 10 * 10] with the floor division of [Z].
    - Strings are [string]; a template literal that prints an optional
      value prints ["undefined"] when the value is missing.
    - A JavaScript [Set] is used for membership only and is a [gset]; a
      JavaScript [Map] is iterated in insertion order and is an
      association list in that order.
    - [Array.prototype.sort] is stable; it is an insertion sort that keeps
      the input order of elements with equal keys.
    - What depends on the host (the clock's time zone, locale formatting,
      the network) is a [Variable] of the section that uses it.
    - A table written as an object literal is looked up by its own keys;
      what is proved about such a lookup is stated for keys that are not
      property names inherited from [Object.prototype] ([Js.plainKey]). *)

From Stdlib Require Import ZArith Lia Ascii String QArith_base Qabs Qround.
From stdpp Require Import base list strings gmap sorting pretty.

Close Scope Q_scope.
Local Open Scope string_scope.
Local Open Scope list_scope.
Local Open Scope Z_scope.

(** ** JavaScript idioms shared by the modules *)

Module Js.

(** [`${x}`] for an optional string. *)
Definition tmpl (x : option string) : string := default "undefined" x.

(** [x || d] on strings: the empty string is falsy. *)
Definition or_str (x : option string) (d : string) : string :=
  match x with
  | Some s => if decide (s = "") then d else s
  | None => d
  end.

(** [x || d] on numbers: [0] is falsy. *)
Definition or_num (x : option Z) (d : Z) : Z :=
  match x with
  | Some n => if decide (n = 0) then d else n
  | None => d
  end.

(** [s.includes(sub)]. *)
Fixpoint includes (s sub : string) : bool :=
  String.prefix sub s ||
  match s with
  | EmptyString => false
  | String _ rest => includes rest sub
  end.

(** [Math.round (a / b)] for whole [a] and [b > 0]: ties go up. *)
Definition round_div (a b : Z) : Z := (2 * a + b) / (2 * b).

(** [xs.sort ((a, b) => key a - key b)]: stable, ascending. *)
Section Sort.
Context {A : Type} (key : A → Z).

Fixpoint insert_by (x : A) (l : list A) : list A :=
  match l with
  | [] => [x]
  | y :: l' => if decide (key x ≤ key y) then x :: y :: l'
               else y :: insert_by x l'
  end.

Definition sort_by (l : list A) : list A := foldr insert_by [] l.
End Sort.

(** [Map<K, V>] in insertion order. *)
Section OrderedMap.
Context {K V : Type} `{EqDecision K}.

Definition JsMap := list (K * V).

Fixpoint map_get (m : JsMap) (k : K) : option V :=
  match m with
  | [] => None
  | (k', v) :: m' => if decide (k' = k) then Some v else map_get m' k
  end.

Definition map_has (m : JsMap) (k : K) : bool :=
  bool_decide (is_Some (map_get m k)).

(** [m.set(k, v)]: an existing key keeps its position. *)
Fixpoint map_set (m : JsMap) (k : K) (v : V) : JsMap :=
  match m with
  | [] => [(k, v)]
  | (k', v') :: m' => if decide (k' = k) then (k, v) :: m'
                      else (k', v') :: map_set m' k v
  end.
End OrderedMap.
Global Arguments JsMap : clear implicits.

(** The property names that every object inherits from [Object.prototype].
    An object literal used as a table answers such a name with the
    inherited value instead of [undefined]; the tables below are modelled
    by their own keys, which describes the code for every other key. *)
Definition objectPrototypeKeys : list string :=
  ["constructor"; "__defineGetter__"; "__defineSetter__"; "hasOwnProperty";
   "__lookupGetter__"; "__lookupSetter__"; "isPrototypeOf";
   "propertyIsEnumerable"; "toString"; "valueOf"; "__proto__";
   "toLocaleString"].

Definition plainKey (k : string) : Prop := k ∉ objectPrototypeKeys.

End Js.

(** ** [types.ts] *)

Module Types.

Inductive Strategy :=
  | HiddenCity | Award | Error | Currency | Standard | Throwaway.

#[global] Instance Strategy_eq_dec : EqDecision Strategy.
Proof. solve_decision. Defined.

Record Leg := {
  origin : string;
  destination : string;
  departureDate : string;
  arrivalDate : string;
  airline : string;
  flightNumber : string;
  duration : Z;
  stops : Z;
}.

Record Deal := {
  priceUsd : Z;
  strategy : Strategy;
  riskScore : Z;
  bookingLink : string;
  explanation : string;
  legs : list Leg;
}.

End Types.

(** ** [resultGrouper.ts] *)

Module ResultGrouper.
Import Types.

Record CheapestByTime := {
  morning : list Deal;
  afternoon : list Deal;
  evening : list Deal;
  overnight : list Deal;
}.

Record GroupedResults := {
  bestOverall : option Deal;
  cheapestByTime : CheapestByTime;
  byAirline : Js.JsMap string (list Deal);
  byStrategy : Js.JsMap Strategy (list Deal);
  specialDeals : list Deal;
  topDeals : list Deal;
}.

Definition getFlightKey (deal : Deal) : string :=
  let leg := head (legs deal) in
  Js.tmpl (airline <$> leg) +:+ "-" +:+
  Js.tmpl (flightNumber <$> leg) +:+ "-" +:+
  Js.tmpl (departureDate <$> leg).

Definition sortByPrice : list Deal → list Deal := Js.sort_by priceUsd.

(** The curated list under construction with the keys already in it. *)
Record Curation := {
  top : list Deal;
  addedFlights : gset string;
}.

Definition push (c : Curation) (deal : Deal) : Curation :=
  {| top := top c ++ [deal];
     addedFlights := {[ getFlightKey deal ]} ∪ addedFlights c |}.

Definition pushIfNew (c : Curation) (deal : Deal) : Curation :=
  if decide (getFlightKey deal ∈ addedFlights c) then c else push c deal.

(** Step 1: the cheapest deal. *)
Definition addCheapest (sorted : list Deal) : Curation :=
  match sorted with
  | d :: _ => push {| top := []; addedFlights := ∅ |} d
  | [] => {| top := []; addedFlights := ∅ |}
  end.

(** Step 2: the special deals, while fewer than 30 are selected. *)
Definition addSpecial (c : Curation) (deal : Deal) : Curation :=
  if decide ((getFlightKey deal ∉ addedFlights c) ∧ (length (top c) < 30)%nat)
  then push c deal else c.

(** Steps 3 and 4: [for (i = 0; i < 2 && i < group.length &&
    topDeals.length < 40; i++)], run over the first two deals of the
    group; the loop is left as soon as 40 deals are selected. *)
Fixpoint addFromGroupLoop (group : list Deal) (c : Curation) : Curation :=
  match group with
  | [] => c
  | d :: rest =>
      if decide (length (top c) < 40)%nat
      then addFromGroupLoop rest (pushIfNew c d)
      else c
  end.

Definition addFromGroup (c : Curation) (group : list Deal) : Curation :=
  addFromGroupLoop (take 2 group) c.

Definition pricePoint (deal : Deal) : Z := priceUsd deal / 10 * 10.

(** Step 5: deals at price points not seen yet, until 35 are selected. *)
Fixpoint fillPriceVariety (sorted : list Deal) (pricesSeen : gset Z)
    (c : Curation) : Curation :=
  match sorted with
  | [] => c
  | deal :: rest =>
      if decide (35 ≤ length (top c))%nat then c
      else if decide ((pricePoint deal ∉ pricesSeen)
                      ∧ (getFlightKey deal ∉ addedFlights c))
           then fillPriceVariety rest ({[ pricePoint deal ]} ∪ pricesSeen)
                  (push c deal)
           else fillPriceVariety rest pricesSeen c
  end.

Section WithClock.
(** [new Date(s).getHours()] in the host's time zone; [None] is [NaN]
    (an unparsable date). *)
Variable getHours : string → option Z.

Definition pushUpTo2 (l : list Deal) (deal : Deal) : list Deal :=
  if decide (length l < 2)%nat then l ++ [deal] else l.

Definition groupByTime (cbt : CheapestByTime) (deal : Deal)
    : CheapestByTime :=
  let timeStr := Js.or_str (departureDate <$> head (legs deal)) "" in
  let hour := getHours timeStr in
  let within lo hi :=
    match hour with
    | Some h => bool_decide (lo ≤ h ∧ h < hi)
    | None => false
    end in
  if within 6 12 then
    {| morning := pushUpTo2 (morning cbt) deal;
       afternoon := afternoon cbt; evening := evening cbt;
       overnight := overnight cbt |}
  else if within 12 18 then
    {| morning := morning cbt;
       afternoon := pushUpTo2 (afternoon cbt) deal;
       evening := evening cbt; overnight := overnight cbt |}
  else if within 18 24 then
    {| morning := morning cbt; afternoon := afternoon cbt;
       evening := pushUpTo2 (evening cbt) deal;
       overnight := overnight cbt |}
  else
    {| morning := morning cbt; afternoon := afternoon cbt;
       evening := evening cbt;
       overnight := pushUpTo2 (overnight cbt) deal |}.

Definition groupByAirline (m : Js.JsMap string (list Deal)) (deal : Deal)
    : Js.JsMap string (list Deal) :=
  let airline := Js.or_str (airline <$> head (legs deal)) "Unknown" in
  let m := if Js.map_has m airline then m else Js.map_set m airline [] in
  let airlineDeals := default [] (Js.map_get m airline) in
  Js.map_set m airline (pushUpTo2 airlineDeals deal).

Definition groupByStrategy (m : Js.JsMap Strategy (list Deal))
    (deal : Deal) : Js.JsMap Strategy (list Deal) :=
  let m := if Js.map_has m (strategy deal) then m
           else Js.map_set m (strategy deal) [] in
  Js.map_set m (strategy deal)
    (default [] (Js.map_get m (strategy deal)) ++ [deal]).

Definition emptyByTime : CheapestByTime :=
  {| morning := []; afternoon := []; evening := []; overnight := [] |}.

(** [Object.values(result.cheapestByTime)]: in declaration order. *)
Definition periods (cbt : CheapestByTime) : list (list Deal) :=
  [morning cbt; afternoon cbt; evening cbt; overnight cbt].

Definition curate (sorted special : list Deal)
    (cbt : CheapestByTime) (airlines : Js.JsMap string (list Deal))
    : list Deal :=
  let c1 := addCheapest sorted in
  let c2 := foldl addSpecial c1 special in
  let c3 := foldl addFromGroup c2 (periods cbt) in
  let c4 := foldl addFromGroup c3 (snd <$> airlines) in
  let pricesSeen : gset Z := list_to_set (pricePoint <$> top c4) in
  let c5 := fillPriceVariety sorted pricesSeen c4 in
  sortByPrice (top c5).

Definition groupAndCurateResults (deals : list Deal) : GroupedResults :=
  match deals with
  | [] =>
      {| bestOverall := None;
         cheapestByTime := emptyByTime;
         byAirline := [];
         byStrategy := [];
         specialDeals := [];
         topDeals := [] |}
  | _ =>
      let sorted := sortByPrice deals in
      let cbt := foldl groupByTime emptyByTime deals in
      let airlines := foldl groupByAirline [] deals in
      let strategies := foldl groupByStrategy [] deals in
      let special :=
        filter (λ d, strategy d ≠ Standard) deals in
      {| bestOverall := head sorted;
         cheapestByTime := cbt;
         byAirline := airlines;
         byStrategy := strategies;
         specialDeals := special;
         topDeals := curate sorted special cbt airlines |}
  end.
End WithClock.

End ResultGrouper.

(** ** A state monad for code that talks to the outside world *)

Module Eff.

Definition M (S A : Type) : Type := S → A * S.

Definition ret {S A} (a : A) : M S A := λ s, (a, s).

Definition bind {S A B} (c : M S A) (k : A → M S B) : M S B :=
  λ s, let '(a, s') := c s in k a s'.

(** [await]-ing the tasks of [xs.map(async x => ...)] one after the
    other, in the order in which they were started. *)
Fixpoint mapM {S A B} (f : A → M S B) (xs : list A) : M S (list B) :=
  match xs with
  | [] => ret []
  | x :: xs' => bind (f x) (λ y, bind (mapM f xs') (λ ys, ret (y :: ys)))
  end.

End Eff.

Notation "'let*' x := c 'in' k" := (Eff.bind c (λ x, k))
  (at level 10, x name, c at level 100, k at level 200).

(** ** [serpapi.ts] *)

Module SerpApi.

Record Airport := {
  airport_name : string;
  airport_id : string;
  airport_time : string;
}.

Record Layover := {
  layover_duration : Z;
  layover_name : string;
  layover_id : string;
}.

(** An element of [SerpFlightResult.flights]. *)
Record FlightLeg := {
  departure_airport : Airport;
  arrival_airport : Airport;
  duration : Z;
  airplane : string;
  airline : string;
  airline_logo : string;
  travel_class : string;
  flight_number : string;
  legroom : string;
  extensions : list string;
  layovers : option (list Layover);
}.

Record SerpFlightResult := {
  flights : list FlightLeg;
  price : Z;
  type : string;
  booking_token : option string;
}.

(** The fields of [SerpApiResponse] that the code reads. *)
Record SerpApiResponse := {
  search_metadata_status : string;
  best_flights : option (list SerpFlightResult);
  other_flights : option (list SerpFlightResult);
}.

(** The query string of one request, as [URLSearchParams] holds it. *)
Record Request := {
  param_engine : string;
  param_departure_id : string;
  param_arrival_id : string;
  param_outbound_date : string;
  param_currency : string;
  param_hl : string;
  param_api_key : string;
  param_type : string;
  param_return_date : option string;
  param_travel_class : string;
}.

(** What [fetch] followed by [response.json()] can do: the request is
    rejected, or a response arrives with its [ok] flag and, when the body
    parses as a [SerpApiResponse], that body. *)
Inductive FetchResult :=
  | FetchRejected
  | HttpStatus (ok : bool) (json : option SerpApiResponse).

Record HiddenCityResult := {
  beyondDestination : string;
  hiddenCityFlights : list SerpFlightResult;
}.

Definition majorHubs : list string :=
  ["LAX"; "JFK"; "SFO"; "ORD"; "ATL"; "DEN"; "DFW"; "SEA"; "MIA"; "LHR";
   "CDG"; "NRT"].

(** [flight.flights.some(leg => leg.layovers?.some(l => l.id === dest))] *)
Definition hasLayoverAt (destination : string) (flight : SerpFlightResult)
    : bool :=
  existsb
    (λ leg,
       match layovers leg with
       | Some ls => existsb (λ l, bool_decide (layover_id l = destination)) ls
       | None => false
       end)
    (flights flight).

Section WithNetwork.
Variable SERP_API_KEY : string.
(** The answer to a request, given the requests sent before it. *)
Variable fetch : list Request → Request → FetchResult.

(** The state is the log of the requests sent so far. *)
Definition Net := Eff.M (list Request).

Definition truthy (s : option string) : bool :=
  match s with
  | Some s => negb (bool_decide (s = ""))
  | None => false
  end.

Definition searchGoogleFlights (origin destination departureDate : string)
    (returnDate : option string) (travelClass : string)
    : Net (list SerpFlightResult) :=
  λ sent,
    let request :=
      {| param_engine := "google_flights";
         param_departure_id := origin;
         param_arrival_id := destination;
         param_outbound_date := departureDate;
         param_currency := "USD";
         param_hl := "en";
         param_api_key := SERP_API_KEY;
         param_type := if truthy returnDate then "1" else "2";
         param_return_date :=
           if truthy returnDate then returnDate else None;
         param_travel_class :=
           if decide (travelClass = "business") then "2"
           else if decide (travelClass = "first") then "3"
           else "1" |} in
    let results :=
      match fetch sent request with
      | FetchRejected => []
      | HttpStatus false _ => []
      | HttpStatus true None => []
      | HttpStatus true (Some data) =>
          if decide (search_metadata_status data ≠ "Success") then []
          else default [] (best_flights data)
               ++ default [] (take 10 <$> other_flights data)
      end in
    (results, sent ++ [request]).

(** The body of the [async] closure mapped over the beyond cities. *)
Definition searchBeyond (origin destination departureDate beyondDest : string)
    : Net (option HiddenCityResult) :=
  let* flights :=
    searchGoogleFlights origin beyondDest departureDate None "economy" in
  let hidden := filter (λ f, hasLayoverAt destination f = true) flights in
  Eff.ret (if decide (0 < length hidden)%nat
           then Some {| beyondDestination := beyondDest;
                        hiddenCityFlights := hidden |}
           else None).

Definition searchHiddenCityFlights (origin destination departureDate : string)
    : Net (list HiddenCityResult) :=
  let beyondDestinations :=
    filter (λ hub, hub ≠ origin ∧ hub ≠ destination) majorHubs in
  let* settled :=
    Eff.mapM (searchBeyond origin destination departureDate)
      (take 5 beyondDestinations) in
  Eff.ret (omap id settled).
End WithNetwork.

Record DateResult := {
  date : string;
  dateFlights : list SerpFlightResult;
}.

Section FlexibleDates.
Variable SERP_API_KEY : string.
Variable fetch : list Request → Request → FetchResult.
(** [new Date(centerDate)] moved by [i] days with [setDate], printed by
    [toISOString] and cut at its ["T"]; [None] when that is no date
    ([toISOString] throws). *)
Variable shiftDate : string → Z → option string.

(** The values of [i] in [for (let i = -dayRange; i <= dayRange; i++)],
    for a whole [dayRange]. *)
Definition dayOffsets (dayRange : Z) : list Z :=
  (λ k : nat, - dayRange + Z.of_nat k)
    <$> seq 0 (Z.to_nat (2 * dayRange + 1)).

(** The body of the [async] closure mapped over the dates. *)
Definition searchDate (origin destination date : string)
    : Eff.M (list Request) DateResult :=
  let* flights :=
    searchGoogleFlights SERP_API_KEY fetch origin destination date None
      "economy" in
  Eff.ret {| date := date; dateFlights := flights |}.

(** [None] is the rejection of the returned promise: the dates are all
    computed before the first search starts. *)
Definition searchFlexibleDates (origin destination centerDate : string)
    (dayRange : Z) : Eff.M (list Request) (option (list DateResult)) :=
  match mapM (shiftDate centerDate) (dayOffsets dayRange) with
  | None => Eff.ret None
  | Some dates =>
      let* results := Eff.mapM (searchDate origin destination) dates in
      Eff.ret (Some (filter (λ r, 0 < length (dateFlights r))%nat results))
  end.
End FlexibleDates.

End SerpApi.

(** ** [airportData.ts] *)

Module AirportData.

Record Airport := {
  code : string;
  name : string;
  city : string;
  country : string;
  lat : QArith_base.Q;
  lon : QArith_base.Q;
  timezone : string;
}.

Definition AIRPORTS : list (string * Airport) :=
  [
   ("JFK", {| code := "JFK"; name := "John F Kennedy Intl"; city := "New York";
             country := "US"; lat := 40.6413%Q; lon := (-73.7781)%Q;
             timezone := "America/New_York" |});
   ("LAX", {| code := "LAX"; name := "Los Angeles Intl"; city := "Los Angeles";
             country := "US"; lat := 33.9416%Q; lon := (-118.4085)%Q;
             timezone := "America/Los_Angeles" |});
   ("ORD", {| code := "ORD"; name := "O'Hare Intl"; city := "Chicago";
             country := "US"; lat := 41.9742%Q; lon := (-87.9073)%Q;
             timezone := "America/Chicago" |});
   ("ATL", {| code := "ATL"; name := "Hartsfield-Jackson Atlanta Intl"; city := "Atlanta";
             country := "US"; lat := 33.6407%Q; lon := (-84.4277)%Q;
             timezone := "America/New_York" |});
   ("DFW", {| code := "DFW"; name := "Dallas/Fort Worth Intl"; city := "Dallas";
             country := "US"; lat := 32.8998%Q; lon := (-97.0403)%Q;
             timezone := "America/Chicago" |});
   ("DEN", {| code := "DEN"; name := "Denver Intl"; city := "Denver";
             country := "US"; lat := 39.8561%Q; lon := (-104.6737)%Q;
             timezone := "America/Denver" |});
   ("SFO", {| code := "SFO"; name := "San Francisco Intl"; city := "San Francisco";
             country := "US"; lat := 37.6213%Q; lon := (-122.3790)%Q;
             timezone := "America/Los_Angeles" |});
   ("SEA", {| code := "SEA"; name := "Seattle-Tacoma Intl"; city := "Seattle";
             country := "US"; lat := 47.4502%Q; lon := (-122.3088)%Q;
             timezone := "America/Los_Angeles" |});
   ("LAS", {| code := "LAS"; name := "Harry Reid Intl"; city := "Las Vegas";
             country := "US"; lat := 36.0840%Q; lon := (-115.1537)%Q;
             timezone := "America/Los_Angeles" |});
   ("MCO", {| code := "MCO"; name := "Orlando Intl"; city := "Orlando";
             country := "US"; lat := 28.4312%Q; lon := (-81.3081)%Q;
             timezone := "America/New_York" |});
   ("MIA", {| code := "MIA"; name := "Miami Intl"; city := "Miami";
             country := "US"; lat := 25.7959%Q; lon := (-80.2870)%Q;
             timezone := "America/New_York" |});
   ("PHX", {| code := "PHX"; name := "Phoenix Sky Harbor Intl"; city := "Phoenix";
             country := "US"; lat := 33.4342%Q; lon := (-112.0080)%Q;
             timezone := "America/Phoenix" |});
   ("IAH", {| code := "IAH"; name := "George Bush Intercontinental"; city := "Houston";
             country := "US"; lat := 29.9902%Q; lon := (-95.3368)%Q;
             timezone := "America/Chicago" |});
   ("BOS", {| code := "BOS"; name := "Logan Intl"; city := "Boston";
             country := "US"; lat := 42.3656%Q; lon := (-71.0096)%Q;
             timezone := "America/New_York" |});
   ("EWR", {| code := "EWR"; name := "Newark Liberty Intl"; city := "Newark";
             country := "US"; lat := 40.6895%Q; lon := (-74.1745)%Q;
             timezone := "America/New_York" |});
   ("LGA", {| code := "LGA"; name := "LaGuardia"; city := "New York";
             country := "US"; lat := 40.7769%Q; lon := (-73.8740)%Q;
             timezone := "America/New_York" |});
   ("BWI", {| code := "BWI"; name := "Baltimore/Washington Intl"; city := "Baltimore";
             country := "US"; lat := 39.1774%Q; lon := (-76.6684)%Q;
             timezone := "America/New_York" |});
   ("LHR", {| code := "LHR"; name := "Heathrow"; city := "London";
             country := "GB"; lat := 51.4700%Q; lon := (-0.4543)%Q;
             timezone := "Europe/London" |});
   ("CDG", {| code := "CDG"; name := "Charles de Gaulle"; city := "Paris";
             country := "FR"; lat := 49.0097%Q; lon := 2.5479%Q;
             timezone := "Europe/Paris" |});
   ("FRA", {| code := "FRA"; name := "Frankfurt"; city := "Frankfurt";
             country := "DE"; lat := 50.0379%Q; lon := 8.5622%Q;
             timezone := "Europe/Berlin" |});
   ("AMS", {| code := "AMS"; name := "Schiphol"; city := "Amsterdam";
             country := "NL"; lat := 52.3105%Q; lon := 4.7683%Q;
             timezone := "Europe/Amsterdam" |});
   ("DXB", {| code := "DXB"; name := "Dubai Intl"; city := "Dubai";
             country := "AE"; lat := 25.2532%Q; lon := 55.3657%Q;
             timezone := "Asia/Dubai" |});
   ("NRT", {| code := "NRT"; name := "Narita Intl"; city := "Tokyo";
             country := "JP"; lat := 35.7720%Q; lon := 140.3929%Q;
             timezone := "Asia/Tokyo" |});
   ("HND", {| code := "HND"; name := "Haneda"; city := "Tokyo";
             country := "JP"; lat := 35.5494%Q; lon := 139.7798%Q;
             timezone := "Asia/Tokyo" |});
   ("HKG", {| code := "HKG"; name := "Hong Kong Intl"; city := "Hong Kong";
             country := "HK"; lat := 22.3080%Q; lon := 113.9185%Q;
             timezone := "Asia/Hong_Kong" |});
   ("SIN", {| code := "SIN"; name := "Changi"; city := "Singapore";
             country := "SG"; lat := 1.3644%Q; lon := 103.9915%Q;
             timezone := "Asia/Singapore" |});
   ("ICN", {| code := "ICN"; name := "Incheon Intl"; city := "Seoul";
             country := "KR"; lat := 37.4602%Q; lon := 126.4407%Q;
             timezone := "Asia/Seoul" |});
   ("YYZ", {| code := "YYZ"; name := "Toronto Pearson Intl"; city := "Toronto";
             country := "CA"; lat := 43.6777%Q; lon := (-79.6248)%Q;
             timezone := "America/Toronto" |});
   ("MEX", {| code := "MEX"; name := "Mexico City Intl"; city := "Mexico City";
             country := "MX"; lat := 19.4363%Q; lon := (-99.0721)%Q;
             timezone := "America/Mexico_City" |})
  ].

Inductive RouteType := Domestic | International.

Definition majorHubs : list string :=
  ["ORD"; "ATL"; "DFW"; "DEN"; "IAH"; "SFO"; "LAX"; "JFK"; "EWR"].

Section WithHost.
(** [s.toUpperCase()].  Its result has no small letter, so it is never one
    of the property names that [AIRPORTS] inherits. *)
Variable toUpperCase : string → string.
(** The great-circle distance of two airports in miles, computed from
    their coordinates with the haversine formula in double arithmetic and
    rounded by [Math.round]. *)
Variable haversine : Airport → Airport → Z.

(** [AIRPORTS[code.toUpperCase()]] *)
Definition getAirport (code : string) : option Airport :=
  Js.map_get AIRPORTS (toUpperCase code).

Definition calculateDistance (origin destination : string) : Z :=
  match getAirport origin, getAirport destination with
  | Some orig, Some dest => haversine orig dest
  | _, _ => 1000
  end.

Definition deviation (origin destination hub : string) : Z :=
  let totalDirect := calculateDistance origin destination in
  let viaHub :=
    calculateDistance origin hub + calculateDistance hub destination in
  viaHub - totalDirect.

Definition findOptimalHubs (origin destination : string) : list string :=
  match getAirport origin, getAirport destination with
  | Some _, Some _ =>
      let hubs :=
        omap (λ hub,
                match Js.map_get AIRPORTS hub with
                | None => None
                | Some _ => Some (hub, deviation origin destination hub)
                end)
          (filter (λ hub, hub ≠ origin ∧ hub ≠ destination) majorHubs) in
      take 3 (fst <$> Js.sort_by snd hubs)
  | _, _ => ["DEN"; "ORD"]
  end.

Definition getRouteType (origin destination : string) : RouteType :=
  match getAirport origin, getAirport destination with
  | Some orig, Some dest =>
      if decide (country orig = country dest) then Domestic
      else International
  | _, _ => Domestic
  end.
End WithHost.

End AirportData.

(** ** [pricingEngine.ts] *)

Module PricingEngine.

Inductive Cabin := Economy | Business | First.

Record Award := {
  program : string;
  miles : Z;
  fees : QArith_base.Q;
}.

Section WithHost.
Variable toUpperCase : string → string.
Variable haversine : AirportData.Airport → AirportData.Airport → Z.

(** [cabin === "economy" ? a : b] *)
Definition forCabin (cabin : Cabin) (a b : Z) : Z :=
  match cabin with
  | Economy => a
  | _ => b
  end.

Definition calculateAwardMiles (origin destination : string) (cabin : Cabin)
    : list Award :=
  let distance :=
    AirportData.calculateDistance toUpperCase haversine origin destination in
  let routeType :=
    AirportData.getRouteType toUpperCase origin destination in
  let united :=
    match routeType with
    | AirportData.Domestic =>
        if decide (distance < 700)
        then {| program := "United MileagePlus";
                miles := forCabin cabin 12500 25000; fees := 5.60%Q |}
        else {| program := "United MileagePlus";
                miles := forCabin cabin 25000 50000; fees := 5.60%Q |}
    | AirportData.International =>
        if decide (distance < 3000)
        then {| program := "United MileagePlus";
                miles := forCabin cabin 30000 70000; fees := 89%Q |}
        else if decide (distance < 6000)
        then {| program := "United MileagePlus";
                miles := forCabin cabin 60000 130000; fees := 125%Q |}
        else {| program := "United MileagePlus";
                miles := forCabin cabin 80000 160000; fees := 150%Q |}
    end in
  let american :=
    match routeType with
    | AirportData.Domestic =>
        {| program := "American AAdvantage";
           miles := forCabin cabin 12500 25000; fees := 5.60%Q |}
    | AirportData.International =>
        if decide (distance < 3000)
        then {| program := "American AAdvantage";
                miles := forCabin cabin 35000 75000; fees := 99%Q |}
        else if decide (distance < 6000)
        then {| program := "American AAdvantage";
                miles := forCabin cabin 57500 115000; fees := 125%Q |}
        else {| program := "American AAdvantage";
                miles := forCabin cabin 75000 150000; fees := 175%Q |}
    end in
  (* Math.round(baseAward.miles * 1.1): the chart's miles are multiples of
     ten, the product is a whole number up to the rounding of 1.1 *)
  let delta :=
    {| program := "Delta SkyMiles";
       miles := Js.round_div (miles united * 11) 10;
       fees := fees united |} in
  [united; american; delta].
End WithHost.

End PricingEngine.

(** ** [smartSearch.ts] *)

Module SmartSearch.

(** The arguments of one call of the imported [searchGoogleFlights]. *)
Record Call := {
  call_origin : string;
  call_destination : string;
  call_date : string;
  call_returnDate : option string;
}.

(** The imported function resolves to a list or fails. *)
Inductive Outcome :=
  | Returned (results : list SerpApi.SerpFlightResult)
  | Threw.

(** The module-level counter, and the calls the provider has received. *)
Record State := {
  apiCallCount : nat;
  providerCalls : list Call;
}.

Definition MAX_API_CALLS_PER_SEARCH : nat := 15.

Definition resetApiCallCount (s : State) : State :=
  {| apiCallCount := 0; providerCalls := providerCalls s |}.

Definition getApiCallCount (s : State) : nat := apiCallCount s.

Definition allAlternatives : list (string * list string) :=
  [("JFK", ["EWR"; "LGA"]);
   ("EWR", ["JFK"; "LGA"]);
   ("LGA", ["JFK"; "EWR"]);
   ("LAX", ["BUR"; "ONT"; "LGB"; "SNA"]);
   ("SFO", ["OAK"; "SJC"]);
   ("ORD", ["MDW"]);
   ("IAD", ["DCA"; "BWI"]);
   ("FLL", ["MIA"; "PBI"])].

Definition selectSmartAlternatives (airport : string) (basePrice : Z)
    : list string :=
  let alts := default [] (Js.map_get allAlternatives airport) in
  if decide (basePrice < 100) then take 1 alts
  else if decide (basePrice < 200) then take 2 alts
  else alts.

Section WithProvider.
(** The provider's answer to a call, given the calls it has received
    before. *)
Variable searchGoogleFlights : list Call → Call → Outcome.

(** The test, the increment and the start of the provider's call run
    before the first [await], hence without interruption by another task;
    the [console] output is left out. *)
Definition smartSearchFlights (origin destination date : string)
    (returnDate : option string) (reason : string)
    : Eff.M State (list SerpApi.SerpFlightResult) :=
  λ s,
    if decide (MAX_API_CALLS_PER_SEARCH ≤ apiCallCount s)%nat then ([], s)
    else
      let call := {| call_origin := origin;
                     call_destination := destination;
                     call_date := date;
                     call_returnDate := returnDate |} in
      let s' := {| apiCallCount := S (apiCallCount s);
                   providerCalls := providerCalls s ++ [call] |} in
      match searchGoogleFlights (providerCalls s) call with
      | Returned results => (results, s')
      | Threw => ([], s')
      end.
End WithProvider.

(** The provider that [serpapi.ts] exports, seen as above: the requests
    it has sent are those of the calls it has received. *)
Definition serpApiProvider (key : string)
    (fetch : list SerpApi.Request → SerpApi.Request → SerpApi.FetchResult)
    : list Call → Call → Outcome :=
  let run (c : Call) :=
    SerpApi.searchGoogleFlights key fetch (call_origin c)
      (call_destination c) (call_date c) (call_returnDate c) "economy" in
  λ before call,
    let sent := foldl (λ sent c, snd (run c sent)) [] before in
    Returned (fst (run call sent)).

Definition beyondCities : list (string * list string) :=
  [("LAX", ["SFO"; "SEA"; "HNL"; "SYD"]);
   ("SFO", ["LAX"; "SEA"; "HNL"; "NRT"]);
   ("ATL", ["MIA"; "MCO"; "MSY"]);
   ("ORD", ["DEN"; "SFO"; "LAX"; "SEA"]);
   ("DFW", ["LAX"; "PHX"; "DEN"]);
   ("MIA", ["PTY"; "BOG"; "GRU"]);
   ("JFK", ["LHR"; "CDG"; "DUB"]);
   ("LAX_FROM_EAST", ["DEN"; "PHX"; "LAS"])].

Definition selectSmartBeyondCities (origin destination : string)
    : list string :=
  let eastCoast := ["JFK"; "EWR"; "LGA"; "BOS"; "DCA"; "IAD"; "MIA"; "MCO"] in
  let westCoast := ["LAX"; "SFO"; "SEA"; "SAN"; "PDX"] in
  let isEastToWest :=
    bool_decide (origin ∈ eastCoast) && bool_decide (destination ∈ westCoast)
  in
  if isEastToWest then
    take 2 (filter (λ h, h ≠ origin ∧ h ≠ destination) ["DEN"; "ORD"; "DFW"])
  else take 2 (default [] (Js.map_get beyondCities destination)).

Definition selectSmartHubs (origin destination : string) (basePrice : Z)
    : list string :=
  if decide (basePrice < 120) then []
  else
    let majorHubs :=
      ["ORD"; "ATL"; "DFW"; "DEN"; "LAX"; "SFO"; "JFK"; "MIA"] in
    let viableHubs :=
      filter (λ h, h ≠ origin ∧ h ≠ destination) majorHubs in
    let eastCoast := ["JFK"; "EWR"; "LGA"; "BOS"; "DCA"; "PHL"] in
    let westCoast := ["LAX"; "SFO"; "SEA"; "PDX"; "SAN"] in
    if bool_decide (origin ∈ eastCoast) && bool_decide (destination ∈ westCoast)
    then ["DEN"]
    else if bool_decide (origin ∈ westCoast)
            && bool_decide (destination ∈ eastCoast)
    then ["ORD"]
    else take 1 viableHubs.

End SmartSearch.

(** ** [dealFinder.ts] *)

Module DealFinder.

Record DealOpportunity := {
  savings : Z;
  savingsPercent : Z;
  technique : string;
  alternativeRoute : string;
  flights : list SerpApi.SerpFlightResult;
}.

(** [f.flights.length === 1 &&
    (!f.flights[0].layovers || f.flights[0].layovers.length === 0)] *)
Definition isDirect (f : SerpApi.SerpFlightResult) : bool :=
  match SerpApi.flights f with
  | [leg] =>
      match SerpApi.layovers leg with
      | None => true
      | Some ls => bool_decide (length ls = 0%nat)
      end
  | _ => false
  end.

Section WithProvider.
Variable searchGoogleFlights
  : list SmartSearch.Call → SmartSearch.Call → SmartSearch.Outcome.
(** [Math.round((a / b) * 100)] in double arithmetic. *)
Variable roundPercent : Z → Z → Z.

Definition smartSearchFlights :=
  SmartSearch.smartSearchFlights searchGoogleFlights.

(** What one alternative contributes, from the answer to its search. *)
Definition nearbyDeal (basePrice : Z) (technique alternativeRoute : string)
    (flights : list SerpApi.SerpFlightResult) : list DealOpportunity :=
  match flights with
  | best :: _ =>
      if decide (100 * SerpApi.price best < 85 * basePrice) then
        if isDirect best then
          let savings := basePrice - SerpApi.price best in
          [ {| savings := savings;
               savingsPercent := roundPercent savings basePrice;
               technique := technique;
               alternativeRoute := alternativeRoute;
               flights := [best] |} ]
        else []
      else []
  | [] => []
  end.

Section Loops.
Variables (origin destination departureDate : string) (basePrice : Z).

(** The two [for] loops.  Their [try]/[catch] never catches:
    [smartSearchFlights] has no failing outcome and the body reads
    [flights[0].flights[0]] only after the length test. *)
Fixpoint checkOrigins (alts : list string) (deals : list DealOpportunity)
    : Eff.M SmartSearch.State (list DealOpportunity) :=
  match alts with
  | [] => Eff.ret deals
  | altOrigin :: rest =>
      let* flights :=
        smartSearchFlights altOrigin destination departureDate None
          ("Nearby: " +:+ altOrigin +:+ "→" +:+ destination) in
      checkOrigins rest
        (deals ++ nearbyDeal basePrice "nearby-origin"
           (altOrigin +:+ " → " +:+ destination +:+ " (instead of "
            +:+ origin +:+ ")")
           flights)
  end.

Fixpoint checkDestinations (alts : list string)
    (deals : list DealOpportunity)
    : Eff.M SmartSearch.State (list DealOpportunity) :=
  match alts with
  | [] => Eff.ret deals
  | altDest :: rest =>
      let* flights :=
        smartSearchFlights origin altDest departureDate None
          ("Nearby: " +:+ origin +:+ "→" +:+ altDest) in
      checkDestinations rest
        (deals ++ nearbyDeal basePrice "nearby-destination"
           (origin +:+ " → " +:+ altDest +:+ " (instead of "
            +:+ destination +:+ ")")
           flights)
  end.
End Loops.

Definition findNearbyAirportDeals
    (origin destination departureDate : string) (basePrice : Z)
    : Eff.M SmartSearch.State (list DealOpportunity) :=
  if decide (basePrice < 70) then Eff.ret []
  else
    let originAlternatives :=
      SmartSearch.selectSmartAlternatives origin basePrice in
    let destAlternatives :=
      SmartSearch.selectSmartAlternatives destination basePrice in
    let* deals :=
      checkOrigins origin destination departureDate basePrice
        originAlternatives [] in
    checkDestinations origin destination departureDate basePrice
      destAlternatives deals.
End WithProvider.

Section Strategies.
Variable searchGoogleFlights
  : list SmartSearch.Call → SmartSearch.Call → SmartSearch.Outcome.
(** [Math.round((a / b) * 100)] in double arithmetic. *)
Variable roundPercent : Z → Z → Z.
(** [new Date(s)], set one day back, printed by [toISOString] and cut at
    its ["T"]; [None] when [s] is no date ([toISOString] throws). *)
Variable dayBefore : string → option string.

(** What a hub contributes, from the answers to its two searches. *)
Definition splitDeal (origin destination hub : string) (basePrice : Z)
    (leg1Results leg2Results : list SerpApi.SerpFlightResult)
    : list DealOpportunity :=
  match leg1Results, leg2Results with
  | leg1 :: _, leg2 :: _ =>
      let totalPrice := SerpApi.price leg1 + SerpApi.price leg2 in
      if decide (100 * totalPrice < 85 * basePrice) then
        let savings := basePrice - totalPrice in
        [ {| savings := savings;
             savingsPercent := roundPercent savings basePrice;
             technique := "split-ticket";
             alternativeRoute :=
               origin +:+ " → " +:+ hub +:+ " + " +:+ hub +:+ " → "
               +:+ destination +:+ " (2 separate bookings)";
             flights := [leg1; leg2] |} ]
      else []
  | _, _ => []
  end.

(** The loop over the hubs.  [Promise.all] starts the two searches one
    after the other before it waits for either. *)
Fixpoint checkHubs (origin destination departureDate : string)
    (basePrice : Z) (hubs : list string) (deals : list DealOpportunity)
    : Eff.M SmartSearch.State (list DealOpportunity) :=
  match hubs with
  | [] => Eff.ret deals
  | hub :: rest =>
      let* leg1Results :=
        SmartSearch.smartSearchFlights searchGoogleFlights origin hub
          departureDate None ("Split: " +:+ origin +:+ "→" +:+ hub) in
      let* leg2Results :=
        SmartSearch.smartSearchFlights searchGoogleFlights hub destination
          departureDate None ("Split: " +:+ hub +:+ "→" +:+ destination) in
      checkHubs origin destination departureDate basePrice rest
        (deals ++ splitDeal origin destination hub basePrice leg1Results
                    leg2Results)
  end.

Definition findSplitTicketDeals (origin destination departureDate : string)
    (basePrice : Z) : Eff.M SmartSearch.State (list DealOpportunity) :=
  if decide (basePrice < 90) then Eff.ret []
  else
    let smartHubs :=
      SmartSearch.selectSmartHubs origin destination basePrice in
    if decide (length smartHubs = 0%nat) then Eff.ret []
    else checkHubs origin destination departureDate basePrice smartHubs [].

Definition positioningDeal (origin destination cheapCity : string)
    (basePrice : Z) (positioning mainFlight : SerpApi.SerpFlightResult)
    : list DealOpportunity :=
  let totalPrice := SerpApi.price positioning + SerpApi.price mainFlight in
  if decide (100 * totalPrice < 75 * basePrice) then
    let savings := basePrice - totalPrice in
    [ {| savings := savings;
         savingsPercent := roundPercent savings basePrice;
         technique := "positioning-flight";
         alternativeRoute :=
           origin +:+ " → " +:+ cheapCity +:+ " (day before) + "
           +:+ cheapCity +:+ " → " +:+ destination;
         flights := [positioning; mainFlight] |} ]
  else [].

(** The loop over the cheap departure cities; every [continue] goes on
    with the next city. *)
Fixpoint checkCities (origin destination departureDate : string)
    (basePrice : Z) (cities : list string) (deals : list DealOpportunity)
    : Eff.M SmartSearch.State (list DealOpportunity) :=
  match cities with
  | [] => Eff.ret deals
  | cheapCity :: rest =>
      let continue :=
        checkCities origin destination departureDate basePrice rest in
      if decide (cheapCity = origin ∨ cheapCity = destination)
      then continue deals
      else
        match dayBefore departureDate with
        | None => continue deals
        | Some posDateStr =>
            let* positioning :=
              SmartSearch.smartSearchFlights searchGoogleFlights origin
                cheapCity posDateStr None
                ("Positioning: " +:+ origin +:+ "→" +:+ cheapCity) in
            match positioning with
            | [] => continue deals
            | positioning0 :: _ =>
                let* mainFlight :=
                  SmartSearch.smartSearchFlights searchGoogleFlights
                    cheapCity destination departureDate None
                    ("Positioning: " +:+ cheapCity +:+ "→" +:+ destination)
                in
                match mainFlight with
                | [] => continue deals
                | mainFlight0 :: _ =>
                    continue
                      (deals ++ positioningDeal origin destination cheapCity
                                  basePrice positioning0 mainFlight0)
                end
            end
        end
  end.

Definition findPositioningFlightDeals
    (origin destination departureDate : string) (basePrice : Z)
    : Eff.M SmartSearch.State (list DealOpportunity) :=
  if decide (basePrice < 300) then Eff.ret []
  else
    let cheapDepartureCities := ["FLL"; "MIA"] in
    checkCities origin destination departureDate basePrice
      cheapDepartureCities [].
End Strategies.

(** [f.flights.length > 1 ||
     f.flights.some(leg => leg.layovers && leg.layovers.length > 0)] *)
Definition isConnecting (f : SerpApi.SerpFlightResult) : bool :=
  bool_decide (1 < length (SerpApi.flights f))%nat
  || existsb
       (λ leg,
          match SerpApi.layovers leg with
          | Some ls => bool_decide (0 < length ls)%nat
          | None => false
          end)
       (SerpApi.flights f).

Definition findBestConnectingFlights (flights : list SerpApi.SerpFlightResult)
    (directPrice : Z) : list SerpApi.SerpFlightResult :=
  let connecting := filter (λ f, isConnecting f = true) flights in
  filter (λ f, 10 * SerpApi.price f < 9 * directPrice) connecting.

End DealFinder.

(** ** [dataAnalyzer.ts] *)

Module DataAnalyzer.
Import SerpApi.

Record AnalysisResult := {
  redEyeDeals : list Types.Deal;
  layoverDeals : list Types.Deal;
  budgetAirlineDeals : list Types.Deal;
  connectingDeals : list Types.Deal;
  timeBasedDeals : list Types.Deal;
}.

Definition emptyResult : AnalysisResult :=
  {| redEyeDeals := []; layoverDeals := []; budgetAirlineDeals := [];
     connectingDeals := []; timeBasedDeals := [] |}.

Definition createDeal (flight : SerpFlightResult)
    (origin destination departureDate explanation : string) (riskScore : Z)
    : Types.Deal :=
  {| Types.priceUsd := price flight;
     Types.strategy := Types.Standard;
     Types.riskScore := riskScore;
     Types.bookingLink :=
       "https://www.google.com/travel/flights/search?tfs=CBwQAhopag0IAhIJL20vMDJfMjg2EgoyMDI2LTA4LTI0cgwIAxIIL20vMGZucGcaKWoMCAMSCC9tLzBmbnBnEgoyMDI2LTA4LTI0cg0IAhIJL20vMDJfMjg2QAFIAXABggELCP___________wGYAQE";
     Types.explanation := explanation;
     Types.legs :=
       (λ leg,
          {| Types.origin := airport_id (departure_airport leg);
             Types.destination := airport_id (arrival_airport leg);
             Types.departureDate := airport_time (departure_airport leg);
             Types.arrivalDate := airport_time (arrival_airport leg);
             Types.airline := airline leg;
             Types.flightNumber := flight_number leg;
             Types.duration := duration leg;
             Types.stops :=
               Js.or_num (Z.of_nat ∘ length <$> layovers leg) 0 |})
       <$> flights flight |}.

(** [result.redEyeDeals.push(deal)] and its siblings. *)
Definition pushRedEye (r : AnalysisResult) (deal : Types.Deal)
    : AnalysisResult :=
  {| redEyeDeals := redEyeDeals r ++ [deal];
     layoverDeals := layoverDeals r;
     budgetAirlineDeals := budgetAirlineDeals r;
     connectingDeals := connectingDeals r;
     timeBasedDeals := timeBasedDeals r |}.

Definition pushLayover (r : AnalysisResult) (deal : Types.Deal)
    : AnalysisResult :=
  {| redEyeDeals := redEyeDeals r;
     layoverDeals := layoverDeals r ++ [deal];
     budgetAirlineDeals := budgetAirlineDeals r;
     connectingDeals := connectingDeals r;
     timeBasedDeals := timeBasedDeals r |}.

Definition pushBudgetAirline (r : AnalysisResult) (deal : Types.Deal)
    : AnalysisResult :=
  {| redEyeDeals := redEyeDeals r;
     layoverDeals := layoverDeals r;
     budgetAirlineDeals := budgetAirlineDeals r ++ [deal];
     connectingDeals := connectingDeals r;
     timeBasedDeals := timeBasedDeals r |}.

Definition pushConnecting (r : AnalysisResult) (deal : Types.Deal)
    : AnalysisResult :=
  {| redEyeDeals := redEyeDeals r;
     layoverDeals := layoverDeals r;
     budgetAirlineDeals := budgetAirlineDeals r;
     connectingDeals := connectingDeals r ++ [deal];
     timeBasedDeals := timeBasedDeals r |}.

Definition pushTimeBased (r : AnalysisResult) (deal : Types.Deal)
    : AnalysisResult :=
  {| redEyeDeals := redEyeDeals r;
     layoverDeals := layoverDeals r;
     budgetAirlineDeals := budgetAirlineDeals r;
     connectingDeals := connectingDeals r;
     timeBasedDeals := timeBasedDeals r ++ [deal] |}.

Definition budgetAirlines : list string :=
  ["Spirit"; "Frontier"; "Allegiant"; "JetBlue"; "Southwest"].

(** [flights.filter(f => f.flights.length === 1 &&
    (!f.flights[0].layovers || f.flights[0].layovers.length === 0))] *)
Definition directFlights (flights : list SerpFlightResult)
    : list SerpFlightResult :=
  filter (λ f, DealFinder.isDirect f = true) flights.

(** [directFlights[0]?.price || basePrice] *)
Definition cheapestDirectPrice (flights : list SerpFlightResult)
    (basePrice : Z) : Z :=
  Js.or_num (price <$> head (directFlights flights)) basePrice.

Section WithHost.
(** [new Date(s).getHours()]; [None] is [NaN]. *)
Variable getHours : string → option Z.
(** [new Date(s).toLocaleTimeString('en-US', ...)]. *)
Variable toLocaleTimeString : string → string.
(** [`${Math.round((a / b) * 100)}`] in double arithmetic. *)
Variable showPercent : Z → Z → string.

Section Loop.
Variables (origin destination departureDate : string).
(** [avgPrice] is [total / n]. *)
Variables (total n : Z) (cheapestDirectPrice : Z).

Definition analyzeFlight (acc : AnalysisResult * gset string)
    (flight : SerpFlightResult) : AnalysisResult * gset string :=
  let '(result, seenFlights) := acc in
  match flights flight with
  | [] => acc
  | firstLeg :: others =>
      let flightKey :=
        airline firstLeg +:+ "-" +:+ flight_number firstLeg +:+ "-" +:+
        airport_time (departure_airport firstLeg) in
      if decide (flightKey ∈ seenFlights) then acc
      else
        let seenFlights := {[ flightKey ]} ∪ seenFlights in
        let mk := createDeal flight origin destination departureDate in
        (* savings = Math.max(0, avgPrice - flight.price), times n *)
        let savingsN := Z.max 0 (total - n * price flight) in
        let savingsRounded := pretty (Js.round_div savingsN n) in
        let priceDiff := cheapestDirectPrice - price flight in
        let timeStr :=
          toLocaleTimeString (airport_time (departure_airport firstLeg)) in
        let hour := getHours (airport_time (departure_airport firstLeg)) in
        (* 1. red-eye and early bird *)
        let result :=
          match hour with
          | Some h =>
              if decide (22 ≤ h ∨ h ≤ 5) then
                pushRedEye result
                  (mk (if decide (5 * n < savingsN)
                       then "🌙 Red-eye " +:+ timeStr +:+ " - Save $"
                            +:+ savingsRounded +:+ "!"
                       else "🌙 Red-eye option " +:+ timeStr
                            +:+ " - Late night departure") 5)
              else if decide (6 ≤ h ∧ h ≤ 8) then
                pushTimeBased result
                  (mk (if decide (5 * n < savingsN)
                       then "🌅 Early bird " +:+ timeStr +:+ " - Save $"
                            +:+ savingsRounded +:+ "!"
                       else "🌅 Early departure " +:+ timeStr
                            +:+ " - Beat the crowds") 5)
              else result
          | None => result
          end in
        (* 2. layover savings *)
        let firstLayover := layovers firstLeg ≫= head in
        let hasLayover :=
          bool_decide (1 < length (flights flight))%nat
          || bool_decide
               (0 < default 0%nat (length <$> layovers firstLeg))%nat in
        let result :=
          if hasLayover then
            let layoverAirport :=
              Js.or_str (layover_id <$> firstLayover)
                (Js.or_str (airport_id ∘ departure_airport <$> head others)
                   "Hub") in
            let layoverDuration :=
              Js.or_num (layover_duration <$> firstLayover) 120 in
            let worthIt :=
              bool_decide (30 < priceDiff ∧ layoverDuration < 240) in
            let hours := pretty (Js.round_div layoverDuration 60) in
            pushLayover result
              (mk (if decide (10 < priceDiff)
                   then "1 stop in " +:+ layoverAirport +:+ " (" +:+ hours
                        +:+ "h layover) - Save $" +:+ pretty priceDiff
                        +:+ (if worthIt then " ✨" else "")
                   else "Via " +:+ layoverAirport +:+ " (" +:+ hours
                        +:+ "h layover)") 10)
          else result in
        (* 3. budget airlines *)
        let isBudget :=
          existsb (λ ba, Js.includes (airline firstLeg) ba) budgetAirlines in
        let result :=
          if isBudget then
            pushBudgetAirline result
              (mk (if decide (10 < priceDiff)
                   then "💰 " +:+ airline firstLeg +:+ " - Save $"
                        +:+ pretty priceDiff +:+ "! (May have extra fees)"
                   else "💰 " +:+ airline firstLeg
                        +:+ " budget option (Check baggage fees)") 15)
          else result in
        (* 4. connecting flights *)
        let result :=
          if hasLayover && bool_decide (20 < priceDiff) then
            let legCount := length (flights flight) in
            pushConnecting result
              (mk (pretty legCount +:+ " stop"
                   +:+ (if decide (1 < legCount)%nat then "s" else "")
                   +:+ " - Save $" +:+ pretty priceDiff +:+ " ("
                   +:+ showPercent priceDiff cheapestDirectPrice
                   +:+ "% less)") 10)
          else result in
        (result, seenFlights)
  end.
End Loop.

Definition sortDeals : list Types.Deal → list Types.Deal :=
  Js.sort_by Types.priceUsd.

Definition analyzeFlightData (flights : list SerpFlightResult)
    (origin destination departureDate : string) : AnalysisResult :=
  match flights with
  | [] => emptyResult
  | first :: _ =>
      let basePrice := price first in
      let cheapestDirectPrice := cheapestDirectPrice flights basePrice in
      let total := foldl (λ sum f, sum + price f) 0 (take 5 flights) in
      let n := Z.of_nat (Nat.min 5 (length flights)) in
      let result :=
        fst (foldl
               (analyzeFlight origin destination departureDate total n
                  cheapestDirectPrice)
               (emptyResult, ∅) flights) in
      {| redEyeDeals := sortDeals (redEyeDeals result);
         layoverDeals := sortDeals (layoverDeals result);
         budgetAirlineDeals := sortDeals (budgetAirlineDeals result);
         connectingDeals := sortDeals (connectingDeals result);
         timeBasedDeals := sortDeals (timeBasedDeals result) |}
  end.
End WithHost.

End DataAnalyzer.

(** * Vocabulary of the properties, and concrete inputs *)

Module Props.

  (** The deduplication key of a deal as a tuple; [None] when the deal has
      no leg. *)
Definition dedupKey (deal : Types.Deal) : option (string * string * string) :=
    (λ leg, (Types.airline leg, Types.flightNumber leg,
             Types.departureDate leg)) <$> head (Types.legs deal).

  (** How [getFlightKey] prints that tuple. *)
Definition printKey (k : option (string * string * string)) : string :=
    Js.tmpl (fst ∘ fst <$> k) +:+ "-" +:+ Js.tmpl (snd ∘ fst <$> k) +:+ "-"
    +:+ Js.tmpl (snd <$> k).

Definition nonDecreasing : list Types.Deal → Prop :=
    StronglySorted (λ a b, Types.priceUsd a ≤ Types.priceUsd b).

  (** A single leg with no layovers. *)
Definition direct (f : SerpApi.SerpFlightResult) : Prop :=
    ∃ leg, SerpApi.flights f = [leg]
           ∧ (SerpApi.layovers leg = None ∨ SerpApi.layovers leg = Some []).

  (** Some leg of the itinerary has a layover at the airport. *)
Definition layoverAt (airport : string) (f : SerpApi.SerpFlightResult)
      : Prop :=
    ∃ leg ls l, leg ∈ SerpApi.flights f ∧ SerpApi.layovers leg = Some ls
                ∧ l ∈ ls ∧ SerpApi.layover_id l = airport.

  (** One invocation of [smartSearchFlights]. *)
Record Invocation := {
    inv_origin : string;
    inv_destination : string;
    inv_date : string;
    inv_returnDate : option string;
    inv_reason : string;
  }.

Definition invoke (provider : list SmartSearch.Call → SmartSearch.Call
                                → SmartSearch.Outcome) (i : Invocation)
      : Eff.M SmartSearch.State (list SerpApi.SerpFlightResult) :=
    SmartSearch.smartSearchFlights provider (inv_origin i) (inv_destination i)
      (inv_date i) (inv_returnDate i) (inv_reason i).

  (** All deals of an analysis, whatever their category. *)
Definition allDeals (r : DataAnalyzer.AnalysisResult) : list Types.Deal :=
    DataAnalyzer.redEyeDeals r ++ DataAnalyzer.layoverDeals r
    ++ DataAnalyzer.budgetAirlineDeals r ++ DataAnalyzer.connectingDeals r
    ++ DataAnalyzer.timeBasedDeals r.

  (** The cheapest price of a non-empty list of itineraries. *)
Definition minPrice (fs : list SerpApi.SerpFlightResult) : option Z :=
    match fs with
    | [] => None
    | f :: fs' => Some (foldr (λ g m, Z.min (SerpApi.price g) m)
                          (SerpApi.price f) fs')
    end.

(** What every step of the curator's selection maintains: at most 40
    deals are selected, their keys are pairwise distinct, and all are
    recorded in [addedFlights]. *)
Record Selected (c : ResultGrouper.Curation) : Prop := {
  sel_bound : (length (ResultGrouper.top c) ≤ 40)%nat;
  sel_nodup : NoDup (ResultGrouper.getFlightKey <$> ResultGrouper.top c);
  sel_added : ∀ d, d ∈ ResultGrouper.top c →
                   ResultGrouper.getFlightKey d ∈ ResultGrouper.addedFlights c;
}.

(** A nearby-airport opportunity: one itinerary, direct, under 85% of the
    base price. *)
Definition nearbyOk (basePrice : Z) (deal : DealFinder.DealOpportunity)
    : Prop :=
  ∃ f, DealFinder.flights deal = [f] ∧ direct f
       ∧ 100 * SerpApi.price f < 85 * basePrice.

(** A deal as the analyser makes them. *)
Definition analyserDeal (d : Types.Deal) : Prop :=
  Types.strategy d = Types.Standard
  ∧ Types.riskScore d ∈ [5; 10; 15]
  ∧ Types.legs d ≠ [].

(** The time of day of a deal, as the grouping loop tests it. *)
Inductive Period := Morning | Afternoon | Evening | Overnight.

#[global] Instance Period_eq_dec : EqDecision Period.
Proof. solve_decision. Defined.

Definition periodOf (getHours : string → option Z) (deal : Types.Deal)
    : Period :=
  match getHours (Js.or_str (Types.departureDate <$> head (Types.legs deal))
                    "") with
  | Some h =>
      if decide (6 ≤ h ∧ h < 12) then Morning
      else if decide (12 ≤ h ∧ h < 18) then Afternoon
      else if decide (18 ≤ h ∧ h < 24) then Evening
      else Overnight
  | None => Overnight
  end.

(** The airline under which a deal is grouped. *)
Definition airlineOf (deal : Types.Deal) : string :=
  Js.or_str (Types.airline <$> head (Types.legs deal)) "Unknown".

(** What a JavaScript map holds for a key whose group is [g]: nothing when
    the group is empty. *)
Definition groupEntry {A : Type} (g : list A) (shown : list A)
    : option (list A) :=
  match g with
  | [] => None
  | _ => Some shown
  end.

(** The selection [c'] continues [c] with deals of [pool]. *)
Definition Grows (pool : list Types.Deal) (c c' : ResultGrouper.Curation)
    : Prop :=
  ∃ ext, ResultGrouper.top c' = ResultGrouper.top c ++ ext
         ∧ Forall (λ d, d ∈ pool) ext.

(** For each time of day, the first two of its deals in the order of the
    list. *)
Definition bucketsOf (getHours : string → option Z) (deals : list Types.Deal)
    : ResultGrouper.CheapestByTime :=
  {| ResultGrouper.morning :=
       take 2 (filter (λ d, periodOf getHours d = Morning) deals);
     ResultGrouper.afternoon :=
       take 2 (filter (λ d, periodOf getHours d = Afternoon) deals);
     ResultGrouper.evening :=
       take 2 (filter (λ d, periodOf getHours d = Evening) deals);
     ResultGrouper.overnight :=
       take 2 (filter (λ d, periodOf getHours d = Overnight) deals) |}.

(** The group that the airline map holds for an airline: the first two of
    its deals in the order of the list, and no entry when it has none. *)
Definition airlineGroup (deals : list Types.Deal) (a : string)
    : option (list Types.Deal) :=
  let g := filter (λ d, airlineOf d = a) deals in
  groupEntry g (take 2 g).

(** The group that the strategy map holds for a strategy: all its deals in
    the order of the list, and no entry when it has none. *)
Definition strategyGroup (deals : list Types.Deal) (s : Types.Strategy)
    : option (list Types.Deal) :=
  let g := filter (λ d, Types.strategy d = s) deals in
  groupEntry g g.

(** The selection holds deals of [pool] with pairwise distinct keys, and
    [addedFlights] is exactly the set of their keys. *)
Definition Tracked (pool : list Types.Deal) (c : ResultGrouper.Curation)
    : Prop :=
  NoDup (ResultGrouper.getFlightKey <$> ResultGrouper.top c)
  ∧ (∀ k, k ∈ ResultGrouper.addedFlights c
          ↔ k ∈ ResultGrouper.getFlightKey <$> ResultGrouper.top c)
  ∧ Forall (λ d, d ∈ pool) (ResultGrouper.top c).

(** The key under which the analyser remembers an itinerary. *)
Definition analyserKey (leg : SerpApi.FlightLeg) : string :=
  SerpApi.airline leg +:+ "-" +:+ SerpApi.flight_number leg +:+ "-" +:+
  SerpApi.airport_time (SerpApi.departure_airport leg).

(** The conditions under which the analyser files an itinerary, with first
    leg [leg], in each category. *)
Definition redEyeCond (getHours : string → option Z)
    (f : SerpApi.SerpFlightResult) (leg : SerpApi.FlightLeg) : Prop :=
  ∃ h, getHours (SerpApi.airport_time (SerpApi.departure_airport leg)) = Some h
       ∧ (22 ≤ h ∨ h ≤ 5).

Definition earlyCond (getHours : string → option Z)
    (f : SerpApi.SerpFlightResult) (leg : SerpApi.FlightLeg) : Prop :=
  ∃ h, getHours (SerpApi.airport_time (SerpApi.departure_airport leg)) = Some h
       ∧ 6 ≤ h ∧ h ≤ 8.

Definition layoverCond (f : SerpApi.SerpFlightResult)
    (leg : SerpApi.FlightLeg) : Prop :=
  (1 < length (SerpApi.flights f))%nat
  ∨ ∃ ls, SerpApi.layovers leg = Some ls ∧ ls ≠ [].

Definition budgetCond (f : SerpApi.SerpFlightResult)
    (leg : SerpApi.FlightLeg) : Prop :=
  ∃ ba, ba ∈ DataAnalyzer.budgetAirlines
        ∧ Js.includes (SerpApi.airline leg) ba = true.

Definition connectingCond (cheapestDirect : Z)
    (f : SerpApi.SerpFlightResult) (leg : SerpApi.FlightLeg) : Prop :=
  layoverCond f leg ∧ 20 < cheapestDirect - SerpApi.price f.

(** The deal was made by [createDeal], with the given risk, from an
    itinerary of the input that meets the condition. *)
Definition madeFrom (flights : list SerpApi.SerpFlightResult)
    (origin destination departureDate : string) (risk : Z)
    (cond : SerpApi.SerpFlightResult → SerpApi.FlightLeg → Prop)
    (deal : Types.Deal) : Prop :=
  ∃ f leg explanation,
    f ∈ flights ∧ head (SerpApi.flights f) = Some leg
    ∧ deal = DataAnalyzer.createDeal f origin destination departureDate
               explanation risk
    ∧ cond f leg.

(** A category under construction: its deals are made from the input,
    their keys are pairwise distinct and all remembered in [seen]. *)
Definition CategoryOk (flights : list SerpApi.SerpFlightResult)
    (origin destination departureDate : string) (risk : Z)
    (cond : SerpApi.SerpFlightResult → SerpApi.FlightLeg → Prop)
    (seen : gset string) (l : list Types.Deal) : Prop :=
  Forall (madeFrom flights origin destination departureDate risk cond) l
  ∧ NoDup (ResultGrouper.getFlightKey <$> l)
  ∧ ∀ x, x ∈ l → ResultGrouper.getFlightKey x ∈ seen.

(** One round of the analyser's loop leaves a category as it was or adds
    one deal made from the itinerary, the condition being met. *)
Definition CategoryStep (flight : SerpApi.SerpFlightResult)
    (leg : SerpApi.FlightLeg) (origin destination departureDate : string)
    (risk : Z) (cond : SerpApi.SerpFlightResult → SerpApi.FlightLeg → Prop)
    (l l' : list Types.Deal) : Prop :=
  l' = l
  ∨ (cond flight leg
     ∧ ∃ explanation,
         l' = l ++ [DataAnalyzer.createDeal flight origin destination
                      departureDate explanation risk]).

(** All five categories of an analysis under construction. *)
Definition CategoriesOk (getHours : string → option Z)
    (flights : list SerpApi.SerpFlightResult)
    (origin destination departureDate : string) (cheapestDirect : Z)
    (seen : gset string) (r : DataAnalyzer.AnalysisResult) : Prop :=
  CategoryOk flights origin destination departureDate 5
    (redEyeCond getHours) seen (DataAnalyzer.redEyeDeals r)
  ∧ CategoryOk flights origin destination departureDate 10 layoverCond seen
      (DataAnalyzer.layoverDeals r)
  ∧ CategoryOk flights origin destination departureDate 15 budgetCond seen
      (DataAnalyzer.budgetAirlineDeals r)
  ∧ CategoryOk flights origin destination departureDate 10
      (connectingCond cheapestDirect) seen (DataAnalyzer.connectingDeals r)
  ∧ CategoryOk flights origin destination departureDate 5
      (earlyCond getHours) seen (DataAnalyzer.timeBasedDeals r).

(** The reference price that [analyzeFlightData] computes for its input. *)
Definition referencePrice (flights : list SerpApi.SerpFlightResult) : Z :=
  DataAnalyzer.cheapestDirectPrice flights
    (default 0 (SerpApi.price <$> head flights)).

(** The computation makes at most [n] provider calls: the counter never
    goes down, rises by at most [n], and the provider's log grows by
    exactly the counter's rise. *)
Definition Spends {A : Type} (n : nat)
    (c : Eff.M SmartSearch.State A) : Prop :=
  ∀ s, ∃ issued,
    SmartSearch.providerCalls (snd (c s))
    = SmartSearch.providerCalls s ++ issued
    ∧ SmartSearch.apiCallCount (snd (c s))
      = (SmartSearch.apiCallCount s + length issued)%nat
    ∧ (length issued ≤ n)%nat.

(** A two-itinerary opportunity whose prices sum to less than
    [percent]% of the base price. *)
Definition pairOk (technique : string) (percent basePrice : Z)
    (deal : DealFinder.DealOpportunity) : Prop :=
  ∃ f1 f2,
    DealFinder.flights deal = [f1; f2]
    ∧ 100 * (SerpApi.price f1 + SerpApi.price f2) < percent * basePrice
    ∧ DealFinder.savings deal
      = basePrice - (SerpApi.price f1 + SerpApi.price f2)
    ∧ DealFinder.technique deal = technique.

(** A nearby-airport opportunity saves what its itinerary costs less than
    the base price, which is more than 15% of it. *)
Definition nearbySaving (basePrice : Z) (deal : DealFinder.DealOpportunity)
    : Prop :=
  ∃ f, DealFinder.flights deal = [f]
       ∧ DealFinder.savings deal = basePrice - SerpApi.price f
       ∧ 15 * basePrice < 100 * DealFinder.savings deal
       ∧ DealFinder.technique deal ∈ ["nearby-origin"; "nearby-destination"].

(** A one-way economy request from [origin] to [destination] on [date]. *)
Definition oneWayRequest (origin destination date : string)
    (r : SerpApi.Request) : Prop :=
  SerpApi.param_departure_id r = origin
  ∧ SerpApi.param_arrival_id r = destination
  ∧ SerpApi.param_outbound_date r = date
  ∧ SerpApi.param_type r = "2"
  ∧ SerpApi.param_return_date r = None
  ∧ SerpApi.param_travel_class r = "1".

End Props.

Module Samples.

  (** A clock that reads the hour off ["YYYY-MM-DD HH:MM"]. *)
Definition digit (a : ascii) : option Z :=
    let n := Z.of_nat (nat_of_ascii a) in
    if decide (48 ≤ n ∧ n ≤ 57) then Some (n - 48) else None.

Definition clock (s : string) : option Z :=
    match String.get 11 s, String.get 12 s with
    | Some a, Some b =>
        match digit a, digit b with
        | Some x, Some y => Some (10 * x + y)
        | _, _ => None
        end
    | _, _ => None
    end.

Definition leg (airline flightNumber departure : string) : Types.Leg :=
    {| Types.origin := "JFK"; Types.destination := "LAX";
       Types.departureDate := departure;
       Types.arrivalDate := "2026-03-01 23:00";
       Types.airline := airline; Types.flightNumber := flightNumber;
       Types.duration := 360; Types.stops := 0 |}.

Definition deal (price : Z) (airline flightNumber departure : string)
      : Types.Deal :=
    {| Types.priceUsd := price; Types.strategy := Types.Standard;
       Types.riskScore := 0; Types.bookingLink := "";
       Types.explanation := "";
       Types.legs := [leg airline flightNumber departure] |}.

  (** Thirty-six fares of 36 carriers, all leaving at 09:00. *)
Definition thirtySixCarriers : list Types.Deal :=
    (λ i : nat, deal (200 + Z.of_nat i) ("Carrier " +:+ pretty i)
                  ("X" +:+ pretty i) "2026-03-01 09:00") <$> seq 0 36.

Definition airport (id time : string) : SerpApi.Airport :=
    {| SerpApi.airport_name := id; SerpApi.airport_id := id;
       SerpApi.airport_time := time |}.

Definition flightLeg (from to departure airline number : string)
      (layovers : option (list SerpApi.Layover)) : SerpApi.FlightLeg :=
    {| SerpApi.departure_airport := airport from departure;
       SerpApi.arrival_airport := airport to "2026-03-01 23:00";
       SerpApi.duration := 360; SerpApi.airplane := "Airbus A321";
       SerpApi.airline := airline; SerpApi.airline_logo := "";
       SerpApi.travel_class := "Economy"; SerpApi.flight_number := number;
       SerpApi.legroom := "30 in"; SerpApi.extensions := [];
       SerpApi.layovers := layovers |}.

Definition itinerary (price : Z) (legs : list SerpApi.FlightLeg)
      : SerpApi.SerpFlightResult :=
    {| SerpApi.flights := legs; SerpApi.price := price;
       SerpApi.type := "One way"; SerpApi.booking_token := None |}.

Definition directAt (price : Z) (from number : string)
      : SerpApi.SerpFlightResult :=
    itinerary price
      [flightLeg from "LAX" "2026-03-01 13:00" "Delta" number None].

Definition viaDenver (price : Z) : SerpApi.SerpFlightResult :=
    itinerary price
      [flightLeg "JFK" "LAX" "2026-03-01 14:00" "United" "UA 7"
         (Some [ {| SerpApi.layover_duration := 95;
                    SerpApi.layover_name := "Denver Intl";
                    SerpApi.layover_id := "DEN" |} ])].

  (** Provider results in the provider's order: the dearer direct flight
      first. *)
Definition dearerDirectFirst : list SerpApi.SerpFlightResult :=
    [directAt 300 "JFK" "DL 1"; directAt 200 "JFK" "DL 2"; viaDenver 250].

  (** A provider that sells a direct Newark flight at 240 dollars and has
      nothing else. *)
Definition newarkProvider : list SmartSearch.Call → SmartSearch.Call
                              → SmartSearch.Outcome :=
    λ _ call,
      if decide (SmartSearch.call_origin call = "EWR")
      then SmartSearch.Returned [directAt 240 "EWR" "DL 9"]
      else SmartSearch.Returned [].

Definition failingProvider : list SmartSearch.Call → SmartSearch.Call
                               → SmartSearch.Outcome :=
    λ _ _, SmartSearch.Threw.

Definition freshState : SmartSearch.State :=
    {| SmartSearch.apiCallCount := 0; SmartSearch.providerCalls := [] |}.

Definition sameInvocation : Props.Invocation :=
    {| Props.inv_origin := "JFK"; Props.inv_destination := "LAX";
       Props.inv_date := "2026-03-01"; Props.inv_returnDate := None;
       Props.inv_reason := "search" |}.

  (** Every request is answered with one itinerary that stops in Los
      Angeles. *)
Definition throughLosAngeles : SerpApi.SerpFlightResult :=
    itinerary 220
      [flightLeg "JFK" "SFO" "2026-03-01 08:00" "United" "UA 11"
         (Some [ {| SerpApi.layover_duration := 70;
                    SerpApi.layover_name := "Los Angeles Intl";
                    SerpApi.layover_id := "LAX" |} ])].

Definition losAngelesFetch : list SerpApi.Request → SerpApi.Request
                               → SerpApi.FetchResult :=
    λ _ _,
      SerpApi.HttpStatus true
        (Some {| SerpApi.search_metadata_status := "Success";
                 SerpApi.best_flights := Some [throughLosAngeles];
                 SerpApi.other_flights := None |}).

(** Twenty invocations in a row, and the state they leave. *)
Definition twentyInvocations : list Props.Invocation :=
  replicate 20 sameInvocation.

Definition afterTwenty : SmartSearch.State :=
  snd (Eff.mapM (Props.invoke newarkProvider) twentyInvocations
         (SmartSearch.resetApiCallCount freshState)).

(** Host functions for the analyser: the time of day as printed in the
    provider's time stamp, and a percentage in exact arithmetic. *)
Definition timeOfDay (s : string) : string := String.substring 11 5 s.

Definition exactPercent (a b : Z) : string := pretty (Js.round_div (100 * a) b).

Definition sampleAnalysis : DataAnalyzer.AnalysisResult :=
  DataAnalyzer.analyzeFlightData clock timeOfDay exactPercent
    dearerDirectFirst "JFK" "LAX" "2026-03-01".

(** The layover deal that the analysis makes of the Denver itinerary. *)
Definition denverLayoverDeal : Types.Deal :=
  DataAnalyzer.createDeal (viaDenver 250) "JFK" "LAX" "2026-03-01"
    "1 stop in DEN (2h layover) - Save $50 ✨" 10.

(** The opportunity that the Newark provider yields for a 300 dollar
    base price. *)
Definition newarkOpportunity : DealFinder.DealOpportunity :=
  {| DealFinder.savings := 60;
     DealFinder.savingsPercent := 20;
     DealFinder.technique := "nearby-origin";
     DealFinder.alternativeRoute := "EWR → LAX (instead of JFK)";
     DealFinder.flights := [directAt 240 "EWR" "DL 9"] |}.

Definition exactRound (a b : Z) : Z := Js.round_div (100 * a) b.

(** The first hidden-city result for New York to Los Angeles. *)
Definition viaLosAngeles : SerpApi.HiddenCityResult :=
  {| SerpApi.beyondDestination := "SFO";
     SerpApi.hiddenCityFlights := [throughLosAngeles] |}.

(** A hidden-city fare beside two standard ones. *)
Definition hiddenCityDeal : Types.Deal :=
  {| Types.priceUsd := 150; Types.strategy := Types.HiddenCity;
     Types.riskScore := 60; Types.bookingLink := "";
     Types.explanation := "";
     Types.legs := [leg "United" "UA 11" "2026-03-01 08:00"] |}.

Definition mixedDeals : list Types.Deal :=
  [deal 200 "Delta" "DL 1" "2026-03-01 13:00"; hiddenCityDeal;
   deal 120 "Spirit" "NK 5" "2026-03-01 23:30"].

Definition directFlight (price : Z) (from to number : string)
    : SerpApi.SerpFlightResult :=
  itinerary price
    [flightLeg from to "2026-03-01 13:00" "Delta" number None].

(** A provider that sells one direct flight on each route of a fare table
    and nothing elsewhere. *)
Definition fareProvider (fares : list (string * string * Z))
    : list SmartSearch.Call → SmartSearch.Call → SmartSearch.Outcome :=
  λ _ call,
    SmartSearch.Returned
      (omap (λ fare : string * string * Z,
               let '(from, to, price) := fare in
               if decide (from = SmartSearch.call_origin call
                          ∧ to = SmartSearch.call_destination call)
               then Some (directFlight price from to "DL 20")
               else None)
         fares).

(** New York to Los Angeles through Denver for 150 + 180 dollars. *)
Definition denverFares : list (string * string * Z) :=
  [("JFK", "DEN", 150); ("DEN", "LAX", 180)].

(** New York to London by way of Fort Lauderdale for 60 + 200 dollars. *)
Definition floridaFares : list (string * string * Z) :=
  [("JFK", "FLL", 60); ("FLL", "LHR", 200)].

(** The day before, for the one date of the samples. *)
Definition sampleDayBefore (date : string) : option string :=
  if decide (date = "2026-03-01") then Some "2026-02-28" else None.

(** Upper case for ASCII letters. *)
Definition asciiUpper (s : string) : string :=
  string_of_list_ascii
    ((λ a, let n := nat_of_ascii a in
           if decide (97 ≤ n ∧ n ≤ 122)%nat then ascii_of_nat (n - 32) else a)
       <$> list_ascii_of_string s).

(** A stand-in for the great-circle distance: 69 miles for each degree of
    latitude or longitude between the airports. *)
Definition gridMiles (a b : AirportData.Airport) : Z :=
  Qround.Qfloor
    (QArith_base.Qmult 69%Q
       (QArith_base.Qplus
          (Qabs.Qabs (QArith_base.Qminus (AirportData.lat a) (AirportData.lat b)))
          (Qabs.Qabs (QArith_base.Qminus (AirportData.lon a) (AirportData.lon b))))).

(** Day arithmetic within March 2026, for a centre date of 10 March. *)
Definition marchDay (i : Z) : string := "2026-03-" ++ pretty (10 + i).

Definition marchShift (centerDate : string) (i : Z) : option string :=
  if decide (centerDate = "2026-03-10") then Some (marchDay i) else None.

End Samples.


(** * Properties *)

(** ** The embedding at work on small inputs *)

Example sort_by_is_stable :
  Js.sort_by fst [(2, "a"); (1, "b"); (2, "c"); (1, "d")]
  = [(1, "b"); (1, "d"); (2, "a"); (2, "c")].
Proof. reflexivity. Qed.

Example round_div_ties_go_up :
  Js.round_div 89 60 = 1 ∧ Js.round_div 90 60 = 2 ∧ Js.round_div 95 60 = 2.
Proof. by vm_compute. Qed.

Example includes_substring :
  Js.includes "JetBlue Airways" "JetBlue" = true
  ∧ Js.includes "Delta" "Spirit" = false.
Proof. by vm_compute. Qed.

Example clock_reads_hour : Samples.clock "2026-03-01 09:00" = Some 9.
Proof. reflexivity. Qed.

Example getFlightKey_without_legs :
  ResultGrouper.getFlightKey
    {| Types.priceUsd := 99; Types.strategy := Types.Standard;
       Types.riskScore := 0; Types.bookingLink := "";
       Types.explanation := ""; Types.legs := [] |}
  = "undefined-undefined-undefined".
Proof. reflexivity. Qed.

Example selectSmartAlternatives_mid_price :
  SmartSearch.selectSmartAlternatives "LAX" 150 = ["BUR"; "ONT"].
Proof. reflexivity. Qed.

Example nearby_search_spends_six_calls :
  SmartSearch.getApiCallCount
    (snd (DealFinder.findNearbyAirportDeals Samples.newarkProvider
            Samples.exactRound "JFK" "LAX" "2026-03-01" 300
            Samples.freshState)) = 6%nat.
Proof. by vm_compute. Qed.

Example twenty_invocations_issue_fifteen_calls :
  length (SmartSearch.providerCalls Samples.afterTwenty) = 15%nat.
Proof. by vm_compute. Qed.

(** ** The stable sort *)

Section SortFacts.
Context {A : Type} (key : A → Z).

Lemma insert_by_Permutation (x : A) (l : list A) :
  Js.insert_by key x l ≡ₚ x :: l.
Proof.
  induction l as [|y l IH]; simpl; [done|].
  case_decide; [done|].
  rewrite IH. apply Permutation_swap.
Qed.

Lemma sort_by_Permutation (l : list A) : Js.sort_by key l ≡ₚ l.
Proof.
  induction l as [|x l IH]; simpl; [done|].
  rewrite insert_by_Permutation. by f_equiv.
Qed.

Lemma sort_by_length (l : list A) : length (Js.sort_by key l) = length l.
Proof. by rewrite sort_by_Permutation. Qed.

Lemma insert_by_sorted (x : A) (l : list A) :
  StronglySorted (λ a b, key a ≤ key b) l →
  StronglySorted (λ a b, key a ≤ key b) (Js.insert_by key x l).
Proof.
  induction 1 as [|y l Hl IH Hy]; simpl.
  - repeat constructor.
  - case_decide as Hxy.
    + constructor; [by constructor|].
      constructor; [done|].
      eapply Forall_impl; [exact Hy|]. simpl. intros z ?. lia.
    + constructor; [done|].
      rewrite insert_by_Permutation. constructor; [lia | done].
Qed.

Lemma sort_by_sorted (l : list A) :
  StronglySorted (λ a b, key a ≤ key b) (Js.sort_by key l).
Proof.
  induction l as [|x l IH]; simpl; [constructor|].
  by apply insert_by_sorted.
Qed.

(** The head of the sorted list is a cheapest element. *)
Lemma sort_by_head_min (l : list A) (x y : A) :
  head (Js.sort_by key l) = Some x → y ∈ l → key x ≤ key y.
Proof.
  intros Hhd Hy.
  pose proof (sort_by_sorted l) as Hs.
  rewrite <- sort_by_Permutation in Hy.
  destruct (Js.sort_by key l) as [|z l']; simplify_eq/=.
  apply StronglySorted_inv in Hs as [_ Hall].
  apply elem_of_cons in Hy as [->|Hy]; [lia|].
  rewrite Forall_forall in Hall. by apply Hall.
Qed.

End SortFacts.

(** ** The curator *)

Section Curator.
Import Types ResultGrouper Props.

Lemma Selected_empty : Selected {| top := []; addedFlights := ∅ |}.
Proof. split; simpl; [lia | constructor | set_solver]. Qed.

Lemma Selected_push (c : Curation) (d : Deal) :
  Selected c → getFlightKey d ∉ addedFlights c → (length (top c) < 40)%nat →
  Selected (push c d).
Proof.
  intros [Hb Hn Ha] Hnew Hlt. split; simpl.
  - rewrite length_app. simpl. lia.
  - rewrite fmap_app. simpl. apply NoDup_app. split_and!; [done| |].
    + intros k Hk Hk'. apply list_elem_of_singleton in Hk' as ->.
      apply list_elem_of_fmap in Hk as (d' & Heq & Hd').
      apply Hnew. rewrite Heq. by apply Ha.
    + apply NoDup_singleton.
  - intros d' Hd'. apply elem_of_app in Hd' as [Hd'|Hd'].
    + apply elem_of_union_r. by apply Ha.
    + apply list_elem_of_singleton in Hd' as ->. set_solver.
Qed.

Lemma Selected_pushIfNew (c : Curation) (d : Deal) :
  Selected c → (length (top c) < 40)%nat → Selected (pushIfNew c d).
Proof.
  intros Hc Hlt. unfold pushIfNew. case_decide; [done|].
  by apply Selected_push.
Qed.

Lemma Selected_addCheapest (sorted : list Deal) : Selected (addCheapest sorted).
Proof.
  destruct sorted as [|d ?]; simpl; [apply Selected_empty|].
  apply Selected_push; [apply Selected_empty | set_solver | simpl; lia].
Qed.

Lemma Selected_addSpecial (special : list Deal) (c : Curation) :
  Selected c → Selected (foldl addSpecial c special).
Proof.
  revert c. induction special as [|d l IH]; intros c Hc; simpl; [done|].
  apply IH. unfold addSpecial. case_decide as Hd; [|done].
  destruct Hd. apply Selected_push; [done..|lia].
Qed.

Lemma Selected_addFromGroupLoop (group : list Deal) (c : Curation) :
  Selected c → Selected (addFromGroupLoop group c).
Proof.
  revert c. induction group as [|d l IH]; intros c Hc; simpl; [done|].
  case_decide; [|done]. apply IH. by apply Selected_pushIfNew.
Qed.

Lemma Selected_addFromGroups (groups : list (list Deal)) (c : Curation) :
  Selected c → Selected (foldl addFromGroup c groups).
Proof.
  revert c. induction groups as [|g l IH]; intros c Hc; simpl; [done|].
  apply IH. by apply Selected_addFromGroupLoop.
Qed.

Lemma Selected_fillPriceVariety (sorted : list Deal) (seen : gset Z)
    (c : Curation) :
  Selected c → Selected (fillPriceVariety sorted seen c).
Proof.
  revert seen c. induction sorted as [|d l IH]; intros seen c Hc; simpl;
    [done|].
  case_decide; [done|]. case_decide as Hd; [|by apply IH].
  destruct Hd. apply IH. apply Selected_push; [done..|lia].
Qed.

Section WithClock.
Variable getHours : string → option Z.

Lemma curate_selected (sorted special : list Deal) (cbt : CheapestByTime)
    (airlines : Js.JsMap string (list Deal)) :
  ∃ c, Selected c ∧ curate sorted special cbt airlines = sortByPrice (top c).
Proof.
  eexists. split; [|reflexivity].
  apply Selected_fillPriceVariety, Selected_addFromGroups,
    Selected_addFromGroups, Selected_addSpecial, Selected_addCheapest.
Qed.

Lemma topDeals_selected (deals : list Deal) :
  ∃ c, Selected c
       ∧ topDeals (groupAndCurateResults getHours deals) = sortByPrice (top c).
Proof.
  destruct deals as [|d deals].
  - exists {| top := []; addedFlights := ∅ |}. split; [apply Selected_empty|done].
  - apply curate_selected.
Qed.

End WithClock.
End Curator.

Lemma getFlightKey_printKey (d : Types.Deal) :
  ResultGrouper.getFlightKey d = Props.printKey (Props.dedupKey d).
Proof.
  unfold ResultGrouper.getFlightKey, Props.printKey, Props.dedupKey.
  by destruct (head (Types.legs d)).
Qed.

(** C2, as amended: for every input list of deals (and every clock), the
    curated [topDeals] list returned by [groupAndCurateResults] contains at
    most 40 deals: the time-of-day and airline steps keep adding until 40
    are selected, and only the price-variety step stops at 35. *)
Theorem topDeals_at_most_40 (getHours : string → option Z)
    (deals : list Types.Deal) :
  (length (ResultGrouper.topDeals
             (ResultGrouper.groupAndCurateResults getHours deals)) ≤ 40)%nat.
Proof.
  destruct (topDeals_selected getHours deals) as (c & Hc & ->).
  unfold ResultGrouper.sortByPrice. rewrite sort_by_length.
  apply Hc.
Qed.

(** C2, as stated, fails: 36 fares of 36 different carriers are all
    selected by the airline step, so [topDeals] has 36 deals, more than
    35. *)
Lemma topDeals_can_exceed_35 :
  ¬ (length (ResultGrouper.topDeals
               (ResultGrouper.groupAndCurateResults Samples.clock
                  Samples.thirtySixCarriers)) ≤ 35)%nat.
Proof.
  assert (length (ResultGrouper.topDeals
            (ResultGrouper.groupAndCurateResults Samples.clock
               Samples.thirtySixCarriers)) = 36%nat) as ->
    by (vm_compute; reflexivity).
  lia.
Qed.

(** The bound of 40 is reached: of 50 fares of 50 carriers, 40 are kept. *)
Example topDeals_can_reach_40 :
  length (ResultGrouper.topDeals
            (ResultGrouper.groupAndCurateResults Samples.clock
               ((λ i : nat, Samples.deal (200 + Z.of_nat i)
                              ("Carrier " +:+ pretty i) ("X" +:+ pretty i)
                              "2026-03-01 09:00") <$> seq 0 50))) = 40%nat.
Proof. by vm_compute. Qed.

(** C3: for every input list of deals, the [topDeals] list returned by
    [groupAndCurateResults] is sorted non-decreasing by [priceUsd]: each
    deal costs at most as much as every deal after it. *)
Theorem topDeals_sorted (getHours : string → option Z)
    (deals : list Types.Deal) :
  Props.nonDecreasing
    (ResultGrouper.topDeals
       (ResultGrouper.groupAndCurateResults getHours deals)).
Proof.
  destruct (topDeals_selected getHours deals) as (c & _ & ->).
  apply sort_by_sorted.
Qed.

(** C4: for every input list of deals, no two deals of the [topDeals] list
    returned by [groupAndCurateResults] share the deduplication key
    ([legs[0].airline], [legs[0].flightNumber], [legs[0].departureDate]);
    the keys that [getFlightKey] prints are pairwise distinct as well. *)
Theorem topDeals_distinct_keys (getHours : string → option Z)
    (deals : list Types.Deal) :
  let result := ResultGrouper.groupAndCurateResults getHours deals in
  NoDup (Props.dedupKey <$> ResultGrouper.topDeals result)
  ∧ NoDup (ResultGrouper.getFlightKey <$> ResultGrouper.topDeals result).
Proof.
  simpl.
  destruct (topDeals_selected getHours deals) as (c & Hc & ->).
  assert (NoDup (ResultGrouper.getFlightKey
                   <$> ResultGrouper.sortByPrice (ResultGrouper.top c))) as Hk.
  { unfold ResultGrouper.sortByPrice. rewrite sort_by_Permutation. apply Hc. }
  split; [|done].
  apply (NoDup_fmap_1 Props.printKey).
  rewrite <- list_fmap_compose.
  erewrite list_fmap_ext; [exact Hk|].
  intros i d _. simpl. by rewrite getFlightKey_printKey.
Qed.

(** C10: [groupAndCurateResults] applied to the empty list of deals returns
    (the function is total, nothing is raised) the structure with no best
    deal, empty time-of-day, airline and strategy groups, no special deal
    and an empty [topDeals] list. *)
Theorem groupAndCurateResults_empty (getHours : string → option Z) :
  ResultGrouper.groupAndCurateResults getHours []
  = {| ResultGrouper.bestOverall := None;
       ResultGrouper.cheapestByTime :=
         {| ResultGrouper.morning := []; ResultGrouper.afternoon := [];
            ResultGrouper.evening := []; ResultGrouper.overnight := [] |};
       ResultGrouper.byAirline := [];
       ResultGrouper.byStrategy := [];
       ResultGrouper.specialDeals := [];
       ResultGrouper.topDeals := [] |}.
Proof. reflexivity. Qed.

(** ** The call budget *)

Lemma mapM_cons_state {S A B : Type} (f : A → Eff.M S B) (x : A)
    (xs : list A) (s : S) :
  snd (Eff.mapM f (x :: xs) s) = snd (Eff.mapM f xs (snd (f x s))).
Proof.
  simpl. unfold Eff.bind, Eff.ret.
  destruct (f x s) as [y s1]. simpl. by destruct (Eff.mapM f xs s1).
Qed.

Lemma mapM_cons_result {S A B : Type} (f : A → Eff.M S B) (x : A)
    (xs : list A) (s : S) :
  fst (Eff.mapM f (x :: xs) s)
  = fst (f x s) :: fst (Eff.mapM f xs (snd (f x s))).
Proof.
  simpl. unfold Eff.bind, Eff.ret.
  destruct (f x s) as [y s1]. simpl. by destruct (Eff.mapM f xs s1).
Qed.

Section Budget.
Import SmartSearch.
Variable provider : list Call → Call → Outcome.

Lemma smartSearchFlights_exhausted (o d dt : string) (rd : option string)
    (reason : string) (s : State) :
  (MAX_API_CALLS_PER_SEARCH ≤ apiCallCount s)%nat →
  smartSearchFlights provider o d dt rd reason s = ([], s).
Proof. intros Hmax. unfold smartSearchFlights. by case_decide. Qed.

Lemma smartSearchFlights_issues (o d dt : string) (rd : option string)
    (reason : string) (s : State) :
  (apiCallCount s < MAX_API_CALLS_PER_SEARCH)%nat →
  let s' := snd (smartSearchFlights provider o d dt rd reason s) in
  apiCallCount s' = S (apiCallCount s)
  ∧ providerCalls s'
    = providerCalls s ++ [ {| call_origin := o; call_destination := d;
                              call_date := dt; call_returnDate := rd |} ].
Proof.
  intros Hlt. unfold smartSearchFlights. case_decide; [lia|].
  by destruct (provider _ _).
Qed.

(** Along any sequence of invocations the provider receives exactly as
    many calls as the counter advances, and the counter stops at the
    maximum. *)
Lemma invocations_issued (invs : list Props.Invocation) (s : State) :
  (apiCallCount s ≤ MAX_API_CALLS_PER_SEARCH)%nat →
  ∃ issued,
    providerCalls (snd (Eff.mapM (Props.invoke provider) invs s))
    = providerCalls s ++ issued
    ∧ apiCallCount (snd (Eff.mapM (Props.invoke provider) invs s))
      = (apiCallCount s + length issued)%nat
    ∧ length issued
      = Nat.min (MAX_API_CALLS_PER_SEARCH - apiCallCount s) (length invs).
Proof.
  revert s. induction invs as [|i invs IH]; intros s Hle.
  - exists []. simpl. rewrite app_nil_r. split_and!; [done|lia|lia].
  - rewrite mapM_cons_state.
    destruct (decide (MAX_API_CALLS_PER_SEARCH ≤ apiCallCount s)%nat)
      as [Hmax|Hlt].
    + unfold Props.invoke at 2 4.
      rewrite smartSearchFlights_exhausted by done. simpl.
      destruct (IH s Hle) as (issued & H1 & H2 & H3).
      exists issued. split_and!; [done|done|lia].
    + pose proof (smartSearchFlights_issues (Props.inv_origin i)
                    (Props.inv_destination i) (Props.inv_date i)
                    (Props.inv_returnDate i) (Props.inv_reason i) s) as Hs.
      fold (Props.invoke provider i) in Hs. simpl in Hs.
      destruct Hs as [Hc Hp]; [lia|].
      destruct (IH (snd (Props.invoke provider i s)))
        as (issued & H1 & H2 & H3); [lia|].
      eexists (_ :: issued). split_and!.
      * rewrite H1, Hp, <- app_assoc. reflexivity.
      * rewrite H2, Hc. simpl. lia.
      * rewrite Hc in H3. simpl. lia.
Qed.

End Budget.

(** C1: for every provider and every sequence of invocations of
    [smartSearchFlights] made after [resetApiCallCount], the provider is
    called at most 15 times (the calls it receives are those it had before,
    followed by as many new ones as the counter shows, at most 15); and an
    invocation made when the counter has reached 15 returns the empty list
    and leaves the state as it was, the provider's log included. *)
Theorem budget_respected
    (provider : list SmartSearch.Call → SmartSearch.Call → SmartSearch.Outcome)
    (s0 : SmartSearch.State) (invs : list Props.Invocation) :
  (∃ issued,
     SmartSearch.providerCalls
       (snd (Eff.mapM (Props.invoke provider) invs
               (SmartSearch.resetApiCallCount s0)))
     = SmartSearch.providerCalls s0 ++ issued
     ∧ length issued
       = SmartSearch.getApiCallCount
           (snd (Eff.mapM (Props.invoke provider) invs
                   (SmartSearch.resetApiCallCount s0)))
     ∧ (length issued ≤ 15)%nat)
  ∧ (∀ (s : SmartSearch.State) (i : Props.Invocation),
       (15 ≤ SmartSearch.getApiCallCount s)%nat →
       Props.invoke provider i s = ([], s)).
Proof.
  split.
  - destruct (invocations_issued provider invs
                (SmartSearch.resetApiCallCount s0)) as (issued & H1 & H2 & H3).
    { simpl. unfold SmartSearch.MAX_API_CALLS_PER_SEARCH. lia. }
    exists issued. unfold SmartSearch.getApiCallCount.
    rewrite H1, H2.
    change (SmartSearch.apiCallCount (SmartSearch.resetApiCallCount s0))
      with 0%nat in *.
    unfold SmartSearch.MAX_API_CALLS_PER_SEARCH in H3.
    split_and!; [done|lia|lia].
  - intros s i Hs. by apply smartSearchFlights_exhausted.
Qed.

(** C8: [smartSearchFlights] absorbs a failure of the provider: whenever
    the call of [searchGoogleFlights] that it makes throws, it returns the
    empty list (and the call has been counted). *)
Theorem provider_failure_absorbed
    (provider : list SmartSearch.Call → SmartSearch.Call → SmartSearch.Outcome)
    (origin destination date : string) (returnDate : option string)
    (reason : string) (s : SmartSearch.State) :
  provider (SmartSearch.providerCalls s)
    {| SmartSearch.call_origin := origin;
       SmartSearch.call_destination := destination;
       SmartSearch.call_date := date;
       SmartSearch.call_returnDate := returnDate |} = SmartSearch.Threw →
  fst (SmartSearch.smartSearchFlights provider origin destination date
         returnDate reason s) = [].
Proof.
  intros Hthrow. unfold SmartSearch.smartSearchFlights.
  case_decide; [done|]. by rewrite Hthrow.
Qed.

(** The provider of [serpapi.ts] catches its own failures: seen from
    [smartSearch.ts] it never throws. *)
Lemma serpApiProvider_returns (key : string)
    (fetch : list SerpApi.Request → SerpApi.Request → SerpApi.FetchResult)
    (before : list SmartSearch.Call) (call : SmartSearch.Call) :
  ∃ results,
    SmartSearch.serpApiProvider key fetch before call
    = SmartSearch.Returned results.
Proof. by eexists. Qed.

(** ** Nearby airports *)

Lemma isDirect_direct (f : SerpApi.SerpFlightResult) :
  DealFinder.isDirect f = true → Props.direct f.
Proof.
  unfold DealFinder.isDirect, Props.direct. intros Hd.
  destruct (SerpApi.flights f) as [|leg [|? ?]]; try discriminate.
  exists leg. split; [done|].
  destruct (SerpApi.layovers leg) as [ls|]; [|by left].
  right. apply bool_decide_eq_true in Hd.
  by destruct ls.
Qed.

Section Nearby.
Import DealFinder Props.
Variable provider
  : list SmartSearch.Call → SmartSearch.Call → SmartSearch.Outcome.
Variable roundPercent : Z → Z → Z.

Lemma nearbyDeal_ok (basePrice : Z) (technique route : string)
    (found : list SerpApi.SerpFlightResult) :
  Forall (nearbyOk basePrice)
    (nearbyDeal roundPercent basePrice technique route found).
Proof.
  unfold nearbyDeal. destruct found as [|best ?]; [constructor|].
  case_decide as Hp; [|constructor].
  destruct (isDirect best) eqn:Hd; [|constructor].
  repeat constructor. exists best. simpl.
  split_and!; [done| by apply isDirect_direct | done].
Qed.

Lemma checkOrigins_ok (o d dt : string) (basePrice : Z) (alts : list string)
    (deals : list DealOpportunity) (s : SmartSearch.State) :
  Forall (nearbyOk basePrice) deals →
  Forall (nearbyOk basePrice)
    (fst (checkOrigins provider roundPercent o d dt basePrice alts deals s)).
Proof.
  revert deals s. induction alts as [|a alts IH]; intros deals s Hd; simpl;
    [done|].
  unfold Eff.bind. destruct (smartSearchFlights provider _ _ _ _ _ s).
  apply IH. apply Forall_app. split; [done | apply nearbyDeal_ok].
Qed.

Lemma checkDestinations_ok (o d dt : string) (basePrice : Z)
    (alts : list string) (deals : list DealOpportunity)
    (s : SmartSearch.State) :
  Forall (nearbyOk basePrice) deals →
  Forall (nearbyOk basePrice)
    (fst (checkDestinations provider roundPercent o d dt basePrice alts
            deals s)).
Proof.
  revert deals s. induction alts as [|a alts IH]; intros deals s Hd; simpl;
    [done|].
  unfold Eff.bind. destruct (smartSearchFlights provider _ _ _ _ _ s).
  apply IH. apply Forall_app. split; [done | apply nearbyDeal_ok].
Qed.

Lemma findNearbyAirportDeals_ok (o d dt : string) (basePrice : Z)
    (s : SmartSearch.State) :
  Forall (nearbyOk basePrice)
    (fst (findNearbyAirportDeals provider roundPercent o d dt basePrice s)).
Proof.
  unfold findNearbyAirportDeals. case_decide; [constructor|].
  unfold Eff.bind.
  pose proof (checkOrigins_ok o d dt basePrice
                (SmartSearch.selectSmartAlternatives o basePrice) [] s) as Ho.
  destruct (checkOrigins _ _ _ _ _ _ _ _ s) as [deals s1].
  apply checkDestinations_ok. apply Ho. constructor.
Qed.

End Nearby.

(** C5: every deal opportunity returned by [findNearbyAirportDeals] carries
    exactly one itinerary, which is a direct flight (a single leg, no
    layovers) priced strictly below 85% of [basePrice]; and when
    [basePrice < 70] no deal is returned. *)
Theorem nearby_deals_direct_and_cheaper
    (provider : list SmartSearch.Call → SmartSearch.Call → SmartSearch.Outcome)
    (roundPercent : Z → Z → Z) (origin destination departureDate : string)
    (basePrice : Z) (s : SmartSearch.State) :
  (∀ deal,
     deal ∈ fst (DealFinder.findNearbyAirportDeals provider roundPercent
                   origin destination departureDate basePrice s) →
     ∃ f, DealFinder.flights deal = [f] ∧ Props.direct f
          ∧ 100 * SerpApi.price f < 85 * basePrice)
  ∧ (basePrice < 70 →
     fst (DealFinder.findNearbyAirportDeals provider roundPercent origin
            destination departureDate basePrice s) = []).
Proof.
  split.
  - intros deal Hin.
    pose proof (findNearbyAirportDeals_ok provider roundPercent origin
                  destination departureDate basePrice s) as Hall.
    rewrite Forall_forall in Hall. exact (Hall deal Hin).
  - intros Hlow. unfold DealFinder.findNearbyAirportDeals.
    by case_decide.
Qed.

(** ** Hidden-city search *)

Lemma mapM_elem {S A B : Type} (f : A → Eff.M S B) (xs : list A) (s : S)
    (y : B) :
  y ∈ fst (Eff.mapM f xs s) → ∃ x s', x ∈ xs ∧ y = fst (f x s').
Proof.
  revert s. induction xs as [|x xs IH]; intros s.
  - simpl. by intros ?%elem_of_nil.
  - rewrite mapM_cons_result. intros [->|Hy]%elem_of_cons.
    + exists x, s. split; [left|done].
    + destruct (IH _ Hy) as (x' & s' & Hx' & ->).
      exists x', s'. split; [by right|done].
Qed.

Lemma hasLayoverAt_layoverAt (destination : string)
    (f : SerpApi.SerpFlightResult) :
  SerpApi.hasLayoverAt destination f = true → Props.layoverAt destination f.
Proof.
  unfold SerpApi.hasLayoverAt, Props.layoverAt. intros Hex.
  apply existsb_exists in Hex as (leg & Hleg & Hl).
  destruct (SerpApi.layovers leg) as [ls|] eqn:Hls; [|discriminate].
  apply existsb_exists in Hl as (l & Hl & Hid).
  apply bool_decide_eq_true in Hid.
  exists leg, ls, l. by rewrite !list_elem_of_In.
Qed.

Lemma searchBeyond_result (key : string)
    (fetch : list SerpApi.Request → SerpApi.Request → SerpApi.FetchResult)
    (o d dt beyondDest : string) (sent : list SerpApi.Request)
    (r : SerpApi.HiddenCityResult) :
  fst (SerpApi.searchBeyond key fetch o d dt beyondDest sent) = Some r →
  SerpApi.beyondDestination r = beyondDest
  ∧ SerpApi.hiddenCityFlights r ≠ []
  ∧ ∀ f, f ∈ SerpApi.hiddenCityFlights r → Props.layoverAt d f.
Proof.
  unfold SerpApi.searchBeyond, Eff.bind, Eff.ret.
  destruct (SerpApi.searchGoogleFlights _ _ _ _ _ _ _ sent) as [found sent'].
  simpl. case_decide as Hlen; [|discriminate].
  intros [= <-]. simpl. split_and!; [done| |].
  - intros Hnil. rewrite Hnil in Hlen. simpl in Hlen. lia.
  - intros f [Hf _]%list_elem_of_filter. by apply hasLayoverAt_layoverAt.
Qed.

(** C6: every result of the hidden-city search names a beyond-destination
    different from the query destination, and every flight in it has a leg
    with a layover whose airport id is the query destination. *)
Theorem hidden_city_results_stop_at_destination (key : string)
    (fetch : list SerpApi.Request → SerpApi.Request → SerpApi.FetchResult)
    (origin destination departureDate : string)
    (sent : list SerpApi.Request) (r : SerpApi.HiddenCityResult) :
  r ∈ fst (SerpApi.searchHiddenCityFlights key fetch origin destination
             departureDate sent) →
  SerpApi.beyondDestination r ≠ destination
  ∧ ∀ f, f ∈ SerpApi.hiddenCityFlights r → Props.layoverAt destination f.
Proof.
  unfold SerpApi.searchHiddenCityFlights, Eff.bind, Eff.ret.
  destruct (Eff.mapM _ _ sent) as [settled sent'] eqn:Hrun. simpl.
  intros (o & Ho & Hr)%list_elem_of_omap. simpl in Hr. subst o.
  assert (Some r ∈ fst (Eff.mapM
            (SerpApi.searchBeyond key fetch origin destination departureDate)
            (take 5 (filter (λ hub, hub ≠ origin ∧ hub ≠ destination)
                       SerpApi.majorHubs)) sent)) as Hin
    by (rewrite Hrun; exact Ho).
  apply mapM_elem in Hin as (hub & s' & Hhub & Hres).
  symmetry in Hres. apply searchBeyond_result in Hres as (Hb & _ & Hf).
  split; [|done].
  rewrite Hb.
  apply subseteq_take in Hhub.
  apply list_elem_of_filter in Hhub as [[_ Hne] _]. done.
Qed.

(** ** The data analyser *)

Section Analyser.
Import DataAnalyzer Props.
Variable getHours : string → option Z.
Variable toLocaleTimeString : string → string.
Variable showPercent : Z → Z → string.

Lemma createDeal_analyserDeal (flight : SerpApi.SerpFlightResult)
    (o d dt explanation : string) (risk : Z) :
  SerpApi.flights flight ≠ [] → risk ∈ [5; 10; 15] →
  analyserDeal (createDeal flight o d dt explanation risk).
Proof.
  intros Hlegs Hrisk. split_and!; [done|done|].
  simpl. by destruct (SerpApi.flights flight).
Qed.

Lemma allDeals_Forall (P : Types.Deal → Prop) (r : AnalysisResult) :
  Forall P (allDeals r)
  ↔ Forall P (redEyeDeals r) ∧ Forall P (layoverDeals r)
    ∧ Forall P (budgetAirlineDeals r) ∧ Forall P (connectingDeals r)
    ∧ Forall P (timeBasedDeals r).
Proof. unfold allDeals. by rewrite !Forall_app. Qed.

Local Ltac push_ok :=
  intros Hr Hd; apply allDeals_Forall in Hr as (? & ? & ? & ? & ?);
  apply allDeals_Forall; simpl; rewrite ?Forall_app, ?Forall_singleton;
  split_and!; done.

Lemma pushRedEye_ok (r : AnalysisResult) (d : Types.Deal) :
  Forall analyserDeal (allDeals r) → analyserDeal d →
  Forall analyserDeal (allDeals (pushRedEye r d)).
Proof. push_ok. Qed.

Lemma pushLayover_ok (r : AnalysisResult) (d : Types.Deal) :
  Forall analyserDeal (allDeals r) → analyserDeal d →
  Forall analyserDeal (allDeals (pushLayover r d)).
Proof. push_ok. Qed.

Lemma pushBudgetAirline_ok (r : AnalysisResult) (d : Types.Deal) :
  Forall analyserDeal (allDeals r) → analyserDeal d →
  Forall analyserDeal (allDeals (pushBudgetAirline r d)).
Proof. push_ok. Qed.

Lemma pushConnecting_ok (r : AnalysisResult) (d : Types.Deal) :
  Forall analyserDeal (allDeals r) → analyserDeal d →
  Forall analyserDeal (allDeals (pushConnecting r d)).
Proof. push_ok. Qed.

Lemma pushTimeBased_ok (r : AnalysisResult) (d : Types.Deal) :
  Forall analyserDeal (allDeals r) → analyserDeal d →
  Forall analyserDeal (allDeals (pushTimeBased r d)).
Proof. push_ok. Qed.

Lemma analyzeFlight_ok (o d dt : string) (total n cheapest : Z)
    (acc : AnalysisResult * gset string) (flight : SerpApi.SerpFlightResult) :
  Forall analyserDeal (allDeals (fst acc)) →
  Forall analyserDeal
    (allDeals
       (fst (analyzeFlight getHours toLocaleTimeString showPercent o d dt
               total n cheapest acc flight))).
Proof.
  destruct acc as [r seen]. unfold analyzeFlight.
  destruct (SerpApi.flights flight) as [|firstLeg others] eqn:Hlegs; [done|].
  case_decide; [done|].
  assert (∀ e risk, risk ∈ [5; 10; 15] →
            analyserDeal (createDeal flight o d dt e risk)) as Hmk.
  { intros e risk Hr. apply createDeal_analyserDeal; [|done].
    by rewrite Hlegs. }
  cbv zeta. cbn [fst]. intros Hr.
  repeat lazymatch goal with
    | |- Forall _ (allDeals (if ?c then _ else _)) => destruct c
    | |- Forall _ (allDeals (match ?h with Some _ => _ | None => _ end)) =>
        destruct h
    | |- Forall _ (allDeals (pushRedEye _ _)) =>
        apply pushRedEye_ok; [|apply Hmk; repeat constructor]
    | |- Forall _ (allDeals (pushLayover _ _)) =>
        apply pushLayover_ok; [|apply Hmk; repeat constructor]
    | |- Forall _ (allDeals (pushBudgetAirline _ _)) =>
        apply pushBudgetAirline_ok; [|apply Hmk; repeat constructor]
    | |- Forall _ (allDeals (pushConnecting _ _)) =>
        apply pushConnecting_ok; [|apply Hmk; repeat constructor]
    | |- Forall _ (allDeals (pushTimeBased _ _)) =>
        apply pushTimeBased_ok; [|apply Hmk; repeat constructor]
    end; exact Hr.
Qed.

Lemma analyzeFlights_ok (o d dt : string) (total n cheapest : Z)
    (flights : list SerpApi.SerpFlightResult)
    (acc : AnalysisResult * gset string) :
  Forall analyserDeal (allDeals (fst acc)) →
  Forall analyserDeal
    (allDeals
       (fst (foldl (analyzeFlight getHours toLocaleTimeString showPercent
                      o d dt total n cheapest) acc flights))).
Proof.
  revert acc. induction flights as [|f fs IH]; intros acc Hacc; simpl;
    [done|].
  apply IH. by apply analyzeFlight_ok.
Qed.

Lemma analyzeFlightData_ok (flights : list SerpApi.SerpFlightResult)
    (o d dt : string) :
  Forall analyserDeal
    (allDeals
       (analyzeFlightData getHours toLocaleTimeString showPercent flights
          o d dt)).
Proof.
  unfold analyzeFlightData. destruct flights as [|first rest]; [constructor|].
  cbv zeta.
  match goal with
  | |- context [foldl (analyzeFlight _ _ _ _ _ _ ?t ?n ?c) ?init ?fs] =>
      pose proof (analyzeFlights_ok o d dt t n c fs init) as Hall
  end.
  specialize (Hall ltac:(constructor)).
  apply allDeals_Forall in Hall as (H1 & H2 & H3 & H4 & H5).
  apply allDeals_Forall. simpl.
  unfold sortDeals. rewrite !sort_by_Permutation. done.
Qed.

End Analyser.

(** C9: every deal that [analyzeFlightData] emits, in any of its five
    categories (red-eye, layover, budget-airline, connecting, time-based),
    has strategy [standard], a risk score among 5, 10 and 15, and at least
    one leg; hence the curator never lists such a deal among its special
    (non-standard) deals, whatever list it is given. *)
Theorem analyser_deals_are_standard (getHours : string → option Z)
    (toLocaleTimeString : string → string) (showPercent : Z → Z → string)
    (flights : list SerpApi.SerpFlightResult)
    (origin destination departureDate : string) (deal : Types.Deal) :
  deal ∈ Props.allDeals
           (DataAnalyzer.analyzeFlightData getHours toLocaleTimeString
              showPercent flights origin destination departureDate) →
  Types.strategy deal = Types.Standard
  ∧ Types.riskScore deal ∈ [5; 10; 15]
  ∧ Types.legs deal ≠ []
  ∧ ∀ (clock : string → option Z) (deals : list Types.Deal),
      deal ∉ ResultGrouper.specialDeals
               (ResultGrouper.groupAndCurateResults clock deals).
Proof.
  intros Hin.
  pose proof (analyzeFlightData_ok getHours toLocaleTimeString showPercent
                flights origin destination departureDate) as Hall.
  rewrite Forall_forall in Hall.
  destruct (Hall deal Hin) as (Hs & Hr & Hl).
  split_and!; [done..|].
  intros clock deals Hsp. destruct deals as [|d0 deals].
  - simpl in Hsp. by apply elem_of_nil in Hsp.
  - cbn [ResultGrouper.groupAndCurateResults ResultGrouper.specialDeals]
      in Hsp.
    apply list_elem_of_filter in Hsp as [Hne _]. done.
Qed.

(** ** The direct-flight reference price of the analyser *)

Section CheapestDirect.
Import DataAnalyzer.

Lemma cheapestDirectPrice_no_direct (flights : list SerpApi.SerpFlightResult)
    (basePrice : Z) :
  directFlights flights = [] → cheapestDirectPrice flights basePrice = basePrice.
Proof. unfold cheapestDirectPrice. by intros ->. Qed.

Lemma cheapestDirectPrice_first_direct
    (flights rest : list SerpApi.SerpFlightResult)
    (f : SerpApi.SerpFlightResult) (basePrice : Z) :
  directFlights flights = f :: rest → SerpApi.price f ≠ 0 →
  cheapestDirectPrice flights basePrice = SerpApi.price f.
Proof.
  unfold cheapestDirectPrice. intros -> Hp. simpl. by case_decide.
Qed.

Lemma minPrice_sorted (f : SerpApi.SerpFlightResult)
    (fs : list SerpApi.SerpFlightResult) :
  Forall (λ g, SerpApi.price f ≤ SerpApi.price g) fs →
  Props.minPrice (f :: fs) = Some (SerpApi.price f).
Proof.
  simpl. intros Hall. f_equal.
  induction Hall as [|g fs Hg _ IH]; simpl; [done|]. lia.
Qed.

Lemma filter_Forall {A : Type} (P Q : A → Prop) `{∀ x, Decision (Q x)}
    (l : list A) :
  Forall P l → Forall P (filter Q l).
Proof.
  rewrite !Forall_forall. intros Hall x [_ Hx]%list_elem_of_filter. auto.
Qed.

Lemma filter_StronglySorted {A : Type} (R : relation A) (Q : A → Prop)
    `{∀ x, Decision (Q x)} (l : list A) :
  StronglySorted R l → StronglySorted R (filter Q l).
Proof.
  induction 1 as [|x l Hl IH Hx]; [constructor|].
  rewrite filter_cons. case_decide; [|done].
  constructor; [done|]. by apply filter_Forall.
Qed.

(** On results that come sorted by price the first direct flight is the
    cheapest one. *)
Lemma cheapestDirectPrice_sorted (flights : list SerpApi.SerpFlightResult)
    (basePrice : Z) :
  StronglySorted (λ a b, SerpApi.price a ≤ SerpApi.price b) flights →
  directFlights flights ≠ [] →
  Forall (λ f, SerpApi.price f ≠ 0) flights →
  Props.minPrice (directFlights flights)
  = Some (cheapestDirectPrice flights basePrice).
Proof.
  intros Hs Hne Hpos.
  assert (StronglySorted (λ a b, SerpApi.price a ≤ SerpApi.price b)
            (directFlights flights)) as Hs'
    by (by apply filter_StronglySorted).
  assert (Forall (λ f, SerpApi.price f ≠ 0) (directFlights flights)) as Hpos'
    by (by apply filter_Forall).
  destruct (directFlights flights) as [|f rest] eqn:Hd; [done|].
  rewrite (cheapestDirectPrice_first_direct flights rest f); [|done|].
  - apply minPrice_sorted. by apply StronglySorted_inv in Hs' as [_ ?].
  - by apply Forall_cons in Hpos' as [? _].
Qed.

End CheapestDirect.

(** C7 fails on the code: [cheapestDirectPrice] is the price of the first
    direct flight in the provider's order, not of the cheapest one.  On
    results that list a 300 dollar direct flight before a 200 dollar one,
    the reference price is 300 although the cheapest direct flight costs
    200, and the analyser advertises a 250 dollar connection as a
    saving. *)
Theorem cheapestDirectPrice_not_cheapest :
  DataAnalyzer.cheapestDirectPrice Samples.dearerDirectFirst 300 = 300
  ∧ Props.minPrice (DataAnalyzer.directFlights Samples.dearerDirectFirst)
    = Some 200
  ∧ Types.priceUsd <$> DataAnalyzer.connectingDeals Samples.sampleAnalysis
    = [250].
Proof. split_and!; vm_compute; reflexivity. Qed.

(** ** The theorems at concrete inputs *)

Lemma budget_respected_witness :
  (15 ≤ SmartSearch.getApiCallCount Samples.afterTwenty)%nat
  ∧ Props.invoke Samples.newarkProvider Samples.sameInvocation
      Samples.afterTwenty
    = ([], Samples.afterTwenty).
Proof.
  assert (15 ≤ SmartSearch.getApiCallCount Samples.afterTwenty)%nat as H
    by (vm_compute; constructor).
  split; [exact H|].
  exact (proj2 (budget_respected Samples.newarkProvider Samples.freshState
                  Samples.twentyInvocations)
           Samples.afterTwenty Samples.sameInvocation H).
Defined.

Lemma provider_failure_absorbed_witness :
  fst (SmartSearch.smartSearchFlights Samples.failingProvider "JFK" "LAX"
         "2026-03-01" None "search" Samples.freshState) = [].
Proof. apply provider_failure_absorbed. reflexivity. Defined.

Lemma nearby_deals_witness :
  (∃ f, DealFinder.flights Samples.newarkOpportunity = [f] ∧ Props.direct f
        ∧ 100 * SerpApi.price f < 85 * 300)
  ∧ fst (DealFinder.findNearbyAirportDeals Samples.newarkProvider
           Samples.exactRound "JFK" "LAX" "2026-03-01" 60 Samples.freshState)
    = [].
Proof.
  split.
  - apply (proj1 (nearby_deals_direct_and_cheaper Samples.newarkProvider
                    Samples.exactRound "JFK" "LAX" "2026-03-01" 300
                    Samples.freshState)).
    vm_compute. left.
  - apply (proj2 (nearby_deals_direct_and_cheaper Samples.newarkProvider
                    Samples.exactRound "JFK" "LAX" "2026-03-01" 60
                    Samples.freshState)).
    lia.
Defined.

Lemma hidden_city_witness :
  SerpApi.beyondDestination Samples.viaLosAngeles ≠ "LAX"
  ∧ ∀ f, f ∈ SerpApi.hiddenCityFlights Samples.viaLosAngeles →
         Props.layoverAt "LAX" f.
Proof.
  apply (hidden_city_results_stop_at_destination "key" Samples.losAngelesFetch
           "JFK" "LAX" "2026-03-01" []).
  vm_compute. left.
Defined.

Lemma analyser_deals_witness :
  Types.strategy Samples.denverLayoverDeal = Types.Standard
  ∧ Types.riskScore Samples.denverLayoverDeal ∈ [5; 10; 15]
  ∧ Types.legs Samples.denverLayoverDeal ≠ []
  ∧ ∀ (clock : string → option Z) (deals : list Types.Deal),
      Samples.denverLayoverDeal
      ∉ ResultGrouper.specialDeals
          (ResultGrouper.groupAndCurateResults clock deals).
Proof.
  apply (analyser_deals_are_standard Samples.clock Samples.timeOfDay
           Samples.exactPercent Samples.dearerDirectFirst "JFK" "LAX"
           "2026-03-01").
  vm_compute. left.
Defined.

(** * Further properties of the code *)

(** ** Insertion-ordered maps *)

Section OrderedMapFacts.
Context {K V : Type} `{EqDecision K}.
Implicit Types (m : list (K * V)) (k : K) (v : V).

Lemma map_get_set m k k' v :
  Js.map_get (Js.map_set m k v) k'
  = if decide (k = k') then Some v else Js.map_get m k'.
Proof.
  induction m as [|[k0 v0] m IH]; simpl.
  - by repeat case_decide.
  - repeat (case_decide; simpl; simplify_eq); try done.
    all: rewrite IH; by case_decide.
Qed.

Lemma map_set_keys m k v :
  (Js.map_set m k v).*1
  = if Js.map_has m k then m.*1 else m.*1 ++ [k].
Proof.
  unfold Js.map_has. induction m as [|[k0 v0] m IH]; csimpl; [done|].
  case_decide; simplify_eq; csimpl; [done|].
  rewrite IH. by destruct (bool_decide _).
Qed.

Lemma map_has_keys m k : Js.map_has m k = true ↔ k ∈ m.*1.
Proof.
  unfold Js.map_has. rewrite bool_decide_eq_true.
  induction m as [|[k0 v0] m IH]; simpl.
  - split; [by intros [? ?] | by intros ?%elem_of_nil].
  - rewrite elem_of_cons. case_decide; simplify_eq.
    + split; [by left | by eexists].
    + rewrite IH. split; [by right | by intros [?|?]].
Qed.

Lemma map_set_keys_NoDup m k v : NoDup m.*1 → NoDup (Js.map_set m k v).*1.
Proof.
  intros Hm. rewrite map_set_keys.
  destruct (Js.map_has m k) eqn:Hhas; [done|].
  apply NoDup_app. split_and!; [done| |apply NoDup_singleton].
  intros k' Hk' ->%list_elem_of_singleton.
  apply map_has_keys in Hk'. congruence.
Qed.

Lemma map_get_elem m k v : NoDup m.*1 → (k, v) ∈ m → Js.map_get m k = Some v.
Proof.
  induction m as [|[k0 v0] m IH]; simpl.
  - by intros _ ?%elem_of_nil.
  - intros [Hk0 Hm]%NoDup_cons [Heq|Hin]%elem_of_cons.
    + simplify_eq. by case_decide.
    + case_decide; [|by apply IH]. simplify_eq.
      exfalso. apply Hk0. apply list_elem_of_fmap. by exists (k, v).
Qed.

End OrderedMapFacts.

(** ** The groups of the curator *)

Lemma take_take_app {A : Type} (n : nat) (l k : list A) :
  take n (take n l ++ k) = take n (l ++ k).
Proof.
  destruct (decide (length l ≤ n)%nat) as [Hle|Hgt].
  - by rewrite (take_ge l n).
  - rewrite !take_app_le by (rewrite ?length_take; lia).
    by rewrite take_take, Nat.min_id.
Qed.

Section Groups.
Import Types ResultGrouper Props.
Variable getHours : string → option Z.

Lemma pushUpTo2_take (l : list Deal) (d : Deal) :
  pushUpTo2 (take 2 l) d = take 2 (l ++ [d]).
Proof.
  unfold pushUpTo2. rewrite <- take_take_app.
  assert (length (take 2 l) ≤ 2)%nat as Hle by (rewrite length_take; lia).
  generalize dependent (take 2 l). intros t Hle.
  case_decide as Hlen.
  - symmetry. apply take_ge. rewrite length_app. simpl. lia.
  - rewrite take_app_le by lia. by rewrite take_ge by lia.
Qed.

Lemma pushUpTo2_filter (P : Deal → Prop) `{∀ d, Decision (P d)}
    (pre : list Deal) (d : Deal) :
  take 2 (filter P (pre ++ [d]))
  = if decide (P d) then pushUpTo2 (take 2 (filter P pre)) d
    else take 2 (filter P pre).
Proof.
  rewrite filter_app, filter_cons, filter_nil.
  case_decide; [by rewrite pushUpTo2_take | by rewrite app_nil_r].
Qed.

Lemma groupByTime_step (pre : list Deal) (d : Deal) :
  groupByTime getHours (bucketsOf getHours pre) d = bucketsOf getHours (pre ++ [d]).
Proof.
  unfold bucketsOf. rewrite !pushUpTo2_filter.
  unfold groupByTime, periodOf. cbv zeta.
  destruct (getHours _) as [h|]; simpl;
    repeat (case_bool_decide || case_decide);
    simplify_eq; try lia; reflexivity.
Qed.

Lemma groupByTime_fold (pre deals : list Deal) :
  foldl (groupByTime getHours) (bucketsOf getHours pre) deals = bucketsOf getHours (pre ++ deals).
Proof.
  revert pre. induction deals as [|d deals IH]; intros pre; simpl.
  - by rewrite app_nil_r.
  - rewrite groupByTime_step, IH, <- app_assoc. done.
Qed.

End Groups.

Section MapGroups.
Import Types ResultGrouper Props.

Lemma groupEntry_None {A : Type} (g shown : list A) :
  groupEntry g shown = None ↔ g = [].
Proof. by destruct g. Qed.

Lemma groupEntry_Some {A : Type} (g shown l : list A) :
  groupEntry g shown = Some l → g ≠ [] ∧ l = shown.
Proof. destruct g; [done|]. by intros [= <-]. Qed.

Lemma groupEntry_snoc {A : Type} (g shown : list A) (x : A) :
  groupEntry (g ++ [x]) shown = Some shown.
Proof. by destruct g. Qed.

Lemma groupByAirline_step (m : list (string * list Deal)) (pre : list Deal)
    (d : Deal) :
  NoDup m.*1 ∧ (∀ a, Js.map_get m a = airlineGroup pre a) →
  NoDup (groupByAirline m d).*1
  ∧ (∀ a, Js.map_get (groupByAirline m d) a = airlineGroup (pre ++ [d]) a).
Proof.
  intros [Hnd Hget]. unfold groupByAirline. cbv zeta.
  fold (airlineOf d). set (a0 := airlineOf d).
  split.
  { apply map_set_keys_NoDup. destruct (Js.map_has m a0); [done|].
    by apply map_set_keys_NoDup. }
  intros a. rewrite map_get_set.
  unfold airlineGroup at 1. cbv zeta. rewrite filter_app, filter_cons, filter_nil.
  fold a0. case_decide as Ha.
  - subst a. rewrite groupEntry_snoc. f_equal.
    rewrite <- pushUpTo2_take. f_equal.
    unfold Js.map_has. case_bool_decide as Hhas.
    + destruct Hhas as [l Hl]. rewrite Hl. simpl.
      rewrite Hget in Hl. by apply groupEntry_Some in Hl as [_ ->].
    + rewrite map_get_set, decide_True by done. simpl.
      assert (Js.map_get m a0 = None) as Hnone
        by (by apply eq_None_not_Some).
      rewrite Hget in Hnone. apply groupEntry_None in Hnone.
      by rewrite Hnone.
  - rewrite app_nil_r.
    destruct (Js.map_has m a0).
    + apply Hget.
    + rewrite map_get_set, decide_False by done. apply Hget.
Qed.

Lemma groupByAirline_fold (deals pre : list Deal)
    (m : list (string * list Deal)) :
  NoDup m.*1 ∧ (∀ a, Js.map_get m a = airlineGroup pre a) →
  NoDup (foldl groupByAirline m deals).*1
  ∧ (∀ a, Js.map_get (foldl groupByAirline m deals) a
          = airlineGroup (pre ++ deals) a).
Proof.
  revert pre m. induction deals as [|d deals IH]; intros pre m Hm; simpl.
  - by rewrite app_nil_r.
  - rewrite (assoc_L _ pre [d] deals : pre ++ d :: deals = (pre ++ [d]) ++ deals).
    apply IH. by apply groupByAirline_step.
Qed.

Lemma groupByStrategy_step (m : list (Strategy * list Deal))
    (pre : list Deal) (d : Deal) :
  NoDup m.*1 ∧ (∀ s, Js.map_get m s = strategyGroup pre s) →
  NoDup (groupByStrategy m d).*1
  ∧ (∀ s, Js.map_get (groupByStrategy m d) s = strategyGroup (pre ++ [d]) s).
Proof.
  intros [Hnd Hget]. unfold groupByStrategy. cbv zeta.
  set (s0 := strategy d).
  split.
  { apply map_set_keys_NoDup. destruct (Js.map_has m s0); [done|].
    by apply map_set_keys_NoDup. }
  intros s. rewrite map_get_set.
  unfold strategyGroup at 1. cbv zeta.
  rewrite filter_app, filter_cons, filter_nil.
  fold s0. case_decide as Hs.
  - subst s. rewrite groupEntry_snoc. do 2 f_equal.
    unfold Js.map_has. case_bool_decide as Hhas.
    + destruct Hhas as [l Hl]. rewrite Hl. simpl.
      rewrite Hget in Hl. by apply groupEntry_Some in Hl as [_ ->].
    + rewrite map_get_set, decide_True by done. simpl.
      assert (Js.map_get m s0 = None) as Hnone
        by (by apply eq_None_not_Some).
      rewrite Hget in Hnone. apply groupEntry_None in Hnone.
      by rewrite Hnone.
  - rewrite app_nil_r.
    destruct (Js.map_has m s0).
    + apply Hget.
    + rewrite map_get_set, decide_False by done. apply Hget.
Qed.

Lemma groupByStrategy_fold (deals pre : list Deal)
    (m : list (Strategy * list Deal)) :
  NoDup m.*1 ∧ (∀ s, Js.map_get m s = strategyGroup pre s) →
  NoDup (foldl groupByStrategy m deals).*1
  ∧ (∀ s, Js.map_get (foldl groupByStrategy m deals) s
          = strategyGroup (pre ++ deals) s).
Proof.
  revert pre m. induction deals as [|d deals IH]; intros pre m Hm; simpl.
  - by rewrite app_nil_r.
  - rewrite (assoc_L _ pre [d] deals : pre ++ d :: deals = (pre ++ [d]) ++ deals).
    apply IH. by apply groupByStrategy_step.
Qed.

End MapGroups.


(** X2: the airline map of [groupAndCurateResults] has one entry per airline
    that occurs in the input (a deal without airline counts as "Unknown"),
    no airline twice, and the entry holds the first two deals of that
    airline in input order. *)
Theorem airline_groups_hold_first_two (getHours : string → option Z)
    (deals : list Types.Deal) :
  NoDup (ResultGrouper.byAirline
           (ResultGrouper.groupAndCurateResults getHours deals)).*1
  ∧ ∀ a, Js.map_get
           (ResultGrouper.byAirline
              (ResultGrouper.groupAndCurateResults getHours deals)) a
         = Props.airlineGroup deals a.
Proof.
  destruct deals as [|d deals].
  - split; [constructor|done].
  - cbn [ResultGrouper.groupAndCurateResults ResultGrouper.byAirline].
    apply (groupByAirline_fold (d :: deals) [] []).
    split; [constructor|done].
Qed.

(** X3: the strategy map of [groupAndCurateResults] has one entry per
    strategy that occurs in the input, no strategy twice, and the entry
    holds exactly the deals of that strategy, in input order. *)
Theorem strategy_groups_partition_input (getHours : string → option Z)
    (deals : list Types.Deal) :
  NoDup (ResultGrouper.byStrategy
           (ResultGrouper.groupAndCurateResults getHours deals)).*1
  ∧ ∀ s, Js.map_get
           (ResultGrouper.byStrategy
              (ResultGrouper.groupAndCurateResults getHours deals)) s
         = Props.strategyGroup deals s.
Proof.
  destruct deals as [|d deals].
  - split; [constructor|done].
  - cbn [ResultGrouper.groupAndCurateResults ResultGrouper.byStrategy].
    apply (groupByStrategy_fold (d :: deals) [] []).
    split; [constructor|done].
Qed.

(** ** What the curator selects *)

Lemma sort_by_head_least {A : Type} (key : A → Z) (x : A) (l : list A) :
  (∀ y, y ∈ l → key x ≤ key y) → head (Js.sort_by key (x :: l)) = Some x.
Proof.
  intros Hmin. simpl.
  destruct (Js.sort_by key l) as [|y l'] eqn:Hs; [done|]. simpl.
  rewrite decide_True; [done|].
  apply Hmin. rewrite <- (sort_by_Permutation key l), Hs. by left.
Qed.

Section Selection.
Import Types ResultGrouper Props.

Lemma Grows_refl (pool : list Deal) (c : Curation) : Grows pool c c.
Proof. exists []. by rewrite app_nil_r. Qed.

Lemma Grows_trans (pool : list Deal) (c1 c2 c3 : Curation) :
  Grows pool c1 c2 → Grows pool c2 c3 → Grows pool c1 c3.
Proof.
  intros (e1 & H1 & F1) (e2 & H2 & F2). exists (e1 ++ e2).
  split; [by rewrite H2, H1, <- app_assoc | by apply Forall_app].
Qed.

Lemma Grows_push (pool : list Deal) (c : Curation) (d : Deal) :
  d ∈ pool → Grows pool c (push c d).
Proof. intros Hd. exists [d]. split; [done | by constructor]. Qed.

Lemma Grows_pushIfNew (pool : list Deal) (c : Curation) (d : Deal) :
  d ∈ pool → Grows pool c (pushIfNew c d).
Proof.
  intros Hd. unfold pushIfNew.
  case_decide; [apply Grows_refl | by apply Grows_push].
Qed.

Lemma Grows_addSpecial (pool special : list Deal) (c : Curation) :
  Forall (λ d, d ∈ pool) special → Grows pool c (foldl addSpecial c special).
Proof.
  intros Hs. revert c. induction Hs as [|d l Hd _ IH]; intros c; simpl.
  - apply Grows_refl.
  - eapply Grows_trans; [|apply IH]. unfold addSpecial.
    case_decide; [by apply Grows_push | apply Grows_refl].
Qed.

Lemma Grows_addFromGroupLoop (pool group : list Deal) (c : Curation) :
  Forall (λ d, d ∈ pool) group → Grows pool c (addFromGroupLoop group c).
Proof.
  intros Hg. revert c. induction Hg as [|d l Hd _ IH]; intros c; simpl.
  - apply Grows_refl.
  - case_decide; [|apply Grows_refl].
    eapply Grows_trans; [|apply IH]. by apply Grows_pushIfNew.
Qed.

Lemma Grows_addFromGroups (pool : list Deal) (groups : list (list Deal))
    (c : Curation) :
  Forall (Forall (λ d, d ∈ pool)) groups →
  Grows pool c (foldl addFromGroup c groups).
Proof.
  intros Hg. revert c. induction Hg as [|g l Hd _ IH]; intros c; simpl.
  - apply Grows_refl.
  - eapply Grows_trans; [|apply IH]. apply Grows_addFromGroupLoop.
    rewrite Forall_forall in Hd |- *. intros d Hin. apply Hd.
    by eapply subseteq_take.
Qed.

Lemma Grows_fillPriceVariety (pool sorted : list Deal) (seen : gset Z)
    (c : Curation) :
  Forall (λ d, d ∈ pool) sorted → Grows pool c (fillPriceVariety sorted seen c).
Proof.
  intros Hs. revert seen c. induction Hs as [|d l Hd _ IH]; intros seen c;
    simpl.
  - apply Grows_refl.
  - case_decide; [apply Grows_refl|]. case_decide; [|apply IH].
    eapply Grows_trans; [|apply IH]. by apply Grows_push.
Qed.

Lemma take_filter_pool (P : Deal → Prop) `{∀ d, Decision (P d)} (n : nat)
    (deals : list Deal) :
  Forall (λ d, d ∈ deals) (take n (filter P deals)).
Proof.
  apply Forall_forall. intros d Hd. apply subseteq_take in Hd.
  by apply list_elem_of_filter in Hd as [_ ?].
Qed.

(** The keys of a tracked selection stay selected. *)
Lemma Grows_keys (pool : list Deal) (c c' : Curation) (k : string) :
  Grows pool c c' → k ∈ getFlightKey <$> top c → k ∈ getFlightKey <$> top c'.
Proof.
  intros (ext & -> & _) Hk. rewrite fmap_app. apply elem_of_app. by left.
Qed.

Lemma Tracked_push (pool : list Deal) (c : Curation) (d : Deal) :
  Tracked pool c → d ∈ pool → getFlightKey d ∉ addedFlights c →
  Tracked pool (push c d).
Proof.
  intros (Hnd & Hadd & Hpool) Hd Hnew. split_and!; simpl.
  - rewrite fmap_app. apply NoDup_app. split_and!; [done| |apply NoDup_singleton].
    intros k Hk ->%list_elem_of_singleton. apply Hnew. by apply Hadd.
  - intros k. rewrite fmap_app, elem_of_app, elem_of_union, elem_of_singleton.
    simpl. rewrite list_elem_of_singleton, Hadd. tauto.
  - apply Forall_app. split; [done | by constructor].
Qed.

Lemma Tracked_room (pool : list Deal) (c : Curation) (d : Deal) :
  Tracked pool c → d ∈ pool → getFlightKey d ∉ addedFlights c →
  (length (top c) < length pool)%nat.
Proof.
  intros (Hnd & Hadd & Hpool) Hd Hnew.
  assert (getFlightKey d :: (getFlightKey <$> top c)
          ⊆+ getFlightKey <$> pool) as Hsub.
  { apply NoDup_submseteq.
    - constructor; [by rewrite <- Hadd | done].
    - intros k [->|Hk]%elem_of_cons.
      + apply list_elem_of_fmap. by exists d.
      + apply list_elem_of_fmap in Hk as (d' & -> & Hd').
        apply list_elem_of_fmap. exists d'. split; [done|].
        rewrite Forall_forall in Hpool. by apply Hpool. }
  apply submseteq_length in Hsub. simpl in Hsub.
  rewrite !length_fmap in Hsub. lia.
Qed.

Lemma Tracked_addSpecial (pool special : list Deal) (c : Curation) :
  (length pool ≤ 30)%nat → Tracked pool c →
  Forall (λ d, d ∈ pool) special →
  Tracked pool (foldl addSpecial c special)
  ∧ ∀ d, d ∈ special →
         getFlightKey d ∈ getFlightKey <$> top (foldl addSpecial c special).
Proof.
  intros Hlen Hc Hs. revert c Hc.
  induction Hs as [|d l Hd Hl IH]; intros c Hc; simpl.
  - split; [done | by intros ? ?%elem_of_nil].
  - assert (Tracked pool (addSpecial c d)
            ∧ getFlightKey d ∈ getFlightKey <$> top (addSpecial c d))
      as [Hc' Hkey].
    { unfold addSpecial.
      destruct (decide (getFlightKey d ∈ addedFlights c)) as [Hin|Hnew].
      - rewrite decide_False by tauto. split; [done|]. by apply Hc.
      - pose proof (Tracked_room pool c d Hc Hd Hnew).
        rewrite decide_True by (split; [done|lia]).
        split; [by apply Tracked_push|].
        simpl. rewrite fmap_app. apply elem_of_app. right. by left. }
    destruct (IH _ Hc') as [Hfin Hall]. split; [done|].
    intros d' [->|Hd']%elem_of_cons; [|by apply Hall].
    eapply Grows_keys; [by apply Grows_addSpecial | done].
Qed.

Section WithClock.
Variable getHours : string → option Z.

(** The shape of the curated list: the cheapest deal, then deals of the
    input, sorted. *)
Lemma curate_shape (d0 : Deal) (rest : list Deal) :
  ∃ b ext,
    head (sortByPrice (d0 :: rest)) = Some b
    ∧ topDeals (groupAndCurateResults getHours (d0 :: rest))
      = sortByPrice (b :: ext)
    ∧ Forall (λ d, d ∈ d0 :: rest) ext
    ∧ ((length (d0 :: rest) ≤ 30)%nat →
       ∀ d, d ∈ d0 :: rest → strategy d ≠ Standard →
            getFlightKey d ∈ getFlightKey <$> b :: ext).
Proof.
  set (deals := d0 :: rest).
  assert (Forall (λ d, d ∈ deals) (sortByPrice deals)) as Hsorted.
  { apply Forall_forall. intros d Hd. unfold sortByPrice in Hd.
    by rewrite sort_by_Permutation in Hd. }
  assert (Forall (λ d, d ∈ deals) (filter (λ d, strategy d ≠ Standard) deals))
    as Hspecial.
  { apply Forall_forall. by intros d [_ ?]%list_elem_of_filter. }
  assert (topDeals (groupAndCurateResults getHours deals)
          = curate (sortByPrice deals)
              (filter (λ d, strategy d ≠ Standard) deals)
              (foldl (groupByTime getHours) emptyByTime deals)
              (foldl groupByAirline [] deals)) as Htop by reflexivity.
  destruct (sortByPrice deals) as [|b sorted'] eqn:Hsort.
  { apply (f_equal length) in Hsort. unfold sortByPrice in Hsort.
    rewrite sort_by_length in Hsort. done. }
  unfold curate in Htop.
  change emptyByTime with (bucketsOf getHours []) in Htop.
  rewrite (groupByTime_fold getHours [] deals) in Htop.
  destruct (groupByAirline_fold deals [] []) as [Hnd Hget];
    [split; [constructor|done]|].
  simpl app in *.
  set (c1 := addCheapest (b :: sorted')) in *.
  set (c2 := foldl addSpecial c1 _) in *.
  set (c3 := foldl addFromGroup c2 _) in *.
  set (c4 := foldl addFromGroup c3 _) in *.
  set (c5 := fillPriceVariety _ _ c4) in *.
  assert (Grows deals c2 c5) as (ext25 & Htop25 & Hext25).
  { eapply Grows_trans; [|eapply Grows_trans];
      [apply Grows_addFromGroups | apply Grows_addFromGroups
       | by apply Grows_fillPriceVariety].
    - unfold periods, bucketsOf. simpl.
      repeat constructor; apply take_filter_pool.
    - apply Forall_forall. intros g Hg.
      apply list_elem_of_fmap in Hg as ([a g'] & -> & Hin). simpl.
      apply map_get_elem in Hin; [|done].
      rewrite Hget in Hin. simpl in Hin.
      apply groupEntry_Some in Hin as [_ ->]. apply take_filter_pool. }
  assert (Grows deals c1 c2) as (ext12 & Htop12 & Hext12)
    by (by apply Grows_addSpecial).
  exists b, (ext12 ++ ext25). split_and!.
  - done.
  - rewrite Htop. f_equal. rewrite Htop25, Htop12. unfold c1. simpl.
    by rewrite <- ?app_assoc.
  - by apply Forall_app.
  - intros Hlen d Hd Hstd.
    assert (Tracked deals c1) as Hc1.
    { apply Tracked_push.
      - split_and!; simpl; [constructor | set_solver | constructor].
      - apply Forall_cons in Hsorted as [? _]. done.
      - set_solver. }
    destruct (Tracked_addSpecial deals _ c1 Hlen Hc1 Hspecial) as [_ Hall].
    fold c2 in Hall.
    specialize (Hall d). rewrite Htop12 in Hall. unfold c1 in Hall.
    simpl in Hall.
    rewrite app_comm_cons, fmap_app. apply elem_of_app. left.
    apply Hall. by apply list_elem_of_filter.
Qed.

End WithClock.
End Selection.

(** X4: the curator invents nothing: every deal of [topDeals] is one of the
    deals it was given. *)
Theorem curated_deals_come_from_input (getHours : string → option Z)
    (deals : list Types.Deal) :
  Forall (λ d, d ∈ deals)
    (ResultGrouper.topDeals
       (ResultGrouper.groupAndCurateResults getHours deals)).
Proof.
  destruct deals as [|d0 rest]; [constructor|].
  destruct (curate_shape getHours d0 rest) as (b & ext & Hb & -> & Hext & _).
  unfold ResultGrouper.sortByPrice. rewrite sort_by_Permutation.
  constructor; [|done].
  apply head_Some_elem_of in Hb. unfold ResultGrouper.sortByPrice in Hb.
  by rewrite sort_by_Permutation in Hb.
Qed.

(** X5: on a non-empty input, [bestOverall] is a deal of the input that no
    other deal undercuts, and it is the first deal of [topDeals]: the
    cheapest deal is always curated. *)
Theorem cheapest_deal_is_curated_first (getHours : string → option Z)
    (deals : list Types.Deal) :
  deals ≠ [] →
  ∃ b,
    ResultGrouper.bestOverall
      (ResultGrouper.groupAndCurateResults getHours deals) = Some b
    ∧ head (ResultGrouper.topDeals
              (ResultGrouper.groupAndCurateResults getHours deals)) = Some b
    ∧ b ∈ deals
    ∧ ∀ d, d ∈ deals → Types.priceUsd b ≤ Types.priceUsd d.
Proof.
  intros Hne. destruct deals as [|d0 rest]; [done|].
  destruct (curate_shape getHours d0 rest) as (b & ext & Hb & Htop & Hext & _).
  assert (∀ d, d ∈ d0 :: rest → Types.priceUsd b ≤ Types.priceUsd d) as Hmin.
  { intros d Hd. by eapply sort_by_head_min. }
  exists b. split_and!; [exact Hb| | |exact Hmin].
  - rewrite Htop. apply sort_by_head_least.
    intros y Hy. apply Hmin. rewrite Forall_forall in Hext. by apply Hext.
  - apply head_Some_elem_of in Hb. unfold ResultGrouper.sortByPrice in Hb.
    by rewrite sort_by_Permutation in Hb.
Qed.

(** X6: when at most 30 deals are given, no special deal is lost: the key
    of every deal whose strategy is not [standard] is the key of a deal of
    [topDeals]. *)
Theorem special_deals_are_kept (getHours : string → option Z)
    (deals : list Types.Deal) (d : Types.Deal) :
  (length deals ≤ 30)%nat → d ∈ deals →
  Types.strategy d ≠ Types.Standard →
  ResultGrouper.getFlightKey d
  ∈ ResultGrouper.getFlightKey
      <$> ResultGrouper.topDeals
            (ResultGrouper.groupAndCurateResults getHours deals).
Proof.
  intros Hlen Hd Hs. destruct deals as [|d0 rest]; [by apply elem_of_nil in Hd|].
  destruct (curate_shape getHours d0 rest) as (b & ext & _ & -> & _ & Hkeep).
  unfold ResultGrouper.sortByPrice. rewrite sort_by_Permutation.
  by apply Hkeep.
Qed.

Lemma cheapest_deal_is_curated_first_witness :
  ∃ b,
    ResultGrouper.bestOverall
      (ResultGrouper.groupAndCurateResults Samples.clock Samples.mixedDeals)
    = Some b
    ∧ head (ResultGrouper.topDeals
              (ResultGrouper.groupAndCurateResults Samples.clock
                 Samples.mixedDeals)) = Some b
    ∧ b ∈ Samples.mixedDeals
    ∧ ∀ d, d ∈ Samples.mixedDeals → Types.priceUsd b ≤ Types.priceUsd d.
Proof.
  apply (cheapest_deal_is_curated_first Samples.clock Samples.mixedDeals).
  discriminate.
Defined.

Lemma special_deals_are_kept_witness :
  ResultGrouper.getFlightKey Samples.hiddenCityDeal
  ∈ ResultGrouper.getFlightKey
      <$> ResultGrouper.topDeals
            (ResultGrouper.groupAndCurateResults Samples.clock
               Samples.mixedDeals).
Proof.
  apply (special_deals_are_kept Samples.clock Samples.mixedDeals
           Samples.hiddenCityDeal).
  - simpl. lia.
  - right. left.
  - discriminate.
Defined.

(** ** The categories of the analyser *)

Section Categories.
Import SerpApi DataAnalyzer Props.
Variable getHours : string → option Z.
Variable toLocaleTimeString : string → string.
Variable showPercent : Z → Z → string.

Lemma createDeal_key (flight : SerpFlightResult) (leg : FlightLeg)
    (o d dt e : string) (risk : Z) :
  head (flights flight) = Some leg →
  ResultGrouper.getFlightKey (createDeal flight o d dt e risk)
  = analyserKey leg.
Proof.
  intros Hleg. unfold ResultGrouper.getFlightKey, createDeal, analyserKey.
  simpl. destruct (flights flight) as [|leg' ?]; simplify_eq/=. done.
Qed.

Local Ltac analyser_cases :=
  repeat first
    [ progress cbn [redEyeDeals layoverDeals budgetAirlineDeals
                    connectingDeals timeBasedDeals pushRedEye pushLayover
                    pushBudgetAirline pushConnecting pushTimeBased fst snd]
    | match goal with
      | |- context [redEyeDeals (if ?c then _ else _)] => destruct c eqn:?
      | |- context [redEyeDeals (match ?h with Some _ => _ | None => _ end)] =>
          destruct h eqn:?
      end ].

Lemma analyzeFlight_skips (o d dt : string) (total n cheapest : Z)
    (r : AnalysisResult) (seen : gset string) (flight : SerpFlightResult) :
  (∀ leg, head (flights flight) = Some leg → analyserKey leg ∈ seen) →
  analyzeFlight getHours toLocaleTimeString showPercent o d dt total n
    cheapest (r, seen) flight = (r, seen).
Proof.
  intros Hseen. unfold analyzeFlight.
  destruct (flights flight) as [|leg others]; [done|].
  fold (analyserKey leg). rewrite decide_True; [done|]. by apply Hseen.
Qed.

Lemma analyzeFlight_shape (o d dt : string) (total n cheapest : Z)
    (r : AnalysisResult) (seen : gset string) (flight : SerpFlightResult)
    (leg : FlightLeg) :
  head (flights flight) = Some leg → analyserKey leg ∉ seen →
  let r' := fst (analyzeFlight getHours toLocaleTimeString showPercent o d dt
                   total n cheapest (r, seen) flight) in
  snd (analyzeFlight getHours toLocaleTimeString showPercent o d dt total n
         cheapest (r, seen) flight) = {[ analyserKey leg ]} ∪ seen
  ∧ CategoryStep flight leg o d dt 5 (redEyeCond getHours)
      (redEyeDeals r) (redEyeDeals r')
  ∧ CategoryStep flight leg o d dt 10 layoverCond
      (layoverDeals r) (layoverDeals r')
  ∧ CategoryStep flight leg o d dt 15 budgetCond
      (budgetAirlineDeals r) (budgetAirlineDeals r')
  ∧ CategoryStep flight leg o d dt 10 (connectingCond cheapest)
      (connectingDeals r) (connectingDeals r')
  ∧ CategoryStep flight leg o d dt 5 (earlyCond getHours)
      (timeBasedDeals r) (timeBasedDeals r').
Proof.
  intros Hleg Hnew. unfold analyzeFlight.
  destruct (flights flight) as [|leg' others] eqn:Hlegs; [done|].
  injection Hleg as ->.
  fold (analyserKey leg). rewrite decide_False by done.
  cbv zeta. cbn [fst snd].
  assert (∀ b1 b2 : bool,
            b1 || b2 = true →
            b1 = bool_decide (1 < length (leg :: others))%nat →
            b2 = bool_decide
                   (0 < default 0%nat (length <$> layovers leg))%nat →
            layoverCond flight leg) as Hlay.
  { intros b1 b2 Hor -> ->. unfold layoverCond. rewrite Hlegs.
    apply orb_true_iff in Hor as [H1|H2].
    - left. by apply bool_decide_eq_true in H1.
    - right. apply bool_decide_eq_true in H2.
      destruct (layovers leg) as [ls|]; simpl in H2; [|lia].
      exists ls. split; [done|]. by destruct ls; [simpl in H2; lia|]. }
  split; [done|].
  unfold CategoryStep. analyser_cases.
  all: split_and!; try (by left); right; (split; [|by eexists]).
  all: try (unfold redEyeCond, earlyCond; by eauto).
  all: try (eapply Hlay; [eassumption|reflexivity|reflexivity]).
  all: try (unfold budgetCond;
            match goal with
            | H : existsb _ _ = true |- _ =>
                apply existsb_exists in H as (ba & Hba & Hinc);
                exists ba; by rewrite list_elem_of_In
            end).
  all: match goal with
       | H : true && _ = true |- _ =>
           simpl in H; apply bool_decide_eq_true in H;
           split; [eapply Hlay; [eassumption|reflexivity|reflexivity]|lia]
       end.
Qed.

Section Category.
Variables (fs : list SerpFlightResult) (o d dt : string) (risk : Z).
Variable cond : SerpFlightResult → FlightLeg → Prop.

Lemma CategoryOk_nil (seen : gset string) :
  CategoryOk fs o d dt risk cond seen [].
Proof. split_and!; [constructor | constructor | by intros ? ?%elem_of_nil]. Qed.

Lemma CategoryOk_step (seen : gset string) (flight : SerpFlightResult)
    (leg : FlightLeg) (l l' : list Types.Deal) :
  flight ∈ fs → head (flights flight) = Some leg → analyserKey leg ∉ seen →
  CategoryOk fs o d dt risk cond seen l →
  CategoryStep flight leg o d dt risk cond l l' →
  CategoryOk fs o d dt risk cond ({[ analyserKey leg ]} ∪ seen) l'.
Proof.
  intros Hin Hleg Hnew (Hmade & Hnd & Hseen) [->|(Hcond & e & ->)].
  - split_and!; [done|done|]. intros x Hx. apply elem_of_union_r. by apply Hseen.
  - split_and!.
    + apply Forall_app. split; [done|]. constructor; [|constructor].
      by exists flight, leg, e.
    + rewrite fmap_app. apply NoDup_app.
      split_and!; [done| |apply NoDup_singleton].
      intros k Hk ->%list_elem_of_singleton.
      apply list_elem_of_fmap in Hk as (x & Hkx & Hx).
      apply Hnew. rewrite (createDeal_key flight leg) in Hkx by done.
      rewrite Hkx. by apply Hseen.
    + intros x [Hx|Hx]%elem_of_app.
      * apply elem_of_union_r. by apply Hseen.
      * apply list_elem_of_singleton in Hx as ->.
        rewrite (createDeal_key flight leg) by done.
        apply elem_of_union_l. by apply elem_of_singleton.
Qed.

Lemma CategoryOk_sorted (seen : gset string) (l : list Types.Deal) :
  CategoryOk fs o d dt risk cond seen l →
  Forall (madeFrom fs o d dt risk cond) (sortDeals l)
  ∧ NoDup (ResultGrouper.getFlightKey <$> sortDeals l)
  ∧ nonDecreasing (sortDeals l).
Proof.
  intros (Hmade & Hnd & _). unfold sortDeals. split_and!.
  - by rewrite sort_by_Permutation.
  - by rewrite sort_by_Permutation.
  - apply sort_by_sorted.
Qed.

End Category.

Lemma analyzeFlight_categories (fs : list SerpFlightResult) (o d dt : string)
    (total n cheapest : Z) (acc : AnalysisResult * gset string)
    (flight : SerpFlightResult) :
  flight ∈ fs →
  CategoriesOk getHours fs o d dt cheapest (snd acc) (fst acc) →
  CategoriesOk getHours fs o d dt cheapest
    (snd (analyzeFlight getHours toLocaleTimeString showPercent o d dt total n
            cheapest acc flight))
    (fst (analyzeFlight getHours toLocaleTimeString showPercent o d dt total n
            cheapest acc flight)).
Proof.
  intros Hin Hacc. destruct acc as [r seen].
  destruct (head (flights flight)) as [leg|] eqn:Hleg.
  - destruct (decide (analyserKey leg ∈ seen)) as [Hseen|Hnew].
    + rewrite analyzeFlight_skips; [done|].
      intros leg' Hleg'. rewrite Hleg in Hleg'. by injection Hleg' as <-.
    + destruct (analyzeFlight_shape o d dt total n cheapest r seen flight leg
                  Hleg Hnew) as (-> & S1 & S2 & S3 & S4 & S5).
      destruct Hacc as (C1 & C2 & C3 & C4 & C5). simpl in C1, C2, C3, C4, C5.
      split_and!; eapply CategoryOk_step; eauto.
  - rewrite analyzeFlight_skips; [done|].
    intros leg' Hleg'. by rewrite Hleg in Hleg'.
Qed.

Lemma analyzeFlights_categories (fs : list SerpFlightResult) (o d dt : string)
    (total n cheapest : Z) (todo : list SerpFlightResult)
    (acc : AnalysisResult * gset string) :
  Forall (λ f, f ∈ fs) todo →
  CategoriesOk getHours fs o d dt cheapest (snd acc) (fst acc) →
  CategoriesOk getHours fs o d dt cheapest
    (snd (foldl (analyzeFlight getHours toLocaleTimeString showPercent o d dt
                   total n cheapest) acc todo))
    (fst (foldl (analyzeFlight getHours toLocaleTimeString showPercent o d dt
                   total n cheapest) acc todo)).
Proof.
  intros Htodo. revert acc.
  induction Htodo as [|f todo Hf _ IH]; intros acc Hacc; simpl; [done|].
  apply IH. by apply analyzeFlight_categories.
Qed.

(** Each category of the analysis, after its final sort. *)
Lemma analyzeFlightData_categories (fs : list SerpFlightResult)
    (o d dt : string) :
  let r := analyzeFlightData getHours toLocaleTimeString showPercent fs o d dt
  in
  (Forall (madeFrom fs o d dt 5 (redEyeCond getHours)) (redEyeDeals r)
   ∧ NoDup (ResultGrouper.getFlightKey <$> redEyeDeals r)
   ∧ nonDecreasing (redEyeDeals r))
  ∧ (Forall (madeFrom fs o d dt 10 layoverCond) (layoverDeals r)
     ∧ NoDup (ResultGrouper.getFlightKey <$> layoverDeals r)
     ∧ nonDecreasing (layoverDeals r))
  ∧ (Forall (madeFrom fs o d dt 15 budgetCond) (budgetAirlineDeals r)
     ∧ NoDup (ResultGrouper.getFlightKey <$> budgetAirlineDeals r)
     ∧ nonDecreasing (budgetAirlineDeals r))
  ∧ (Forall (madeFrom fs o d dt 10 (connectingCond (referencePrice fs)))
       (connectingDeals r)
     ∧ NoDup (ResultGrouper.getFlightKey <$> connectingDeals r)
     ∧ nonDecreasing (connectingDeals r))
  ∧ (Forall (madeFrom fs o d dt 5 (earlyCond getHours)) (timeBasedDeals r)
     ∧ NoDup (ResultGrouper.getFlightKey <$> timeBasedDeals r)
     ∧ nonDecreasing (timeBasedDeals r)).
Proof.
  cbv zeta. unfold analyzeFlightData.
  destruct fs as [|first rest] eqn:Hfs.
  { simpl. repeat split; constructor. }
  rewrite <- Hfs. cbv zeta.
  match goal with
  | |- context [foldl (analyzeFlight _ _ _ _ _ _ ?t ?n ?c) ?init fs] =>
      pose proof (analyzeFlights_categories fs o d dt t n c fs init) as Hall
  end.
  destruct Hall as (C1 & C2 & C3 & C4 & C5).
  { apply Forall_forall. auto. }
  { simpl. split_and!; apply CategoryOk_nil. }
  assert (referencePrice fs = cheapestDirectPrice fs (price first)) as ->
    by (by rewrite Hfs).
  cbn [redEyeDeals layoverDeals budgetAirlineDeals connectingDeals
       timeBasedDeals].
  rewrite Hfs in *.
  split_and!; eapply CategoryOk_sorted; eassumption.
Qed.

End Categories.

(** X7: every category of [analyzeFlightData] is sorted non-decreasing by
    price and lists no flight twice: within a category no two deals share
    the key (airline, flight number, departure time) under which the
    curator deduplicates. *)
Theorem analyser_categories_sorted_and_distinct
    (getHours : string → option Z) (toLocaleTimeString : string → string)
    (showPercent : Z → Z → string) (flights : list SerpApi.SerpFlightResult)
    (origin destination departureDate : string) :
  let r := DataAnalyzer.analyzeFlightData getHours toLocaleTimeString
             showPercent flights origin destination departureDate in
  Forall (λ category,
            Props.nonDecreasing category
            ∧ NoDup (ResultGrouper.getFlightKey <$> category))
    [DataAnalyzer.redEyeDeals r; DataAnalyzer.layoverDeals r;
     DataAnalyzer.budgetAirlineDeals r; DataAnalyzer.connectingDeals r;
     DataAnalyzer.timeBasedDeals r].
Proof.
  cbv zeta.
  destruct (analyzeFlightData_categories getHours toLocaleTimeString
              showPercent flights origin destination departureDate)
    as ((_ & ? & ?) & (_ & ? & ?) & (_ & ? & ?) & (_ & ? & ?) & (_ & ? & ?)).
  repeat constructor; done.
Qed.

(** X8: every deal of [analyzeFlightData] is made by [createDeal] from an
    itinerary of the input that has a first leg, with the risk of its
    category, and the itinerary meets the category's condition: a red-eye
    deal (risk 5) leaves at 22 or later or at 5 or earlier, a time-based
    deal (risk 5) between 6 and 8, a layover deal (risk 10) has several
    legs or a layover on its first leg, a budget deal (risk 15) has a
    first-leg airline that contains a budget carrier's name, and a
    connecting deal (risk 10) has a layover and costs more than 20 dollars
    less than the reference price. *)
Theorem analyser_categories_sound
    (getHours : string → option Z) (toLocaleTimeString : string → string)
    (showPercent : Z → Z → string) (flights : list SerpApi.SerpFlightResult)
    (origin destination departureDate : string) :
  let r := DataAnalyzer.analyzeFlightData getHours toLocaleTimeString
             showPercent flights origin destination departureDate in
  let made := Props.madeFrom flights origin destination departureDate in
  Forall (made 5 (Props.redEyeCond getHours)) (DataAnalyzer.redEyeDeals r)
  ∧ Forall (made 5 (Props.earlyCond getHours)) (DataAnalyzer.timeBasedDeals r)
  ∧ Forall (made 10 Props.layoverCond) (DataAnalyzer.layoverDeals r)
  ∧ Forall (made 15 Props.budgetCond) (DataAnalyzer.budgetAirlineDeals r)
  ∧ Forall (made 10 (Props.connectingCond (Props.referencePrice flights)))
      (DataAnalyzer.connectingDeals r).
Proof.
  cbv zeta.
  destruct (analyzeFlightData_categories getHours toLocaleTimeString
              showPercent flights origin destination departureDate)
    as ((? & _) & (? & _) & (? & _) & (? & _) & (? & _)).
  done.
Qed.

(** ** The selectors of [smartSearch.ts] *)

Section Selectors.
Import SmartSearch.

Lemma elem_of_concrete_neq (x y : string) (l : list string) :
  x ∈ l → Forall (λ z, z ≠ y) l → x ≠ y.
Proof. intros Hx Hall. rewrite Forall_forall in Hall. by apply Hall. Qed.

Lemma not_excluded (h o d : string) :
  ¬ (h ≠ o ∧ h ≠ d) → o = h ∨ d = h.
Proof.
  intros Hn. destruct (decide (o = h)) as [|Ho]; [by left|].
  destruct (decide (d = h)) as [|Hd]; [by right|].
  exfalso. apply Hn. split; congruence.
Qed.

End Selectors.

Lemma selectSmartAlternatives_cases (airport : string) (basePrice : Z) :
  (airport ∉ SmartSearch.selectSmartAlternatives airport basePrice)
  ∧ NoDup (SmartSearch.selectSmartAlternatives airport basePrice)
  ∧ (basePrice < 100 →
     (length (SmartSearch.selectSmartAlternatives airport basePrice) ≤ 1)%nat)
  ∧ (basePrice < 200 →
     (length (SmartSearch.selectSmartAlternatives airport basePrice) ≤ 2)%nat)
  ∧ (length (SmartSearch.selectSmartAlternatives airport basePrice) ≤ 4)%nat.
Proof.
  unfold SmartSearch.selectSmartAlternatives, SmartSearch.allAlternatives.
  cbn [Js.map_get].
  repeat (case_decide; simplify_eq); simpl.
  all: split_and!;
    [ first [ apply not_elem_of_nil
            | by apply (bool_decide_unpack _); vm_compute ]
    | first [ apply NoDup_nil_2
            | by apply (bool_decide_unpack _); vm_compute ]
    | intros; simpl; lia.. ].
Qed.

(** X9: [selectSmartAlternatives] never proposes the airport itself and no
    airport twice; it proposes at most one alternative under 100 dollars,
    at most two under 200 dollars and at most four otherwise. *)
Theorem selectSmartAlternatives_bounds (airport : string) (basePrice : Z) :
  Js.plainKey airport →
  (airport ∉ SmartSearch.selectSmartAlternatives airport basePrice)
  ∧ NoDup (SmartSearch.selectSmartAlternatives airport basePrice)
  ∧ (basePrice < 100 →
     (length (SmartSearch.selectSmartAlternatives airport basePrice) ≤ 1)%nat)
  ∧ (basePrice < 200 →
     (length (SmartSearch.selectSmartAlternatives airport basePrice) ≤ 2)%nat)
  ∧ (length (SmartSearch.selectSmartAlternatives airport basePrice) ≤ 4)%nat.
Proof. intros _. apply selectSmartAlternatives_cases. Qed.

Lemma selectSmartHubs_cases (origin destination : string) (basePrice : Z) :
  (basePrice < 120 →
   SmartSearch.selectSmartHubs origin destination basePrice = [])
  ∧ (120 ≤ basePrice →
     ∃ hub, SmartSearch.selectSmartHubs origin destination basePrice = [hub]
            ∧ hub ≠ origin ∧ hub ≠ destination).
Proof.
  unfold SmartSearch.selectSmartHubs.
  case_decide; (split; intros; [done || lia | try lia]).
  cbv zeta.
  destruct (bool_decide (origin ∈ _) && bool_decide (destination ∈ _))
    eqn:Hew.
  { apply andb_true_iff in Hew as [Ho Hd].
    apply bool_decide_eq_true in Ho, Hd.
    exists "DEN". split_and!; [done| |]; intros ?; subst.
    - revert Ho. by apply (bool_decide_unpack _).
    - revert Hd. by apply (bool_decide_unpack _). }
  clear Hew.
  destruct (bool_decide (origin ∈ _) && bool_decide (destination ∈ _))
    eqn:Hwe.
  { apply andb_true_iff in Hwe as [Ho Hd].
    apply bool_decide_eq_true in Ho, Hd.
    exists "ORD". split_and!; [done| |]; intros ?; subst.
    - revert Ho. by apply (bool_decide_unpack _).
    - revert Hd. by apply (bool_decide_unpack _). }
  clear Hwe.
  rewrite filter_cons. case_decide as H1;
    [eexists; split; [reflexivity | exact H1]|].
  rewrite filter_cons. case_decide as H2;
    [eexists; split; [reflexivity | exact H2]|].
  rewrite filter_cons. case_decide as H3;
    [eexists; split; [reflexivity | exact H3]|].
  exfalso.
  apply not_excluded in H1, H2, H3.
  destruct H1 as [?|?], H2 as [?|?], H3 as [?|?]; congruence.
Qed.

(** X10: [selectSmartHubs] proposes no hub under 120 dollars, and from 120
    dollars on exactly one hub, which is neither the origin nor the
    destination. *)
Theorem selectSmartHubs_one_hub (origin destination : string)
    (basePrice : Z) :
  (basePrice < 120 →
   SmartSearch.selectSmartHubs origin destination basePrice = [])
  ∧ (120 ≤ basePrice →
     ∃ hub, SmartSearch.selectSmartHubs origin destination basePrice = [hub]
            ∧ hub ≠ origin ∧ hub ≠ destination).
Proof. apply selectSmartHubs_cases. Qed.

(** X11: [selectSmartBeyondCities] proposes at most two beyond cities and
    never the destination itself. *)
Theorem selectSmartBeyondCities_bounds (origin destination : string) :
  Js.plainKey destination →
  (length (SmartSearch.selectSmartBeyondCities origin destination) ≤ 2)%nat
  ∧ (destination ∉ SmartSearch.selectSmartBeyondCities origin destination).
Proof.
  intros _. unfold SmartSearch.selectSmartBeyondCities. cbv zeta.
  destruct (bool_decide (origin ∈ _) && bool_decide (destination ∈ _)).
  - split; [rewrite length_take; lia|].
    intros Hin%subseteq_take.
    by apply list_elem_of_filter in Hin as [[_ ?] _].
  - unfold SmartSearch.beyondCities. cbn [Js.map_get].
    repeat (case_decide; simplify_eq); simpl.
    all: split;
      [ lia
      | first [ apply not_elem_of_nil
              | by apply (bool_decide_unpack _); vm_compute ] ].
Qed.

Lemma selectSmartAlternatives_bounds_witness :
  ("LAX" ∉ SmartSearch.selectSmartAlternatives "LAX" 150)
  ∧ NoDup (SmartSearch.selectSmartAlternatives "LAX" 150)
  ∧ (150 < 100 →
     (length (SmartSearch.selectSmartAlternatives "LAX" 150) ≤ 1)%nat)
  ∧ (150 < 200 →
     (length (SmartSearch.selectSmartAlternatives "LAX" 150) ≤ 2)%nat)
  ∧ (length (SmartSearch.selectSmartAlternatives "LAX" 150) ≤ 4)%nat.
Proof.
  apply (selectSmartAlternatives_bounds "LAX" 150).
  by apply (bool_decide_unpack _); vm_compute.
Defined.

Lemma selectSmartHubs_one_hub_witness :
  SmartSearch.selectSmartHubs "JFK" "LAX" 100 = []
  ∧ ∃ hub, SmartSearch.selectSmartHubs "BOS" "MIA" 400 = [hub]
           ∧ hub ≠ "BOS" ∧ hub ≠ "MIA".
Proof.
  split.
  - apply (proj1 (selectSmartHubs_one_hub "JFK" "LAX" 100)). lia.
  - apply (proj2 (selectSmartHubs_one_hub "BOS" "MIA" 400)). lia.
Defined.

Lemma selectSmartBeyondCities_bounds_witness :
  (length (SmartSearch.selectSmartBeyondCities "SFO" "LAX") ≤ 2)%nat
  ∧ ("LAX" ∉ SmartSearch.selectSmartBeyondCities "SFO" "LAX").
Proof.
  apply (selectSmartBeyondCities_bounds "SFO" "LAX").
  by apply (bool_decide_unpack _); vm_compute.
Defined.

(** ** Provider calls spent by the strategies *)

Section Spending.
Import SmartSearch DealFinder Props.
Variable provider : list Call → Call → Outcome.
Variable roundPercent : Z → Z → Z.
Variable dayBefore : string → option string.

Lemma Spends_ret {A : Type} (a : A) : Spends 0 (Eff.ret a).
Proof. intros s. exists []. simpl. rewrite app_nil_r. split_and!; [done|lia|lia]. Qed.

Lemma Spends_bind {A B : Type} (n m : nat) (c : Eff.M State A)
    (k : A → Eff.M State B) :
  Spends n c → (∀ a, Spends m (k a)) → Spends (n + m) (Eff.bind c k).
Proof.
  intros Hc Hk s. unfold Eff.bind.
  destruct (Hc s) as (i1 & Hp1 & Hc1 & Hl1).
  destruct (c s) as [a s1]. simpl in *.
  destruct (Hk a s1) as (i2 & Hp2 & Hc2 & Hl2).
  exists (i1 ++ i2). rewrite Hp2, Hp1, Hc2, Hc1, length_app, <- app_assoc.
  split_and!; [done|lia|lia].
Qed.

Lemma Spends_weaken {A : Type} (n m : nat) (c : Eff.M State A) :
  (n ≤ m)%nat → Spends n c → Spends m c.
Proof.
  intros Hle Hc s. destruct (Hc s) as (i & ? & ? & ?).
  exists i. split_and!; [done|done|lia].
Qed.

Lemma Spends_smartSearchFlights (o d dt : string) (rd : option string)
    (reason : string) :
  Spends 1 (SmartSearch.smartSearchFlights provider o d dt rd reason).
Proof.
  intros s. unfold SmartSearch.smartSearchFlights. case_decide.
  - exists []. simpl. rewrite app_nil_r. split_and!; [done|lia|lia].
  - eexists [_]. destruct (provider _ _); simpl; split_and!; done || lia.
Qed.

Lemma Spends_checkOrigins (o d dt : string) (basePrice : Z)
    (alts : list string) (deals : list DealOpportunity) :
  Spends (length alts)
    (checkOrigins provider roundPercent o d dt basePrice alts deals).
Proof.
  revert deals. induction alts as [|a alts IH]; intros deals; simpl.
  - apply Spends_ret.
  - apply (Spends_bind 1); [apply Spends_smartSearchFlights|].
    intros found. apply IH.
Qed.

Lemma Spends_checkDestinations (o d dt : string) (basePrice : Z)
    (alts : list string) (deals : list DealOpportunity) :
  Spends (length alts)
    (checkDestinations provider roundPercent o d dt basePrice alts deals).
Proof.
  revert deals. induction alts as [|a alts IH]; intros deals; simpl.
  - apply Spends_ret.
  - apply (Spends_bind 1); [apply Spends_smartSearchFlights|].
    intros found. apply IH.
Qed.

Lemma Spends_findNearbyAirportDeals (o d dt : string) (basePrice : Z)
    (n : nat) :
  basePrice < 70
  ∨ (length (selectSmartAlternatives o basePrice)
     + length (selectSmartAlternatives d basePrice) ≤ n)%nat →
  Spends n (findNearbyAirportDeals provider roundPercent o d dt basePrice).
Proof.
  intros Hn. unfold findNearbyAirportDeals. case_decide.
  - eapply Spends_weaken; [|apply Spends_ret]. lia.
  - destruct Hn as [?|Hn]; [lia|].
    eapply Spends_weaken; [exact Hn|].
    apply Spends_bind; [apply Spends_checkOrigins|].
    intros deals. apply Spends_checkDestinations.
Qed.

Lemma Spends_checkHubs (o d dt : string) (basePrice : Z)
    (hubs : list string) (deals : list DealOpportunity) :
  Spends (2 * length hubs)
    (checkHubs provider roundPercent o d dt basePrice hubs deals).
Proof.
  revert deals. induction hubs as [|h hubs IH]; intros deals; simpl.
  - apply Spends_ret.
  - eapply Spends_weaken; [|apply (Spends_bind 1 (1 + 2 * length hubs))].
    + lia.
    + apply Spends_smartSearchFlights.
    + intros leg1. apply (Spends_bind 1); [apply Spends_smartSearchFlights|].
      intros leg2. apply IH.
Qed.

Lemma Spends_checkCities (o d dt : string) (basePrice : Z)
    (cities : list string) (deals : list DealOpportunity) :
  Spends (2 * length cities)
    (checkCities provider roundPercent dayBefore o d dt basePrice cities
       deals).
Proof.
  revert deals. induction cities as [|c cities IH]; intros deals;
    cbn [checkCities length].
  - apply Spends_ret.
  - assert (∀ ds, Spends (2 * S (length cities))
                    (checkCities provider roundPercent dayBefore o d dt
                       basePrice cities ds)) as Hrest.
    { intros ds. eapply Spends_weaken; [|apply IH]. lia. }
    cbv zeta. case_decide; [apply Hrest|].
    destruct (dayBefore dt) as [pos|]; [|apply Hrest].
    eapply Spends_weaken; [|apply (Spends_bind 1 (1 + 2 * length cities))].
    + lia.
    + apply Spends_smartSearchFlights.
    + intros [|p0 ?].
      { eapply Spends_weaken; [|apply IH]. lia. }
      apply (Spends_bind 1); [apply Spends_smartSearchFlights|].
      intros [|m0 ?]; apply IH.
Qed.

End Spending.

Section Strategies.
Import SmartSearch DealFinder Props.
Variable provider : list Call → Call → Outcome.
Variable roundPercent : Z → Z → Z.
Variable dayBefore : string → option string.

(** *** With the budget spent *)

Lemma exhausted_search (o d dt : string) (rd : option string)
    (reason : string) (s : State) :
  (15 ≤ apiCallCount s)%nat →
  SmartSearch.smartSearchFlights provider o d dt rd reason s = ([], s).
Proof. intros Hs. unfold SmartSearch.smartSearchFlights. by case_decide. Qed.

Lemma checkOrigins_exhausted (o d dt : string) (basePrice : Z)
    (alts : list string) (deals : list DealOpportunity) (s : State) :
  (15 ≤ apiCallCount s)%nat →
  checkOrigins provider roundPercent o d dt basePrice alts deals s
  = (deals, s).
Proof.
  intros Hs. revert deals. induction alts as [|a alts IH]; intros deals;
    simpl; [done|].
  unfold Eff.bind, DealFinder.smartSearchFlights.
  rewrite exhausted_search by done. simpl. by rewrite app_nil_r.
Qed.

Lemma checkDestinations_exhausted (o d dt : string) (basePrice : Z)
    (alts : list string) (deals : list DealOpportunity) (s : State) :
  (15 ≤ apiCallCount s)%nat →
  checkDestinations provider roundPercent o d dt basePrice alts deals s
  = (deals, s).
Proof.
  intros Hs. revert deals. induction alts as [|a alts IH]; intros deals;
    simpl; [done|].
  unfold Eff.bind, DealFinder.smartSearchFlights.
  rewrite exhausted_search by done. simpl. by rewrite app_nil_r.
Qed.

Lemma checkHubs_exhausted (o d dt : string) (basePrice : Z)
    (hubs : list string) (deals : list DealOpportunity) (s : State) :
  (15 ≤ apiCallCount s)%nat →
  checkHubs provider roundPercent o d dt basePrice hubs deals s = (deals, s).
Proof.
  intros Hs. revert deals. induction hubs as [|h hubs IH]; intros deals;
    simpl; [done|].
  unfold Eff.bind. rewrite !exhausted_search by done. simpl.
  by rewrite app_nil_r.
Qed.

Lemma checkCities_exhausted (o d dt : string) (basePrice : Z)
    (cities : list string) (deals : list DealOpportunity) (s : State) :
  (15 ≤ apiCallCount s)%nat →
  checkCities provider roundPercent dayBefore o d dt basePrice cities deals s
  = (deals, s).
Proof.
  intros Hs. revert deals. induction cities as [|c cities IH]; intros deals;
    cbn [checkCities]; [done|].
  cbv zeta. case_decide; [apply IH|].
  destruct (dayBefore dt); [|apply IH].
  unfold Eff.bind. rewrite exhausted_search by done. apply IH.
Qed.

(** *** Nearby airports *)

Lemma nearbyDeal_saving (basePrice : Z) (technique route : string)
    (found : list SerpApi.SerpFlightResult) :
  technique ∈ ["nearby-origin"; "nearby-destination"] →
  Forall (nearbySaving basePrice)
    (nearbyDeal roundPercent basePrice technique route found).
Proof.
  intros Ht. unfold nearbyDeal. destruct found as [|best ?]; [constructor|].
  case_decide as Hp; [|constructor].
  destruct (isDirect best); [|constructor].
  repeat constructor. exists best. simpl. split_and!; [done|done|lia|done].
Qed.

Lemma checkOrigins_saving (o d dt : string) (basePrice : Z)
    (alts : list string) (deals : list DealOpportunity) (s : State) :
  Forall (nearbySaving basePrice) deals →
  Forall (nearbySaving basePrice)
    (fst (checkOrigins provider roundPercent o d dt basePrice alts deals s)).
Proof.
  revert deals s. induction alts as [|a alts IH]; intros deals s Hd; simpl;
    [done|].
  unfold Eff.bind. destruct (DealFinder.smartSearchFlights provider _ _ _ _ _ s).
  apply IH. apply Forall_app. split; [done|].
  apply nearbyDeal_saving. by left.
Qed.

Lemma checkDestinations_saving (o d dt : string) (basePrice : Z)
    (alts : list string) (deals : list DealOpportunity) (s : State) :
  Forall (nearbySaving basePrice) deals →
  Forall (nearbySaving basePrice)
    (fst (checkDestinations provider roundPercent o d dt basePrice alts
            deals s)).
Proof.
  revert deals s. induction alts as [|a alts IH]; intros deals s Hd; simpl;
    [done|].
  unfold Eff.bind. destruct (DealFinder.smartSearchFlights provider _ _ _ _ _ s).
  apply IH. apply Forall_app. split; [done|].
  apply nearbyDeal_saving. right. by left.
Qed.

(** *** Split tickets *)

Lemma splitDeal_ok (o d hub : string) (basePrice : Z)
    (leg1 leg2 : list SerpApi.SerpFlightResult) :
  Forall (pairOk "split-ticket" 85 basePrice)
    (splitDeal roundPercent o d hub basePrice leg1 leg2)
  ∧ (length (splitDeal roundPercent o d hub basePrice leg1 leg2) ≤ 1)%nat.
Proof.
  unfold splitDeal. destruct leg1 as [|l1 ?], leg2 as [|l2 ?];
    try (split; [constructor | simpl; lia]).
  case_decide; [|split; [constructor | simpl; lia]].
  split; [|simpl; lia]. repeat constructor. by exists l1, l2.
Qed.

Lemma checkHubs_ok (o d dt : string) (basePrice : Z) (hubs : list string)
    (deals : list DealOpportunity) (s : State) :
  Forall (pairOk "split-ticket" 85 basePrice) deals →
  Forall (pairOk "split-ticket" 85 basePrice)
    (fst (checkHubs provider roundPercent o d dt basePrice hubs deals s))
  ∧ (length (fst (checkHubs provider roundPercent o d dt basePrice hubs
                    deals s))
     ≤ length deals + length hubs)%nat.
Proof.
  revert deals s. induction hubs as [|h hubs IH]; intros deals s Hd; simpl.
  - split; [done|lia].
  - unfold Eff.bind.
    destruct (SmartSearch.smartSearchFlights provider o h dt None _ s)
      as [leg1 s1].
    destruct (SmartSearch.smartSearchFlights provider h d dt None _ s1)
      as [leg2 s2].
    destruct (splitDeal_ok o d h basePrice leg1 leg2) as [Hok Hlen].
    destruct (IH (deals ++ splitDeal roundPercent o d h basePrice leg1 leg2)
                s2) as [Hall Hl]; [by apply Forall_app|].
    split; [done|]. rewrite length_app in Hl. lia.
Qed.

(** *** Positioning flights *)

Lemma positioningDeal_ok (o d city : string) (basePrice : Z)
    (pos main : SerpApi.SerpFlightResult) :
  Forall (pairOk "positioning-flight" 75 basePrice)
    (positioningDeal roundPercent o d city basePrice pos main)
  ∧ (length (positioningDeal roundPercent o d city basePrice pos main) ≤ 1)%nat.
Proof.
  unfold positioningDeal. case_decide; [|split; [constructor | simpl; lia]].
  split; [|simpl; lia]. repeat constructor. by exists pos, main.
Qed.

Lemma checkCities_ok (o d dt : string) (basePrice : Z) (cities : list string)
    (deals : list DealOpportunity) (s : State) :
  Forall (pairOk "positioning-flight" 75 basePrice) deals →
  Forall (pairOk "positioning-flight" 75 basePrice)
    (fst (checkCities provider roundPercent dayBefore o d dt basePrice cities
            deals s))
  ∧ (length (fst (checkCities provider roundPercent dayBefore o d dt
                    basePrice cities deals s))
     ≤ length deals + length cities)%nat.
Proof.
  revert deals s. induction cities as [|c cities IH]; intros deals s Hd;
    cbn [checkCities length].
  - simpl. split; [done|lia].
  - assert (∀ s',
              Forall (pairOk "positioning-flight" 75 basePrice)
                (fst (checkCities provider roundPercent dayBefore o d dt
                        basePrice cities deals s'))
              ∧ (length (fst (checkCities provider roundPercent dayBefore o d
                                dt basePrice cities deals s'))
                 ≤ length deals + S (length cities))%nat) as Hskip.
    { intros s'. destruct (IH deals s' Hd). split; [done|lia]. }
    cbv zeta. case_decide; [apply Hskip|].
    destruct (dayBefore dt) as [posDate|]; [|apply Hskip].
    unfold Eff.bind.
    destruct (SmartSearch.smartSearchFlights provider o c posDate None _ s)
      as [[|pos ?] s1]; [apply Hskip|].
    destruct (SmartSearch.smartSearchFlights provider c d dt None _ s1)
      as [[|main ?] s2]; [apply Hskip|].
    destruct (positioningDeal_ok o d c basePrice pos main) as [Hok Hlen].
    destruct (IH (deals ++ positioningDeal roundPercent o d c basePrice pos
                             main) s2) as [Hall Hl];
      [by apply Forall_app|].
    split; [done|]. rewrite length_app in Hl. lia.
Qed.

End Strategies.

(** *** Connecting flights *)

Lemma isConnecting_not_direct (f : SerpApi.SerpFlightResult) :
  DealFinder.isConnecting f = true → DealFinder.isDirect f = false.
Proof.
  unfold DealFinder.isConnecting, DealFinder.isDirect.
  destruct (SerpApi.flights f) as [|leg [|leg' rest]]; simpl; [done| |done].
  destruct (SerpApi.layovers leg) as [ls|]; [|done].
  rewrite orb_false_r. intros Hls%bool_decide_eq_true.
  apply bool_decide_eq_false. destruct ls; simpl in *; lia.
Qed.

(** X12: [findNearbyAirportDeals] makes at most 8 provider calls, at most 4
    when the base price is under 200 dollars, at most 2 when it is under
    100 dollars and none when it is under 70 dollars; every call it makes
    is counted. *)
Theorem nearby_search_call_budget
    (provider : list SmartSearch.Call → SmartSearch.Call → SmartSearch.Outcome)
    (roundPercent : Z → Z → Z) (origin destination departureDate : string)
    (basePrice : Z) :
  Js.plainKey origin → Js.plainKey destination →
  Props.Spends 8
    (DealFinder.findNearbyAirportDeals provider roundPercent origin
       destination departureDate basePrice)
  ∧ (basePrice < 200 →
     Props.Spends 4
       (DealFinder.findNearbyAirportDeals provider roundPercent origin
          destination departureDate basePrice))
  ∧ (basePrice < 100 →
     Props.Spends 2
       (DealFinder.findNearbyAirportDeals provider roundPercent origin
          destination departureDate basePrice))
  ∧ (basePrice < 70 →
     Props.Spends 0
       (DealFinder.findNearbyAirportDeals provider roundPercent origin
          destination departureDate basePrice)).
Proof.
  intros _ _.
  destruct (selectSmartAlternatives_cases origin basePrice)
    as (_ & _ & Ho1 & Ho2 & Ho4).
  destruct (selectSmartAlternatives_cases destination basePrice)
    as (_ & _ & Hd1 & Hd2 & Hd4).
  split_and!; intros; apply Spends_findNearbyAirportDeals.
  - right. lia.
  - right. specialize (Ho2 ltac:(done)). specialize (Hd2 ltac:(done)). lia.
  - right. specialize (Ho1 ltac:(done)). specialize (Hd1 ltac:(done)). lia.
  - by left.
Qed.

(** X13: every opportunity of [findNearbyAirportDeals] records as savings the
    base price less the price of its itinerary, which is more than 15% of
    the base price, and is labelled nearby-origin or nearby-destination. *)
Theorem nearby_deal_savings
    (provider : list SmartSearch.Call → SmartSearch.Call → SmartSearch.Outcome)
    (roundPercent : Z → Z → Z) (origin destination departureDate : string)
    (basePrice : Z) (s : SmartSearch.State) :
  Js.plainKey origin → Js.plainKey destination →
  Forall (Props.nearbySaving basePrice)
    (fst (DealFinder.findNearbyAirportDeals provider roundPercent origin
            destination departureDate basePrice s)).
Proof.
  intros _ _.
  unfold DealFinder.findNearbyAirportDeals. case_decide; [constructor|].
  unfold Eff.bind.
  pose proof (checkOrigins_saving provider roundPercent origin destination
                departureDate basePrice
                (SmartSearch.selectSmartAlternatives origin basePrice) [] s)
    as Ho.
  destruct (DealFinder.checkOrigins _ _ _ _ _ _ _ _ s) as [deals s1].
  apply checkDestinations_saving. apply Ho. constructor.
Qed.

(** X14: once the counter has reached 15, the three searching strategies
    (nearby airports, split tickets, positioning flights) return no deal
    and leave the state as it is: no call, no count.  The airports are
    keys for which the table of alternatives can be consulted. *)
Theorem strategies_idle_when_budget_spent
    (provider : list SmartSearch.Call → SmartSearch.Call → SmartSearch.Outcome)
    (roundPercent : Z → Z → Z) (dayBefore : string → option string)
    (origin destination departureDate : string) (basePrice : Z)
    (s : SmartSearch.State) :
  Js.plainKey origin → Js.plainKey destination →
  (15 ≤ SmartSearch.getApiCallCount s)%nat →
  DealFinder.findNearbyAirportDeals provider roundPercent origin destination
    departureDate basePrice s = ([], s)
  ∧ DealFinder.findSplitTicketDeals provider roundPercent origin destination
      departureDate basePrice s = ([], s)
  ∧ DealFinder.findPositioningFlightDeals provider roundPercent dayBefore
      origin destination departureDate basePrice s = ([], s).
Proof.
  intros _ _ Hs. unfold SmartSearch.getApiCallCount in Hs. split_and!.
  - unfold DealFinder.findNearbyAirportDeals. case_decide; [done|].
    unfold Eff.bind. rewrite checkOrigins_exhausted by done.
    by apply checkDestinations_exhausted.
  - unfold DealFinder.findSplitTicketDeals. repeat case_decide; try done.
    by apply checkHubs_exhausted.
  - unfold DealFinder.findPositioningFlightDeals. case_decide; [done|].
    by apply checkCities_exhausted.
Qed.

(** X15: [findSplitTicketDeals] returns at most one opportunity, and an
    opportunity carries exactly two itineraries whose prices sum to less
    than 85% of the base price; its savings are the base price less that
    sum. *)
Theorem split_ticket_deals
    (provider : list SmartSearch.Call → SmartSearch.Call → SmartSearch.Outcome)
    (roundPercent : Z → Z → Z) (origin destination departureDate : string)
    (basePrice : Z) (s : SmartSearch.State) :
  Forall (Props.pairOk "split-ticket" 85 basePrice)
    (fst (DealFinder.findSplitTicketDeals provider roundPercent origin
            destination departureDate basePrice s))
  ∧ (length (fst (DealFinder.findSplitTicketDeals provider roundPercent
                    origin destination departureDate basePrice s)) ≤ 1)%nat.
Proof.
  unfold DealFinder.findSplitTicketDeals.
  case_decide; [split; [constructor | simpl; lia]|].
  case_decide; [split; [constructor | simpl; lia]|].
  destruct (checkHubs_ok provider roundPercent origin destination
              departureDate basePrice
              (SmartSearch.selectSmartHubs origin destination basePrice) [] s)
    as [Hall Hlen]; [constructor|].
  split; [done|].
  destruct (selectSmartHubs_cases origin destination basePrice) as [Hlow Hhigh].
  destruct (decide (basePrice < 120)) as [Hp|Hp].
  - exfalso. match goal with H : length _ ≠ 0%nat |- _ => apply H end.
    by rewrite Hlow.
  - destruct Hhigh as (hub & Hhub & _); [lia|].
    rewrite Hhub in Hlen |- *. exact Hlen.
Qed.

(** X16: [findSplitTicketDeals] makes no provider call when the base price is
    under 120 dollars (the hub selector's threshold, above the function's
    own 90) and at most two counted calls otherwise. *)
Theorem split_ticket_call_budget
    (provider : list SmartSearch.Call → SmartSearch.Call → SmartSearch.Outcome)
    (roundPercent : Z → Z → Z) (origin destination departureDate : string)
    (basePrice : Z) :
  (basePrice < 120 →
   ∀ s, DealFinder.findSplitTicketDeals provider roundPercent origin
          destination departureDate basePrice s = ([], s))
  ∧ Props.Spends 2
      (DealFinder.findSplitTicketDeals provider roundPercent origin
         destination departureDate basePrice).
Proof.
  destruct (selectSmartHubs_cases origin destination basePrice) as [Hlow Hhigh].
  unfold DealFinder.findSplitTicketDeals. split.
  - intros Hp s. case_decide; [done|]. rewrite Hlow by done. done.
  - case_decide; [eapply Spends_weaken; [|apply Spends_ret]; lia|].
    case_decide; [eapply Spends_weaken; [|apply Spends_ret]; lia|].
    eapply Spends_weaken; [|apply Spends_checkHubs].
    destruct (decide (basePrice < 120)) as [Hp|Hp].
    + rewrite Hlow by done. simpl. lia.
    + destruct Hhigh as (hub & -> & _); [lia|]. simpl. lia.
Qed.

(** X17: [findPositioningFlightDeals] returns at most two opportunities, and
    an opportunity carries exactly two itineraries (the positioning flight
    and the main flight) whose prices sum to less than 75% of the base
    price; its savings are the base price less that sum. *)
Theorem positioning_deals
    (provider : list SmartSearch.Call → SmartSearch.Call → SmartSearch.Outcome)
    (roundPercent : Z → Z → Z) (dayBefore : string → option string)
    (origin destination departureDate : string) (basePrice : Z)
    (s : SmartSearch.State) :
  Forall (Props.pairOk "positioning-flight" 75 basePrice)
    (fst (DealFinder.findPositioningFlightDeals provider roundPercent
            dayBefore origin destination departureDate basePrice s))
  ∧ (length (fst (DealFinder.findPositioningFlightDeals provider roundPercent
                    dayBefore origin destination departureDate basePrice s))
     ≤ 2)%nat.
Proof.
  unfold DealFinder.findPositioningFlightDeals.
  case_decide; [split; [constructor | simpl; lia]|].
  by apply (checkCities_ok provider roundPercent dayBefore origin destination
              departureDate basePrice ["FLL"; "MIA"] [] s).
Qed.

(** X18: [findPositioningFlightDeals] makes no provider call when the base
    price is under 300 dollars or the departure date is no date, and at
    most four counted calls otherwise. *)
Theorem positioning_call_budget
    (provider : list SmartSearch.Call → SmartSearch.Call → SmartSearch.Outcome)
    (roundPercent : Z → Z → Z) (dayBefore : string → option string)
    (origin destination departureDate : string) (basePrice : Z) :
  (basePrice < 300 ∨ dayBefore departureDate = None →
   ∀ s, DealFinder.findPositioningFlightDeals provider roundPercent dayBefore
          origin destination departureDate basePrice s = ([], s))
  ∧ Props.Spends 4
      (DealFinder.findPositioningFlightDeals provider roundPercent dayBefore
         origin destination departureDate basePrice).
Proof.
  unfold DealFinder.findPositioningFlightDeals. split.
  - intros Hskip s. case_decide; [done|].
    destruct Hskip as [?|Hdate]; [lia|].
    cbn [DealFinder.checkCities]. cbv zeta. rewrite Hdate.
    by repeat case_decide.
  - case_decide; [eapply Spends_weaken; [|apply Spends_ret]; lia|].
    apply (Spends_checkCities provider roundPercent dayBefore origin
             destination departureDate basePrice ["FLL"; "MIA"] []).
Qed.

(** X19: [findBestConnectingFlights] keeps itineraries of its input in their
    order; none of those it keeps is a direct flight and each costs less
    than 90% of the direct price; filtering its result again changes
    nothing. *)
Theorem connecting_flights_filter (flights : list SerpApi.SerpFlightResult)
    (directPrice : Z) :
  DealFinder.findBestConnectingFlights flights directPrice `sublist_of` flights
  ∧ Forall (λ f, DealFinder.isDirect f = false
                 ∧ 10 * SerpApi.price f < 9 * directPrice)
      (DealFinder.findBestConnectingFlights flights directPrice)
  ∧ DealFinder.findBestConnectingFlights
      (DealFinder.findBestConnectingFlights flights directPrice) directPrice
    = DealFinder.findBestConnectingFlights flights directPrice.
Proof.
  unfold DealFinder.findBestConnectingFlights. cbv zeta. split_and!.
  - etrans; apply sublist_filter.
  - apply Forall_forall. intros f [Hp [Hc _]%list_elem_of_filter]%list_elem_of_filter.
    split; [by apply isConnecting_not_direct | done].
  - rewrite !list_filter_filter. apply list_filter_iff. intros f. tauto.
Qed.

Example split_search_through_denver :
  (λ r, (DealFinder.savings <$> fst r, SmartSearch.getApiCallCount (snd r)))
    (DealFinder.findSplitTicketDeals (Samples.fareProvider Samples.denverFares)
       Samples.exactRound "JFK" "LAX" "2026-03-01" 400 Samples.freshState)
  = ([70], 2%nat).
Proof. by vm_compute. Qed.

Example positioning_through_fort_lauderdale :
  (λ r, (DealFinder.savings <$> fst r, SmartSearch.getApiCallCount (snd r)))
    (DealFinder.findPositioningFlightDeals
       (Samples.fareProvider Samples.floridaFares) Samples.exactRound
       Samples.sampleDayBefore "JFK" "LHR" "2026-03-01" 400
       Samples.freshState)
  = ([140], 3%nat).
Proof. by vm_compute. Qed.

Example connecting_filter_sample :
  DealFinder.findBestConnectingFlights Samples.dearerDirectFirst 300
  = [Samples.viaDenver 250].
Proof. by vm_compute. Qed.

Lemma nearby_search_call_budget_witness :
  Props.Spends 8
    (DealFinder.findNearbyAirportDeals Samples.newarkProvider
       Samples.exactRound "JFK" "LAX" "2026-03-01" 400)
  ∧ Props.Spends 4
      (DealFinder.findNearbyAirportDeals Samples.newarkProvider
         Samples.exactRound "JFK" "LAX" "2026-03-01" 150)
  ∧ Props.Spends 2
      (DealFinder.findNearbyAirportDeals Samples.newarkProvider
         Samples.exactRound "JFK" "LAX" "2026-03-01" 80)
  ∧ Props.Spends 0
      (DealFinder.findNearbyAirportDeals Samples.newarkProvider
         Samples.exactRound "JFK" "LAX" "2026-03-01" 60).
Proof.
  assert (Js.plainKey "JFK") as Hj by (by apply (bool_decide_unpack _); vm_compute).
  assert (Js.plainKey "LAX") as Hl by (by apply (bool_decide_unpack _); vm_compute).
  split_and!.
  - apply (nearby_search_call_budget Samples.newarkProvider Samples.exactRound
             "JFK" "LAX" "2026-03-01" 400 Hj Hl).
  - apply (nearby_search_call_budget Samples.newarkProvider Samples.exactRound
             "JFK" "LAX" "2026-03-01" 150 Hj Hl). lia.
  - apply (nearby_search_call_budget Samples.newarkProvider Samples.exactRound
             "JFK" "LAX" "2026-03-01" 80 Hj Hl). lia.
  - apply (nearby_search_call_budget Samples.newarkProvider Samples.exactRound
             "JFK" "LAX" "2026-03-01" 60 Hj Hl). lia.
Defined.

Lemma strategies_idle_when_budget_spent_witness :
  DealFinder.findNearbyAirportDeals Samples.newarkProvider Samples.exactRound
    "JFK" "LAX" "2026-03-01" 400 Samples.afterTwenty
  = ([], Samples.afterTwenty)
  ∧ DealFinder.findSplitTicketDeals Samples.newarkProvider Samples.exactRound
      "JFK" "LAX" "2026-03-01" 400 Samples.afterTwenty
    = ([], Samples.afterTwenty)
  ∧ DealFinder.findPositioningFlightDeals Samples.newarkProvider
      Samples.exactRound Samples.sampleDayBefore "JFK" "LAX" "2026-03-01" 400
      Samples.afterTwenty
    = ([], Samples.afterTwenty).
Proof.
  apply (strategies_idle_when_budget_spent Samples.newarkProvider
           Samples.exactRound Samples.sampleDayBefore "JFK" "LAX" "2026-03-01"
           400 Samples.afterTwenty).
  - by apply (bool_decide_unpack _); vm_compute.
  - by apply (bool_decide_unpack _); vm_compute.
  - vm_compute. constructor.
Defined.

Lemma nearby_deal_savings_witness :
  Forall (Props.nearbySaving 400)
    (fst (DealFinder.findNearbyAirportDeals Samples.newarkProvider
            Samples.exactRound "JFK" "LAX" "2026-03-01" 400
            Samples.freshState)).
Proof.
  apply (nearby_deal_savings Samples.newarkProvider Samples.exactRound
           "JFK" "LAX" "2026-03-01" 400 Samples.freshState).
  - by apply (bool_decide_unpack _); vm_compute.
  - by apply (bool_decide_unpack _); vm_compute.
Defined.

Lemma split_ticket_call_budget_witness :
  DealFinder.findSplitTicketDeals (Samples.fareProvider Samples.denverFares)
    Samples.exactRound "JFK" "LAX" "2026-03-01" 100 Samples.freshState
  = ([], Samples.freshState).
Proof.
  apply (proj1 (split_ticket_call_budget
                  (Samples.fareProvider Samples.denverFares)
                  Samples.exactRound "JFK" "LAX" "2026-03-01" 100)).
  lia.
Defined.

Lemma positioning_call_budget_witness :
  DealFinder.findPositioningFlightDeals
    (Samples.fareProvider Samples.floridaFares) Samples.exactRound
    Samples.sampleDayBefore "JFK" "LHR" "2026-03-01" 200 Samples.freshState
  = ([], Samples.freshState)
  ∧ DealFinder.findPositioningFlightDeals
      (Samples.fareProvider Samples.floridaFares) Samples.exactRound
      Samples.sampleDayBefore "JFK" "LHR" "tomorrow" 400 Samples.freshState
    = ([], Samples.freshState).
Proof.
  split.
  - apply (proj1 (positioning_call_budget
                    (Samples.fareProvider Samples.floridaFares)
                    Samples.exactRound Samples.sampleDayBefore "JFK" "LHR"
                    "2026-03-01" 200)).
    left. lia.
  - apply (proj1 (positioning_call_budget
                    (Samples.fareProvider Samples.floridaFares)
                    Samples.exactRound Samples.sampleDayBefore "JFK" "LHR"
                    "tomorrow" 400)).
    right. reflexivity.
Defined.

(** ** Airports and award charts *)

Lemma filter_excluding_length (l : list string) (o d : string) :
  NoDup l →
  (length l ≤ length (filter (λ h, h ≠ o ∧ h ≠ d) l) + 2)%nat.
Proof.
  intros Hnd.
  pose proof (filter_app_complement (λ h, h ≠ o ∧ h ≠ d) l) as Hperm.
  apply Permutation_length in Hperm. rewrite length_app in Hperm.
  assert (filter (λ h, ¬ (h ≠ o ∧ h ≠ d)) l ⊆+ [o; d]) as Hsub.
  { apply NoDup_submseteq; [by apply NoDup_filter|].
    intros h [Hh _]%list_elem_of_filter.
    apply not_excluded in Hh as [->| ->]; [left | right; left]. }
  apply submseteq_length in Hsub. simpl in Hsub. lia.
Qed.

Section SortMap.
Context {A B : Type} (key : B → Z) (g : A → B).

Lemma insert_by_fmap (x : A) (l : list A) :
  Js.insert_by key (g x) (g <$> l) = g <$> Js.insert_by (key ∘ g) x l.
Proof.
  induction l as [|y l IH]; csimpl; [done|].
  case_decide; csimpl; [done|]. by rewrite IH.
Qed.

Lemma sort_by_fmap (l : list A) :
  Js.sort_by key (g <$> l) = g <$> Js.sort_by (key ∘ g) l.
Proof.
  induction l as [|x l IH]; csimpl; [done|].
  by rewrite IH, insert_by_fmap.
Qed.

End SortMap.

Lemma omap_known {A B C : Type} (look : A → option C) (f : A → B)
    (l : list A) :
  Forall (λ x, is_Some (look x)) l →
  omap (λ x, match look x with
             | None => None
             | Some _ => Some (f x)
             end) l
  = f <$> l.
Proof.
  induction 1 as [|x l [c Hc] _ IH]; csimpl; [done|].
  by rewrite Hc, IH.
Qed.

Section Airports.
Import AirportData.
Variable toUpperCase : string → string.
Variable haversine : Airport → Airport → Z.

Lemma majorHubs_known :
  Forall (λ hub, is_Some (Js.map_get AIRPORTS hub)) majorHubs.
Proof. repeat constructor; by eexists. Qed.

(** With both airports known, the hubs are the three first of the
    candidate hubs sorted by deviation. *)
Lemma findOptimalHubs_known (origin destination : string) (orig dest : Airport) :
  getAirport toUpperCase origin = Some orig →
  getAirport toUpperCase destination = Some dest →
  findOptimalHubs toUpperCase haversine origin destination
  = take 3 (Js.sort_by (deviation toUpperCase haversine origin destination)
              (filter (λ hub, hub ≠ origin ∧ hub ≠ destination) majorHubs)).
Proof.
  intros Ho Hd. unfold findOptimalHubs. rewrite Ho, Hd. cbv zeta. f_equal.
  set (dev := deviation toUpperCase haversine origin destination).
  rewrite (omap_known (Js.map_get AIRPORTS) (λ hub, (hub, dev hub)))
    by (apply filter_Forall, majorHubs_known).
  rewrite (sort_by_fmap snd (λ hub, (hub, dev hub))).
  rewrite <- list_fmap_compose. apply list_fmap_id.
Qed.

End Airports.

(** X20: [getRouteType] is international exactly when both airports are in
    the table and lie in different countries (an unknown airport makes the
    route domestic), and it does not depend on the direction of travel. *)
Theorem getRouteType_international_iff (toUpperCase : string → string)
    (origin destination : string) :
  (AirportData.getRouteType toUpperCase origin destination
   = AirportData.International
   ↔ ∃ orig dest,
       AirportData.getAirport toUpperCase origin = Some orig
       ∧ AirportData.getAirport toUpperCase destination = Some dest
       ∧ AirportData.country orig ≠ AirportData.country dest)
  ∧ AirportData.getRouteType toUpperCase origin destination
    = AirportData.getRouteType toUpperCase destination origin.
Proof.
  unfold AirportData.getRouteType.
  destruct (AirportData.getAirport toUpperCase origin) as [orig|],
    (AirportData.getAirport toUpperCase destination) as [dest|].
  - split.
    + case_decide as Hc; split.
      * done.
      * intros (? & ? & [= <-] & [= <-] & ?). done.
      * intros _. by exists orig, dest.
      * done.
    + repeat case_decide; congruence.
  - split; [|done]. split; [done | by intros (? & ? & _ & ? & _)].
  - split; [|done]. split; [done | by intros (? & ? & ? & _)].
  - split; [|done]. split; [done | by intros (? & ? & ? & _)].
Qed.

(** X21: for two airports of the table [findOptimalHubs] returns exactly
    three distinct hubs among the nine major ones, none of them the origin
    or the destination as given, in the order of their detour
    ([deviation]), and no candidate left out has a smaller detour than one
    returned; when an airport is not in the table it returns Denver and
    Chicago. *)
Theorem findOptimalHubs_three_best (toUpperCase : string → string)
    (haversine : AirportData.Airport → AirportData.Airport → Z)
    (origin destination : string) :
  let hubs :=
    AirportData.findOptimalHubs toUpperCase haversine origin destination in
  let dev :=
    AirportData.deviation toUpperCase haversine origin destination in
  (AirportData.getAirport toUpperCase origin = None
   ∨ AirportData.getAirport toUpperCase destination = None →
   hubs = ["DEN"; "ORD"])
  ∧ (is_Some (AirportData.getAirport toUpperCase origin) →
     is_Some (AirportData.getAirport toUpperCase destination) →
     length hubs = 3%nat
     ∧ NoDup hubs
     ∧ Forall (λ h, h ∈ AirportData.majorHubs ∧ h ≠ origin ∧ h ≠ destination)
         hubs
     ∧ StronglySorted (λ a b, dev a ≤ dev b) hubs
     ∧ ∀ h other,
         h ∈ hubs → other ∈ AirportData.majorHubs → other ≠ origin →
         other ≠ destination → other ∉ hubs → dev h ≤ dev other).
Proof.
  cbv zeta. split.
  - unfold AirportData.findOptimalHubs. intros [-> | ->]; [done|].
    by destruct (AirportData.getAirport toUpperCase origin).
  - intros [orig Ho] [dest Hd].
    rewrite (findOptimalHubs_known toUpperCase haversine origin destination
               orig dest Ho Hd).
    set (dev := AirportData.deviation toUpperCase haversine origin destination).
    set (cands := filter (λ hub, hub ≠ origin ∧ hub ≠ destination)
                    AirportData.majorHubs).
    assert (NoDup AirportData.majorHubs) as Hnd
      by (by apply (bool_decide_unpack _); vm_compute).
    assert (3 ≤ length cands)%nat as Hlen.
    { pose proof (filter_excluding_length AirportData.majorHubs origin
                    destination Hnd) as Hl.
      fold cands in Hl. simpl in Hl. lia. }
    pose proof (sort_by_Permutation dev cands) as Hperm.
    pose proof (sort_by_sorted dev cands) as Hsorted.
    set (sorted := Js.sort_by dev cands) in *.
    rewrite <- (take_drop 3 sorted) in Hsorted.
    apply StronglySorted_app in Hsorted as (Hle & Htake & _).
    split_and!.
    + rewrite length_take. apply Permutation_length in Hperm. lia.
    + eapply sublist_NoDup; [|apply sublist_take].
      rewrite Hperm. by apply NoDup_filter.
    + apply Forall_forall. intros h Hh%subseteq_take.
      rewrite Hperm in Hh. apply list_elem_of_filter in Hh as [[? ?] ?].
      done.
    + done.
    + intros h other Hh Hmajor Hno Hnd' Hout.
      apply Hle; [done|].
      assert (other ∈ sorted) as Hin.
      { rewrite Hperm. by apply list_elem_of_filter. }
      rewrite <- (take_drop 3 sorted) in Hin.
      apply elem_of_app in Hin as [?|?]; done.
Qed.

(** The origin is compared as given: written in small letters it is found
    in the table but not excluded from the hubs. *)
Example findOptimalHubs_new_york_los_angeles :
  AirportData.findOptimalHubs Samples.asciiUpper Samples.gridMiles "JFK" "LAX"
  = ["DEN"; "EWR"; "ATL"]
  ∧ AirportData.findOptimalHubs Samples.asciiUpper Samples.gridMiles
      "jfk" "LAX" = ["DEN"; "JFK"; "EWR"].
Proof. by vm_compute. Qed.

Lemma findOptimalHubs_three_best_witness :
  length (AirportData.findOptimalHubs Samples.asciiUpper Samples.gridMiles
            "JFK" "LAX") = 3%nat
  ∧ NoDup (AirportData.findOptimalHubs Samples.asciiUpper Samples.gridMiles
             "JFK" "LAX")
  ∧ AirportData.findOptimalHubs Samples.asciiUpper Samples.gridMiles
      "JFK" "XXX" = ["DEN"; "ORD"].
Proof.
  destruct (findOptimalHubs_three_best Samples.asciiUpper Samples.gridMiles
              "JFK" "LAX") as [_ Hknown].
  destruct Hknown as (Hlen & Hnd & _); [by eexists | by eexists |].
  split_and!; [exact Hlen | exact Hnd |].
  apply (proj1 (findOptimalHubs_three_best Samples.asciiUpper
                  Samples.gridMiles "JFK" "XXX")).
  right. reflexivity.
Defined.

(** X22: [calculateAwardMiles] always quotes three programmes, United,
    American and Delta in this order; Delta costs 110% of United's miles
    at United's fees; first class is quoted like business class; and
    business class costs at least twice the economy miles at the same
    fees. *)
Theorem award_quotes_shape (toUpperCase : string → string)
    (haversine : AirportData.Airport → AirportData.Airport → Z)
    (origin destination : string) (cabin : PricingEngine.Cabin) :
  let quote :=
    PricingEngine.calculateAwardMiles toUpperCase haversine origin destination
  in
  PricingEngine.program <$> quote cabin
  = ["United MileagePlus"; "American AAdvantage"; "Delta SkyMiles"]
  ∧ (∃ united american delta,
       quote cabin = [united; american; delta]
       ∧ 10 * PricingEngine.miles delta = 11 * PricingEngine.miles united
       ∧ PricingEngine.fees delta = PricingEngine.fees united
       ∧ 0 < PricingEngine.miles united ∧ 0 < PricingEngine.miles american)
  ∧ quote PricingEngine.First = quote PricingEngine.Business
  ∧ Forall2 (λ economy business,
               PricingEngine.fees economy = PricingEngine.fees business
               ∧ 2 * PricingEngine.miles economy
                 ≤ PricingEngine.miles business)
      (quote PricingEngine.Economy) (quote PricingEngine.Business).
Proof.
  cbv zeta. unfold PricingEngine.calculateAwardMiles. cbv zeta.
  destruct (AirportData.getRouteType toUpperCase origin destination);
    repeat case_decide; destruct cabin; try lia.
  all: split_and!;
    [ reflexivity
    | eexists _, _, _; split; [reflexivity|]; by vm_compute
    | reflexivity
    | repeat constructor; by vm_compute ].
Qed.

(** ** Requests sent by [serpapi.ts] *)

Section Requests.
Import SerpApi Props.
Variable key : string.
Variable fetch : list Request → Request → FetchResult.

Lemma mapM_sends {A B : Type} (f : A → Eff.M (list Request) B)
    (req : A → Request → Prop) :
  (∀ x sent, ∃ r, snd (f x sent) = sent ++ [r] ∧ req x r) →
  ∀ xs sent, ∃ rs, snd (Eff.mapM f xs sent) = sent ++ rs ∧ Forall2 req xs rs.
Proof.
  intros Hf xs. induction xs as [|x xs IH]; intros sent.
  - exists []. simpl. by rewrite app_nil_r.
  - rewrite mapM_cons_state. destruct (Hf x sent) as (r & -> & Hr).
    destruct (IH (sent ++ [r])) as (rs & -> & Hrs).
    exists (r :: rs). rewrite <- app_assoc. split; [done | by constructor].
Qed.

Lemma mapM_results {S A B : Type} (f : A → Eff.M S B) (P : A → B → Prop) :
  (∀ x s, P x (fst (f x s))) →
  ∀ xs s, Forall2 P xs (fst (Eff.mapM f xs s)).
Proof.
  intros Hf xs. induction xs as [|x xs IH]; intros s.
  - constructor.
  - rewrite mapM_cons_result. by constructor.
Qed.

Lemma searchGoogleFlights_one_way (o d dt : string) (sent : list Request) :
  ∃ r, snd (searchGoogleFlights key fetch o d dt None "economy" sent)
       = sent ++ [r]
       ∧ oneWayRequest o d dt r.
Proof. eexists. split; [reflexivity|]. by repeat split. Qed.

Lemma searchBeyond_sends (o d dt hub : string) (sent : list Request) :
  ∃ r, snd (searchBeyond key fetch o d dt hub sent) = sent ++ [r]
       ∧ oneWayRequest o hub dt r.
Proof.
  destruct (searchGoogleFlights_one_way o hub dt sent) as (r & Hr & Hone).
  exists r. split; [|done]. unfold searchBeyond, Eff.bind.
  destruct (searchGoogleFlights _ _ _ _ _ _ _ sent). simpl in *. done.
Qed.

Lemma searchDate_sends (o d date : string) (sent : list Request) :
  ∃ r, snd (searchDate key fetch o d date sent) = sent ++ [r]
       ∧ oneWayRequest o d date r.
Proof.
  destruct (searchGoogleFlights_one_way o d date sent) as (r & Hr & Hone).
  exists r. split; [|done]. unfold searchDate, Eff.bind.
  destruct (searchGoogleFlights _ _ _ _ _ _ _ sent). simpl in *. done.
Qed.

Lemma beyond_sublist (hubs : list string)
    (settled : list (option HiddenCityResult)) :
  Forall2 (λ hub res, ∀ r, res = Some r → beyondDestination r = hub)
    hubs settled →
  beyondDestination <$> omap id settled `sublist_of` hubs.
Proof.
  induction 1 as [|hub res hubs settled Hres _ IH]; csimpl; [done|].
  destruct res as [r|]; csimpl.
  - rewrite (Hres r) by done. by apply sublist_skip.
  - by apply sublist_cons.
Qed.

Lemma beyond_hubs (o d : string) :
  let hubs := take 5 (filter (λ hub, hub ≠ o ∧ hub ≠ d) majorHubs) in
  length hubs = 5%nat ∧ NoDup hubs
  ∧ Forall (λ hub, hub ∈ majorHubs ∧ hub ≠ o ∧ hub ≠ d) hubs.
Proof.
  cbv zeta.
  assert (NoDup majorHubs) as Hnd
    by (by apply (bool_decide_unpack _); vm_compute).
  pose proof (filter_excluding_length majorHubs o d Hnd) as Hlen.
  simpl length in Hlen at 1. split_and!.
  - rewrite length_take. lia.
  - eapply sublist_NoDup; [|apply sublist_take]. by apply NoDup_filter.
  - apply Forall_forall. intros hub Hhub%subseteq_take.
    apply list_elem_of_filter in Hhub as [[? ?] ?]. done.
Qed.

End Requests.

(** X23: whatever the origin and the destination, [searchHiddenCityFlights]
    sends exactly five requests, outside the call budget of
    [smartSearchFlights]: one-way economy searches from the origin on the
    given date to five different major hubs, none of them the origin or the
    destination.  It returns at most five results, for different beyond
    destinations, each with at least one flight. *)
Theorem hidden_city_search_requests (key : string)
    (fetch : list SerpApi.Request → SerpApi.Request → SerpApi.FetchResult)
    (origin destination departureDate : string)
    (sent : list SerpApi.Request) :
  let run :=
    SerpApi.searchHiddenCityFlights key fetch origin destination
      departureDate sent in
  (∃ hubs requests,
     snd run = sent ++ requests
     ∧ length requests = 5%nat
     ∧ NoDup hubs
     ∧ Forall (λ hub, hub ∈ SerpApi.majorHubs ∧ hub ≠ origin
                      ∧ hub ≠ destination) hubs
     ∧ Forall2 (λ hub r, Props.oneWayRequest origin hub departureDate r)
         hubs requests)
  ∧ (length (fst run) ≤ 5)%nat
  ∧ NoDup (SerpApi.beyondDestination <$> fst run)
  ∧ Forall (λ r, SerpApi.hiddenCityFlights r ≠ []) (fst run).
Proof.
  cbv zeta. unfold SerpApi.searchHiddenCityFlights, Eff.bind, Eff.ret.
  destruct (beyond_hubs origin destination) as (Hlen & Hnd & Hhubs).
  set (hubs := take 5 _) in *.
  destruct (mapM_sends
              (SerpApi.searchBeyond key fetch origin destination departureDate)
              (λ hub r, Props.oneWayRequest origin hub departureDate r)
              (searchBeyond_sends key fetch origin destination departureDate)
              hubs sent) as (requests & Hsent & Hreq).
  pose proof (mapM_results
                (SerpApi.searchBeyond key fetch origin destination
                   departureDate)
                (λ hub res, ∀ r, res = Some r →
                   SerpApi.beyondDestination r = hub
                   ∧ SerpApi.hiddenCityFlights r ≠ [])
                (λ hub s r Hr,
                   let H := searchBeyond_result key fetch origin destination
                              departureDate hub s r Hr in
                   conj (proj1 H) (proj1 (proj2 H)))
                hubs sent) as Hres.
  destruct (Eff.mapM _ hubs sent) as [settled sent'] eqn:Hrun.
  simpl in *. subst sent'.
  assert (SerpApi.beyondDestination <$> omap id settled `sublist_of` hubs)
    as Hsub.
  { apply beyond_sublist. eapply Forall2_impl; [exact Hres|].
    intros hub res H r Hr. by apply H. }
  split_and!.
  - exists hubs, requests. split_and!; [done| |done|done|done].
    apply Forall2_length in Hreq. lia.
  - apply sublist_length in Hsub. rewrite length_fmap in Hsub. lia.
  - by eapply sublist_NoDup.
  - apply Forall_forall. intros r (res & Hin & Heq)%list_elem_of_omap.
    simpl in Heq. subst res.
    apply list_elem_of_lookup in Hin as [i Hi].
    destruct (Forall2_lookup_r _ _ _ i (Some r) Hres Hi) as (hub & _ & Hr).
    by apply (Hr r).
Qed.

Lemma elem_of_dayOffsets (dayRange i : Z) :
  i ∈ SerpApi.dayOffsets dayRange ↔ - dayRange ≤ i ≤ dayRange.
Proof.
  unfold SerpApi.dayOffsets. rewrite list_elem_of_fmap. split.
  - intros (k & -> & Hk%elem_of_seq). lia.
  - intros Hi. exists (Z.to_nat (i + dayRange)). split; [lia|].
    apply elem_of_seq. lia.
Qed.

(** X24: when every day from [dayRange] days before to [dayRange] days after
    the centre date can be computed, [searchFlexibleDates] sends one
    one-way economy request per day, [2 * dayRange + 1] of them in date
    order, and returns only dates of that window for which at least one
    flight was found. *)
Theorem flexible_dates_search (key : string)
    (fetch : list SerpApi.Request → SerpApi.Request → SerpApi.FetchResult)
    (shiftDate : string → Z → option string) (day : Z → string)
    (origin destination centerDate : string) (dayRange : Z)
    (sent : list SerpApi.Request) :
  (∀ i, - dayRange ≤ i ≤ dayRange →
        shiftDate centerDate i = Some (day i)) →
  ∃ requests results,
    SerpApi.searchFlexibleDates key fetch shiftDate origin destination
      centerDate dayRange sent
    = (Some results, sent ++ requests)
    ∧ length requests = Z.to_nat (2 * dayRange + 1)
    ∧ Forall2 (λ i r, Props.oneWayRequest origin destination (day i) r)
        (SerpApi.dayOffsets dayRange) requests
    ∧ Forall (λ r, (∃ i, - dayRange ≤ i ≤ dayRange
                         ∧ SerpApi.date r = day i)
                   ∧ SerpApi.dateFlights r ≠ []) results.
Proof.
  intros Hday. unfold SerpApi.searchFlexibleDates.
  assert (mapM (shiftDate centerDate) (SerpApi.dayOffsets dayRange)
          = Some (day <$> SerpApi.dayOffsets dayRange)) as ->.
  { apply mapM_Some. apply Forall2_fmap_r, Forall_Forall2_diag.
    apply Forall_forall. intros i Hi%elem_of_dayOffsets. by apply Hday. }
  unfold Eff.bind, Eff.ret.
  destruct (mapM_sends (SerpApi.searchDate key fetch origin destination)
              (λ date r, Props.oneWayRequest origin destination date r)
              (searchDate_sends key fetch origin destination)
              (day <$> SerpApi.dayOffsets dayRange) sent)
    as (requests & Hsent & Hreq).
  pose proof (mapM_results (SerpApi.searchDate key fetch origin destination)
                (λ date r, SerpApi.date r = date)
                (λ date s, eq_refl)
                (day <$> SerpApi.dayOffsets dayRange) sent) as Hres.
  destruct (Eff.mapM _ _ sent) as [results sent'] eqn:Hrun.
  simpl in *. subst sent'.
  rewrite Forall2_fmap_l in Hreq.
  exists requests. eexists. split_and!; [reflexivity| |exact Hreq|].
  - apply Forall2_length in Hreq. rewrite <- Hreq.
    unfold SerpApi.dayOffsets. by rewrite length_fmap, length_seq.
  - apply Forall_forall. intros r [Hflights Hr]%list_elem_of_filter.
    split.
    + apply list_elem_of_lookup in Hr as [k Hk].
      destruct (Forall2_lookup_r _ _ _ k r Hres Hk) as (date & Hdate & ->).
      apply list_elem_of_lookup_2, list_elem_of_fmap in Hdate
        as (i & -> & Hi%elem_of_dayOffsets).
      by exists i.
    + intros Hnil. rewrite Hnil in Hflights. simpl in Hflights. lia.
Qed.

Lemma flexible_dates_search_witness :
  ∃ requests results,
    SerpApi.searchFlexibleDates "key" Samples.losAngelesFetch
      Samples.marchShift "JFK" "LAX" "2026-03-10" 1 []
    = (Some results, [] ++ requests)
    ∧ length requests = Z.to_nat (2 * 1 + 1)
    ∧ Forall2 (λ i r, Props.oneWayRequest "JFK" "LAX" (Samples.marchDay i) r)
        (SerpApi.dayOffsets 1) requests
    ∧ Forall (λ r, (∃ i, - 1 ≤ i ≤ 1
                         ∧ SerpApi.date r = Samples.marchDay i)
                   ∧ SerpApi.dateFlights r ≠ []) results.
Proof.
  apply (flexible_dates_search "key" Samples.losAngelesFetch
           Samples.marchShift Samples.marchDay "JFK" "LAX" "2026-03-10" 1 []).
  intros i _. reflexivity.
Defined.

(** X25: when one day of the window cannot be computed (the centre date is no
    date), [searchFlexibleDates] fails before it sends any request. *)
Theorem flexible_dates_invalid_date (key : string)
    (fetch : list SerpApi.Request → SerpApi.Request → SerpApi.FetchResult)
    (shiftDate : string → Z → option string)
    (origin destination centerDate : string) (dayRange i : Z)
    (sent : list SerpApi.Request) :
  - dayRange ≤ i ≤ dayRange →
  shiftDate centerDate i = None →
  SerpApi.searchFlexibleDates key fetch shiftDate origin destination
    centerDate dayRange sent
  = (None, sent).
Proof.
  intros Hi Hnone. unfold SerpApi.searchFlexibleDates.
  assert (mapM (shiftDate centerDate) (SerpApi.dayOffsets dayRange) = None)
    as ->; [|done].
  apply mapM_None, Exists_exists. exists i.
  split; [by apply elem_of_dayOffsets | done].
Qed.

Lemma flexible_dates_invalid_date_witness :
  SerpApi.searchFlexibleDates "key" Samples.losAngelesFetch
    Samples.marchShift "JFK" "LAX" "soon" 1 []
  = (None, []).
Proof.
  apply (flexible_dates_invalid_date "key" Samples.losAngelesFetch
           Samples.marchShift "JFK" "LAX" "soon" 1 0); [lia | reflexivity].
Defined.
